(** * Reseller-Solutions: the financial calculator, the Eigenbeleg PDF writer
      and the spreadsheet export, embedded in Rocq.

    Sources embedded here:
      - lib/calculations        [calculateDeviceFinancials]
      - lib/pdf/eigenbeleg.ts   [loadLogoAsBase64], [PdfWriter], [generateEigenbeleg]
      - the generate-receipt route handler (the part that builds the options)
      - devices/actions         [exportDevicesToExcel]

    Numbers.  A JavaScript number is an IEEE-754 double.  Every amount handled
    by the program is a decimal with two fraction digits (NUMERIC(10,2) in the
    schema), so numbers are modelled as exact rationals [Q]: no rounding, no
    NaN, no infinities.  The falsy test of [||] is "equal to zero".

    Absent values.  A field typed [T | null | undefined] is a [nullable T]. *)

From Stdlib Require Import QArith ZArith NArith String Ascii List Bool Lia Lqa.
From Stdlib Require Import DecimalString DecimalN.
Import ListNotations.

Local Open Scope Q_scope.
Local Open Scope string_scope.

(* ===================================================================== *)
(** ** JavaScript values and operators used by the sources *)
(* ===================================================================== *)

Module Js.

Inductive nullable (T : Type) : Type :=
| Undefined : nullable T
| Null : nullable T
| Def (x : T) : nullable T.
Arguments Undefined {T}.
Arguments Null {T}.
Arguments Def {T} x.

(** [a > b] on numbers. *)
Definition gt (a b : Q) : bool := negb (Qle_bool a b).

(** Truthiness of [number | null | undefined]: 0 is falsy. *)
Definition truthy_num (v : nullable Q) : bool :=
  match v with
  | Def q => negb (Qeq_bool q 0)
  | _ => false
  end.

(** [a || b] where both sides are [number | null | undefined]. *)
Definition or_else (a b : nullable Q) : nullable Q :=
  if truthy_num a then a else b.

(** [a || d] where [d] is a number literal: the result is a number. *)
Definition or_num (a : nullable Q) (d : Q) : Q :=
  match a with
  | Def q => if Qeq_bool q 0 then d else q
  | _ => d
  end.

(** [a || d] where [d] is a string literal. *)
Definition or_str (a : nullable string) (d : string) : string :=
  match a with
  | Def s => if String.eqb s "" then d else s
  | _ => d
  end.

(** [a ?? b]: only null and undefined fall through. *)
Definition coalesce {T} (a b : nullable T) : nullable T :=
  match a with
  | Def _ => a
  | _ => b
  end.

(** [a ?? d] where [d] is a literal. *)
Definition coalesce_lit {T} (a : nullable T) (d : T) : T :=
  match a with
  | Def x => x
  | _ => d
  end.

Definition absent {T} (a : nullable T) : Prop :=
  a = Undefined \/ a = Null.

(** [Math.min(a, b)] *)
Definition min (a b : Q) : Q := if Qle_bool a b then a else b.

(** [lines.length] as a number. *)
Definition len {A} (l : list A) : Q := inject_Z (Z.of_nat (length l)).

(** The result of a call that may throw (or of a promise that may reject). *)
Inductive outcome (A : Type) : Type :=
| Returns (a : A) : outcome A
| Throws : outcome A.
Arguments Returns {A} a.
Arguments Throws {A}.

Definition bind {A B} (c : outcome A) (k : A -> outcome B) : outcome B :=
  match c with
  | Returns a => k a
  | Throws => Throws
  end.

(** [try { c } catch { h }] *)
Definition try_catch {A} (c : outcome A) (h : outcome A) : outcome A :=
  match c with
  | Returns a => Returns a
  | Throws => h
  end.

End Js.
Import Js.

(* ===================================================================== *)
(** ** lib/calculations *)
(* ===================================================================== *)

Module Calculations.

(** The argument of [calculateDeviceFinancials] is typed [any]; these are the
    properties the function reads, each in its camelCase (Prisma) and its
    snake_case (Supabase) spelling. *)
Record device : Type := mkDevice {
  status : string;
  purchasePrice : nullable Q;  purchase_price : nullable Q;
  repairCost : nullable Q;     repair_cost : nullable Q;
  shippingBuy : nullable Q;    shipping_buy : nullable Q;
  shippingSell : nullable Q;   shipping_sell : nullable Q;
  salesFees : nullable Q;      sales_fees : nullable Q;
  salePrice : nullable Q;      sale_price : nullable Q;
  isDiffTax : nullable bool;   is_diff_tax : nullable bool
}.

Record CalculationResult : Type := mkResult {
  totalCosts : Q;
  taxableMargin : Q;
  actualProfit : Q;
  grossProfit : Q;
  vat : Q;
  netProfit : Q;
  isFinal : bool
}.

(** [device.x || device.x_snake || 0] *)
Definition money (camel snake : nullable Q) : Q :=
  or_num (or_else camel snake) 0.

(** [device.isDiffTax ?? device.is_diff_tax ?? true] *)
Definition flag (camel snake : nullable bool) : bool :=
  coalesce_lit (coalesce camel snake) true.

Definition calculateDeviceFinancials (d : device) : CalculationResult :=
  let isSold := String.eqb (status d) "SOLD" in
  let purchasePrice := or_num (or_else (purchasePrice d) (purchase_price d)) 0 in
  let repairCost := or_num (or_else (repairCost d) (repair_cost d)) 0 in
  let shippingBuy := or_num (or_else (shippingBuy d) (shipping_buy d)) 0 in
  let shippingSell := or_num (or_else (shippingSell d) (shipping_sell d)) 0 in
  let salesFees := or_num (or_else (salesFees d) (sales_fees d)) 0 in
  let salePrice := or_num (or_else (salePrice d) (sale_price d)) 0 in
  let isDiffTax := coalesce_lit (coalesce (isDiffTax d) (is_diff_tax d)) true in
  let totalCosts := purchasePrice + repairCost + shippingBuy + shippingSell + salesFees in
  let taxableMargin := salePrice - purchasePrice in
  let actualProfit := salePrice - totalCosts in
  let grossProfit := actualProfit in
  let vat :=
    if isSold then
      if isDiffTax then
        if gt taxableMargin 0 then taxableMargin * (19 / 119) else 0
      else salePrice * (19 / 119)
    else 0 in
  let netProfit := actualProfit - vat in
  {| totalCosts := totalCosts;
     taxableMargin := taxableMargin;
     actualProfit := actualProfit;
     grossProfit := grossProfit;
     vat := vat;
     netProfit := netProfit;
     isFinal := isSold |}.

(** The values the function works with, by the names the source gives them. *)
Definition purchasePrice_of (d : device) : Q := money (purchasePrice d) (purchase_price d).
Definition repairCost_of (d : device) : Q := money (repairCost d) (repair_cost d).
Definition shippingBuy_of (d : device) : Q := money (shippingBuy d) (shipping_buy d).
Definition shippingSell_of (d : device) : Q := money (shippingSell d) (shipping_sell d).
Definition salesFees_of (d : device) : Q := money (salesFees d) (sales_fees d).
Definition salePrice_of (d : device) : Q := money (salePrice d) (sale_price d).
Definition isDiffTax_of (d : device) : bool := flag (isDiffTax d) (is_diff_tax d).

(** Every monetary property that is present is non-negative. *)
Definition nonneg (v : nullable Q) : Prop := forall q, v = Def q -> 0 <= q.

Definition nonneg_inputs (d : device) : Prop :=
  nonneg (purchasePrice d) /\ nonneg (purchase_price d) /\
  nonneg (repairCost d) /\ nonneg (repair_cost d) /\
  nonneg (shippingBuy d) /\ nonneg (shipping_buy d) /\
  nonneg (shippingSell d) /\ nonneg (shipping_sell d) /\
  nonneg (salesFees d) /\ nonneg (sales_fees d) /\
  nonneg (salePrice d) /\ nonneg (sale_price d).

(** A record with nothing but a status. *)
Definition bare (st : string) : device :=
  mkDevice st Undefined Undefined Undefined Undefined Undefined Undefined
           Undefined Undefined Undefined Undefined Undefined Undefined
           Undefined Undefined.

(** Replace what is absent in both spellings by the value the function
    falls back to: 0 for a monetary property, [true] for the flag. *)
Definition fill_money (camel snake : nullable Q) : nullable Q :=
  match camel, snake with
  | Def _, _ => camel
  | _, Def _ => camel
  | _, _ => Def 0
  end.

Definition fill_flag (camel snake : nullable bool) : nullable bool :=
  match camel, snake with
  | Def _, _ => camel
  | _, Def _ => camel
  | _, _ => Def true
  end.

Definition fill_absent (d : device) : device :=
  {| status := status d;
     purchasePrice := fill_money (purchasePrice d) (purchase_price d);
     purchase_price := purchase_price d;
     repairCost := fill_money (repairCost d) (repair_cost d);
     repair_cost := repair_cost d;
     shippingBuy := fill_money (shippingBuy d) (shipping_buy d);
     shipping_buy := shipping_buy d;
     shippingSell := fill_money (shippingSell d) (shipping_sell d);
     shipping_sell := shipping_sell d;
     salesFees := fill_money (salesFees d) (sales_fees d);
     sales_fees := sales_fees d;
     salePrice := fill_money (salePrice d) (sale_price d);
     sale_price := sale_price d;
     isDiffTax := fill_flag (isDiffTax d) (is_diff_tax d);
     is_diff_tax := is_diff_tax d |}.

Definition with_purchasePrice (v : nullable Q) (d : device) : device :=
  mkDevice (status d) v (purchase_price d) (repairCost d) (repair_cost d)
           (shippingBuy d) (shipping_buy d) (shippingSell d) (shipping_sell d)
           (salesFees d) (sales_fees d) (salePrice d) (sale_price d)
           (isDiffTax d) (is_diff_tax d).

Definition with_isDiffTax (v : nullable bool) (d : device) : device :=
  mkDevice (status d) (purchasePrice d) (purchase_price d) (repairCost d) (repair_cost d)
           (shippingBuy d) (shipping_buy d) (shippingSell d) (shipping_sell d)
           (salesFees d) (sales_fees d) (salePrice d) (sale_price d)
           v (is_diff_tax d).

(** The device of the example: SOLD under standard taxation with a negative
    sale price (the column is NUMERIC(10,2) with no sign constraint). *)
Definition refund_device : device :=
  with_isDiffTax (Def false)
    (mkDevice "SOLD" Undefined (Def 0) Undefined Undefined Undefined Undefined
              Undefined Undefined Undefined Undefined Undefined (Def (-119))
              Undefined Undefined).

Definition sample_sold : device :=
  mkDevice "SOLD" Undefined (Def 1000) Undefined (Def 20) Undefined (Def 5)
           Undefined (Def 5) Undefined (Def 10) Undefined (Def 1190)
           Undefined (Def true).

Definition zero_camel_device : device :=
  mkDevice "STOCK" (Def 0) (Def 100) Undefined Undefined Undefined Undefined
           Undefined Undefined Undefined Undefined Undefined Undefined
           Undefined Undefined.

Definition present_somewhere {T} (camel snake : nullable T) : Prop :=
  (exists x, camel = Def x) \/ (exists x, snake = Def x).

Definition fully_present (d : device) : Prop :=
  present_somewhere (purchasePrice d) (purchase_price d) /\
  present_somewhere (repairCost d) (repair_cost d) /\
  present_somewhere (shippingBuy d) (shipping_buy d) /\
  present_somewhere (shippingSell d) (shipping_sell d) /\
  present_somewhere (salesFees d) (sales_fees d) /\
  present_somewhere (salePrice d) (sale_price d) /\
  present_somewhere (isDiffTax d) (is_diff_tax d).

End Calculations.

(* ===================================================================== *)
(** ** lib/pdf/eigenbeleg.ts *)
(* ===================================================================== *)

Module Eigenbeleg.

Notation "x <- c ;; k" := (bind c (fun x => k))
  (at level 61, c at next level, right associativity).

(** *** The jsPDF document

    A document is the sequence of drawing commands issued so far, each tagged
    with the number of the page it landed on (pages are numbered from 1 and
    drawing always goes to the last page), together with the graphics state
    that later commands inherit. *)

Definition rgb : Type := (Z * Z * Z)%type.

Inductive op : Type :=
| Text (s : string) (x y : Q) (size : Q) (bold : bool) (color : rgb)
| Line (x1 y1 x2 y2 : Q) (color : rgb)
| Image (data : string) (x y w h : Q).

Record jsPDF : Type := mkDoc {
  pageCount : nat;
  content : list (nat * op);
  fontSize : Q;
  fontBold : bool;
  textColor : rgb;
  drawColor : rgb
}.

Definition setFontSize (n : Q) (d : jsPDF) : jsPDF :=
  mkDoc (pageCount d) (content d) n (fontBold d) (textColor d) (drawColor d).

(** [doc.setFont('helvetica', style)]; the family never changes. *)
Definition setFont (bold : bool) (d : jsPDF) : jsPDF :=
  mkDoc (pageCount d) (content d) (fontSize d) bold (textColor d) (drawColor d).

Definition setTextColor (c : rgb) (d : jsPDF) : jsPDF :=
  mkDoc (pageCount d) (content d) (fontSize d) (fontBold d) c (drawColor d).

Definition setDrawColor (c : rgb) (d : jsPDF) : jsPDF :=
  mkDoc (pageCount d) (content d) (fontSize d) (fontBold d) (textColor d) c.

Definition draw (o : op) (d : jsPDF) : jsPDF :=
  mkDoc (pageCount d) (content d ++ [(pageCount d, o)])
        (fontSize d) (fontBold d) (textColor d) (drawColor d).

Definition text (s : string) (x y : Q) (d : jsPDF) : jsPDF :=
  draw (Text s x y (fontSize d) (fontBold d) (textColor d)) d.

Definition line (x1 y1 x2 y2 : Q) (d : jsPDF) : jsPDF :=
  draw (Line x1 y1 x2 y2 (drawColor d)) d.

Definition addPage (d : jsPDF) : jsPDF :=
  mkDoc (S (pageCount d)) (content d)
        (fontSize d) (fontBold d) (textColor d) (drawColor d).

(** [new jsPDF()]: one empty page, 16pt helvetica normal, black. *)
Definition new_jsPDF : jsPDF := mkDoc 1 [] 16 false (0, 0, 0)%Z (0, 0, 0)%Z.

(** The drawing commands that landed on page [p]. *)
Definition page (p : nat) (d : jsPDF) : list op :=
  map snd (filter (fun e => Nat.eqb (fst e) p) (content d)).

(** *** What the platform and the libraries contribute

    Everything the module calls but does not define: jsPDF's text measuring,
    page size, image decoding and serialisation, [fetch], [Intl] date
    formatting, [crypto.randomUUID] and base64 encoding. *)

Record response : Type := mkResponse {
  ok : bool;
  arrayBuffer : outcome string;
  contentType : nullable string      (* response.headers.get('content-type') *)
}.

Class Runtime : Type := {
  (** [doc.splitTextToSize(value, maxWidth)] under the given font size and style *)
  splitTextToSize : Q -> bool -> string -> Q -> list string;
  (** [doc.internal.pageSize.getWidth()] *)
  getWidth : Q;
  (** whether [doc.addImage(data, 'PNG', ...)] accepts the data *)
  decodable : string -> bool;
  (** [Buffer.from(doc.output('arraybuffer'))] *)
  output : jsPDF -> string;
  fetch : string -> outcome response;
  (** [Buffer.from(arrayBuffer).toString('base64')] *)
  base64 : string -> string;
  (** [new Date(s).toLocaleDateString('de-DE', {day, month, year})] *)
  toLocaleDateString : string -> string;
  randomUUID : string;
  (** [String.prototype.trim] *)
  trim : string -> string
}.

(** [doc.addImage(data, 'PNG', x, y, w, h)] throws on data it cannot decode,
    and then has drawn nothing. *)
Definition addImage `{Runtime} (data : string) (x y w h : Q) (d : jsPDF) : outcome jsPDF :=
  if decodable data then Returns (draw (Image data x y w h) d) else Throws.

(** *** Number.prototype.toLocaleString('de-DE', \{minimumFractionDigits: 2,
        maximumFractionDigits: 2\})

    Model of the ECMA-402 formatter for the German locale: the value is
    rounded to hundredths (ties away from zero), the integer part is grouped
    in threes with ".", the decimal separator is ",", a negative value is
    prefixed with "-".  An amount with two fraction digits, as the schema
    stores it, is printed without any rounding. *)

Fixpoint uint_digits (u : Decimal.uint) : list ascii :=
  match u with
  | Decimal.Nil => []
  | Decimal.D0 u => "0"%char :: uint_digits u
  | Decimal.D1 u => "1"%char :: uint_digits u
  | Decimal.D2 u => "2"%char :: uint_digits u
  | Decimal.D3 u => "3"%char :: uint_digits u
  | Decimal.D4 u => "4"%char :: uint_digits u
  | Decimal.D5 u => "5"%char :: uint_digits u
  | Decimal.D6 u => "6"%char :: uint_digits u
  | Decimal.D7 u => "7"%char :: uint_digits u
  | Decimal.D8 u => "8"%char :: uint_digits u
  | Decimal.D9 u => "9"%char :: uint_digits u
  end.

Definition digits (n : Z) : list ascii := uint_digits (N.to_uint (Z.to_N n)).

(** Grouping, on the digits in reverse order; [n] digits of the current
    group have been produced. *)
Fixpoint group_rev (l : list ascii) (n : nat) : list ascii :=
  match l with
  | [] => []
  | c :: rest =>
      if Nat.eqb n 3 then "."%char :: c :: group_rev rest 1
      else c :: group_rev rest (S n)
  end.

Definition grouped (ds : list ascii) : list ascii := rev (group_rev (rev ds) 0).

(** |q| in hundredths, rounded half away from zero. *)
Definition hundredths (q : Q) : Z :=
  (2 * (Z.abs (Qnum q) * 100) + Z.pos (Qden q)) / (2 * Z.pos (Qden q)).

Definition digit (n : Z) : ascii := ascii_of_nat (48 + Z.to_nat n).

Definition toLocaleString_de2 (q : Q) : string :=
  let h := hundredths q in
  let sign := if Qle_bool 0 q then "" else "-" in
  sign ++ string_of_list_ascii (grouped (digits (h / 100)))
       ++ "," ++ String (digit ((h mod 100) / 10)) (String (digit (h mod 10)) "").

(** *** Layout constants *)

Definition MARGIN_LEFT : Q := 25.
Definition MARGIN_RIGHT : Q := 25.
Definition LABEL_X : Q := MARGIN_LEFT.
Definition VALUE_X : Q := 85.
Definition PAGE_BOTTOM : Q := 270.
Definition FOOTER_Y : Q := 280.
Definition LINE_HEIGHT : Q := 5.

(** *** class PdfWriter

    [doc] in [generateEigenbeleg] and [w.doc] are one object: the document
    lives in the writer and direct calls on [doc] go through [on_doc]. *)

Record PdfWriter : Type := mkWriter {
  doc : jsPDF;
  y : Q;
  pageWidth : Q;
  maxValueWidth : Q;
  footerText : string
}.

Definition labelColor : rgb := (100, 100, 100)%Z.
Definition valueColor : rgb := (30, 30, 30)%Z.
Definition lineColor : rgb := (200, 200, 200)%Z.

Definition on_doc (f : jsPDF -> jsPDF) (w : PdfWriter) : PdfWriter :=
  mkWriter (f (doc w)) (y w) (pageWidth w) (maxValueWidth w) (footerText w).

Definition set_y (v : Q) (w : PdfWriter) : PdfWriter :=
  mkWriter (doc w) v (pageWidth w) (maxValueWidth w) (footerText w).

(** [doc.text(s, x, w.y)] *)
Definition text_at_y (s : string) (x : Q) (w : PdfWriter) : PdfWriter :=
  on_doc (text s x (y w)) w.

(** [doc.line(x1, w.y, x2, w.y)] *)
Definition line_at_y (x1 x2 : Q) (w : PdfWriter) : PdfWriter :=
  on_doc (line x1 (y w) x2 (y w)) w.

Definition constructor `{Runtime} (d : jsPDF) : PdfWriter :=
  mkWriter d 25 getWidth (getWidth - VALUE_X - MARGIN_RIGHT) "".

Definition advance (amount : Q) (w : PdfWriter) : PdfWriter :=
  set_y (y w + amount) w.

Definition setFooter (t : string) (w : PdfWriter) : PdfWriter :=
  mkWriter (doc w) (y w) (pageWidth w) (maxValueWidth w) t.

Definition addFooter (w : PdfWriter) : PdfWriter :=
  if String.eqb (footerText w) "" then w
  else
    let w := on_doc (setFontSize 8) w in
    let w := on_doc (setTextColor (150, 150, 150)%Z) w in
    on_doc (text (footerText w) LABEL_X FOOTER_Y) w.

Definition ensureSpace (needed : Q) (w : PdfWriter) : PdfWriter :=
  if gt (y w + needed) PAGE_BOTTOM then
    let w := addFooter w in
    let w := on_doc addPage w in
    set_y 25 w
  else w.

Definition separator (w : PdfWriter) : PdfWriter :=
  let w := ensureSpace 10 w in
  let w := on_doc (setDrawColor lineColor) w in
  let w := line_at_y LABEL_X (pageWidth w - MARGIN_RIGHT) w in
  advance 10 w.

Record labelOpts : Type := mkOpts {
  valueBold : nullable bool;
  valueFontSize : nullable Q;
  labelFontSize : nullable Q
}.

(** [opts?.field] *)
Definition opt_field {T} (f : labelOpts -> nullable T) (opts : nullable labelOpts) : nullable T :=
  match opts with
  | Def o => f o
  | _ => Undefined
  end.

(** [opts?.valueBold ? 'bold' : 'normal'] *)
Definition is_bold (opts : nullable labelOpts) : bool :=
  match opt_field valueBold opts with
  | Def b => b
  | _ => false
  end.

(** The loop over the wrapped lines of [labelValue]; [first] is [i = 0] and
    the last line is the one with nothing after it. *)
Fixpoint value_lines (lineH : Q) (first : bool) (lines : list string)
         (w : PdfWriter) : PdfWriter :=
  match lines with
  | [] => w
  | l :: rest =>
      let w := if first then w else ensureSpace lineH w in
      let w := text_at_y l VALUE_X w in
      let w := match rest with
               | [] => w
               | _ :: _ => advance lineH w
               end in
      value_lines lineH false rest w
  end.

Definition labelValue `{Runtime} (label value : string) (opts : nullable labelOpts)
           (w : PdfWriter) : PdfWriter :=
  let fontSize := or_num (opt_field valueFontSize opts) 10 in
  let labelFontSize := or_num (opt_field labelFontSize opts) 10 in
  let w := on_doc (setFontSize fontSize) w in
  let w := on_doc (setFont (is_bold opts)) w in
  let lines := splitTextToSize fontSize (is_bold opts) value (maxValueWidth w) in
  let lineH := fontSize * 0.4 in
  let totalHeight := len lines * lineH in
  let w := ensureSpace (min totalHeight (lineH + 2)) w in
  let w := on_doc (setFontSize labelFontSize) w in
  let w := on_doc (setFont false) w in
  let w := on_doc (setTextColor labelColor) w in
  let w := text_at_y label LABEL_X w in
  let w := on_doc (setFontSize fontSize) w in
  let w := on_doc (setFont (is_bold opts)) w in
  let w := on_doc (setTextColor valueColor) w in
  let w := value_lines lineH true lines w in
  advance (lineH + 2) w.

(** The loop over the lines of [labelBlock]. *)
Fixpoint block_lines (lineH : Q) (values : list string) (w : PdfWriter) : PdfWriter :=
  match values with
  | [] => w
  | v :: rest =>
      let w := ensureSpace lineH w in
      let w := text_at_y v VALUE_X w in
      let w := advance lineH w in
      block_lines lineH rest w
  end.

Definition labelBlock (label : string) (values : list string) (w : PdfWriter) : PdfWriter :=
  let lineH := LINE_HEIGHT in
  let w := ensureSpace (lineH + 2) w in
  let w := on_doc (setFontSize 10) w in
  let w := on_doc (setFont false) w in
  let w := on_doc (setTextColor labelColor) w in
  let w := text_at_y label LABEL_X w in
  let w := on_doc (setTextColor valueColor) w in
  let w := block_lines lineH values w in
  advance 3 w.

(** *** The inputs of generateEigenbeleg *)

Record CompanyProfile : Type := mkCompany {
  company_name : string;
  owner_name : string;
  street : string;
  house_number : string;
  postal_code : string;
  city : string;
  country : string;
  vat_id : nullable string;
  tax_id : nullable string;
  email : string;
  phone : nullable string;
  logo_url : nullable string
}.

Record Device : Type := mkDevice {
  id : string;
  model : string;
  storage : string;
  color : string;
  seller_name : nullable string;
  purchase_price : Q;
  purchase_date : string
}.

Record EigenbelegOptions : Type := mkOptions {
  recipientName : string;
  reason : nullable string
}.

(** *** loadLogoAsBase64 *)

Definition loadLogoAsBase64 `{Runtime} (logoUrl : string) : outcome (nullable string) :=
  try_catch
    (response <- fetch logoUrl ;;
     if negb (ok response) then Returns Null
     else
       buffer <- arrayBuffer response ;;
       let b64 := base64 buffer in
       let contentType := or_str (contentType response) "image/png" in
       Returns (Def ("data:" ++ contentType ++ ";base64," ++ b64)))
    (Returns Null).

(** *** generateEigenbeleg *)

(** [footerParts.join(' • ')] *)
Definition footer_of (companyProfile : CompanyProfile) : string :=
  let footerParts := [email companyProfile] in
  let footerParts :=
    match phone companyProfile with
    | Def p => if String.eqb p "" then footerParts else (footerParts ++ [p])%list
    | _ => footerParts
    end in
  String.concat " • " footerParts.

(** The "Logo (if available)" block. *)
Definition logo `{Runtime} (companyProfile : CompanyProfile) (w : PdfWriter)
  : outcome PdfWriter :=
  match logo_url companyProfile with
  | Def url =>
      if String.eqb url "" then Returns w
      else
        logoData <- loadLogoAsBase64 url ;;
        match logoData with
        | Def data =>
            if String.eqb data "" then Returns w
            else
              try_catch
                (d <- addImage data (pageWidth w - 65) 15 40 20 (doc w) ;;
                 Returns (on_doc (fun _ => d) w))
                (Returns w)
        | _ => Returns w
        end
  | _ => Returns w
  end.

Definition bold_opts : nullable labelOpts := Def (mkOpts (Def true) Undefined Undefined).

Definition default_reason : string := "Kein externer Beleg vorhanden".

Definition amountStr (device : Device) : string :=
  toLocaleString_de2 (purchase_price device) ++ " €".

Definition reasonText (options : EigenbelegOptions) : string :=
  or_str (reason options) default_reason.

(** [if (v) w.labelValue(label, v)] *)
Definition labelValue_if `{Runtime} (label : string) (v : nullable string)
           (w : PdfWriter) : PdfWriter :=
  match v with
  | Def s => if String.eqb s "" then w else labelValue label s Undefined w
  | _ => w
  end.

(** From "Title" to the caption under the signature line. *)
Definition body `{Runtime} (device : Device) (companyProfile : CompanyProfile)
           (options : EigenbelegOptions) (w : PdfWriter) : PdfWriter :=
  (* Title *)
  let w := on_doc (setFont true) w in
  let w := on_doc (setFontSize 22) w in
  let w := on_doc (setTextColor (30, 30, 30)%Z) w in
  let w := text_at_y "Eigenbeleg" LABEL_X w in
  let w := advance 8 w in
  (* Subtitle *)
  let w := on_doc (setFont false) w in
  let w := on_doc (setFontSize 10) w in
  let w := on_doc (setTextColor (100, 100, 100)%Z) w in
  let w := text_at_y ("Eigenbeleg-Nummer " ++ id device) LABEL_X w in
  let w := advance 18 w in
  (* Belegdatum *)
  let dateStr := toLocaleDateString (purchase_date device) in
  let w := labelValue "Belegdatum" dateStr bold_opts w in
  (* Gegenpartei *)
  let w := labelValue "Gegenpartei" (recipientName options) bold_opts w in
  (* Beschreibung der Leistung *)
  let w := labelValue "Beschreibung der Leistung"
             ("Ankauf " ++ model device ++ " " ++ storage device ++ " " ++ color device)
             Undefined w in
  (* Geräte-ID *)
  let w := ensureSpace 5 w in
  let w := on_doc (setFontSize 9) w in
  let w := on_doc (setTextColor (100, 100, 100)%Z) w in
  let w := text_at_y ("Geräte-ID: " ++ id device) VALUE_X w in
  let w := on_doc (setFontSize 10) w in
  let w := advance 8 w in
  (* Betrag *)
  let w := labelValue "Betrag" (amountStr device)
             (Def (mkOpts (Def true) (Def 14) Undefined)) w in
  let w := separator w in
  (* Grund für Eigenbeleg *)
  let w := labelValue "Grund für Eigenbeleg" (reasonText options) bold_opts w in
  let w := separator w in
  (* Erstellt durch *)
  let w := labelBlock "Erstellt durch"
             [ owner_name companyProfile;
               company_name companyProfile;
               street companyProfile ++ " " ++ house_number companyProfile;
               postal_code companyProfile ++ " " ++ city companyProfile ] w in
  (* Erstellt am *)
  let w := labelValue "Erstellt am" dateStr Undefined w in
  (* Steuer-Info *)
  let w := labelValue_if "Steuer-Nr." (tax_id companyProfile) w in
  let w := labelValue_if "USt-IdNr." (vat_id companyProfile) w in
  (* Digitale Signatur (GUID) *)
  let guid := randomUUID in
  let w := labelValue "Digitale Signatur (GUID)" guid
             (Def (mkOpts Undefined (Def 9) Undefined)) w in
  let w := advance 8 w in
  (* Unterschrift *)
  let w := ensureSpace 20 w in
  let w := on_doc (setDrawColor (200, 200, 200)%Z) w in
  let w := line_at_y LABEL_X (LABEL_X + 70) w in
  let w := advance 5 w in
  let w := on_doc (setTextColor (100, 100, 100)%Z) w in
  let w := on_doc (setFontSize 9) w in
  text_at_y ("Inhaber " ++ company_name companyProfile) LABEL_X w.

(** The writer just before serialisation. *)
Definition finished `{Runtime} (device : Device) (companyProfile : CompanyProfile)
           (options : EigenbelegOptions) : outcome PdfWriter :=
  let doc := new_jsPDF in
  let w := constructor doc in
  let w := setFooter (footer_of companyProfile) w in
  w <- logo companyProfile w ;;
  let w := body device companyProfile options w in
  (* Footer on last page *)
  let w := addFooter w in
  Returns w.

Definition generateEigenbeleg `{Runtime} (device : Device) (companyProfile : CompanyProfile)
           (options : EigenbelegOptions) : outcome string :=
  w <- finished device companyProfile options ;;
  let pdfBuffer := output (doc w) in
  Returns pdfBuffer.

(** *** The route handler: how the options are built from the request body

    [const reason = body.reason || ''] and
    [{ recipientName: recipientName.trim(), reason: reason.trim() || undefined }] *)
Definition request_options `{Runtime} (body_recipientName : string)
           (body_reason : nullable string) : EigenbelegOptions :=
  let reason := or_str body_reason "" in
  {| recipientName := trim body_recipientName;
     reason := if String.eqb (trim reason) "" then Undefined else Def (trim reason) |}.

(** *** Footers per page *)

(** A footer is the footer text drawn at the footer position. *)
Definition is_footer (ft : string) (o : op) : bool :=
  match o with
  | Text s x y _ _ _ => String.eqb s ft && Qeq_bool x LABEL_X && Qeq_bool y FOOTER_Y
  | _ => false
  end.

(** How many footers page [p] of the document carries. *)
Definition footers_on (ft : string) (p : nat) (d : jsPDF) : nat :=
  length (filter (is_footer ft) (page p d)).

(** The same count, on the command log. *)
Definition footers (ft : string) (p : nat) (l : list (nat * op)) : nat :=
  length (filter (fun e => Nat.eqb (fst e) p && is_footer ft (snd e)) l).

(** Every page but the current one carries exactly one footer, the current
    one carries none, and nothing is drawn beyond the current page. *)
Record paged (ft : string) (d : jsPDF) : Prop := mkPaged {
  paged_started : (1 <= pageCount d)%nat;
  paged_within : forall e, In e (content d) -> (fst e <= pageCount d)%nat;
  paged_done : forall p, (1 <= p < pageCount d)%nat -> footers ft p (content d) = 1%nat;
  paged_open : footers ft (pageCount d) (content d) = 0%nat
}.

(** The writer carries the non-empty footer text [ft] and its pages are in
    order. *)
Definition well_paged (ft : string) (w : PdfWriter) : Prop :=
  footerText w = ft /\ ft <> "" /\ paged ft (doc w).

(** [w'] is [w] after some more drawing: commands other than images were
    appended, and the page geometry and the footer text are the same. *)
Definition is_image (o : op) : bool :=
  match o with
  | Image _ _ _ _ _ => true
  | _ => false
  end.

Definition no_image (l : list (nat * op)) : Prop :=
  Forall (fun e => is_image (snd e) = false) l.

Definition extends (w w' : PdfWriter) : Prop :=
  (exists l, content (doc w') = (content (doc w) ++ l)%list /\ no_image l) /\
  pageWidth w' = pageWidth w /\
  maxValueWidth w' = maxValueWidth w /\
  footerText w' = footerText w.

(** *** Sequences of writer calls *)

Inductive call : Type :=
| CallEnsureSpace (needed : Q)
| CallAdvance (amount : Q)
| CallSeparator
| CallLabelValue (label value : string) (opts : nullable labelOpts)
| CallLabelBlock (label : string) (values : list string).

Definition perform `{Runtime} (c : call) (w : PdfWriter) : PdfWriter :=
  match c with
  | CallEnsureSpace needed => ensureSpace needed w
  | CallAdvance amount => advance amount w
  | CallSeparator => separator w
  | CallLabelValue label value opts => labelValue label value opts w
  | CallLabelBlock label values => labelBlock label values w
  end.

Definition perform_all `{Runtime} (cs : list call) (w : PdfWriter) : PdfWriter :=
  fold_left (fun w c => perform c w) cs w.

(** Font sizes are not negative. *)
Definition sensible (c : call) : Prop :=
  match c with
  | CallLabelValue _ _ opts => 0 <= or_num (opt_field valueFontSize opts) 10
  | _ => True
  end.

(** *** When the logo cannot be had *)

Definition without_logo (c : CompanyProfile) : CompanyProfile :=
  mkCompany (company_name c) (owner_name c) (street c) (house_number c)
            (postal_code c) (city c) (country c) (vat_id c) (tax_id c)
            (email c) (phone c) Null.

(** The data URL [loadLogoAsBase64] builds from a response and its body. *)
Definition data_url `{Runtime} (r : response) (buffer : string) : string :=
  "data:" ++ or_str (contentType r) "image/png" ++ ";base64," ++ base64 buffer.

(** The fetch throws, or the response is not OK, or reading the body throws,
    or jsPDF cannot decode the image. *)
Definition logo_unavailable `{Runtime} (c : CompanyProfile) : Prop :=
  forall url, logo_url c = Def url ->
    fetch url = Throws \/
    exists r, fetch url = Returns r /\
      (ok r = false \/ arrayBuffer r = Throws \/
       exists buffer, arrayBuffer r = Returns buffer /\
                      decodable (data_url r buffer) = false).

(** *** The shape of a formatted amount *)

Definition is_digit (c : ascii) : bool :=
  (48 <=? nat_of_ascii c)%nat && (nat_of_ascii c <=? 57)%nat.

Definition comma_free (s : string) : Prop :=
  ~ In ","%char (list_ascii_of_string s).

(** *** A runtime to run the model on: text is wrapped every 20 characters,
        the network is down. *)

Fixpoint chunk (width k : nat) (acc s : string) : list string :=
  match s with
  | EmptyString => [acc]
  | String c r =>
      match k with
      | O => acc :: chunk width (width - 1) (String c "") r
      | S k' => chunk width k' (acc ++ String c "") r
      end
  end.

Definition offline : Runtime :=
  {| splitTextToSize := fun _ _ s _ => chunk 20 20 "" s;
     getWidth := 210;
     decodable := fun _ => false;
     output := fun d => string_of_list_ascii
                          (map (fun _ => "P"%char) (seq 0 (pageCount d)));
     fetch := fun _ => Throws;
     base64 := fun s => s;
     toLocaleDateString := fun s => s;
     randomUUID := "00000000-0000-4000-8000-000000000000";
     trim := fun s => s |}.

Definition sample_device : Device :=
  mkDevice "D-1" "iPhone 12" "128GB" "Schwarz" Null 250 "2024-03-01".

(** A writer whose cursor is two lines above the bottom margin. *)
Definition bottom_writer : PdfWriter :=
  mkWriter new_jsPDF 264 210 100 "info@example.org".

Definition sample_options : EigenbelegOptions := mkOptions "Max Mustermann" Undefined.

Definition sample_company : CompanyProfile :=
  mkCompany "Muster GmbH" "Erika Muster" "Hauptstr." "1" "10115" "Berlin" "DE"
            Null Null "info@example.org" Null (Def "https://example.org/logo.png").

End Eigenbeleg.

(* ===================================================================== *)
(** ** devices/actions: exportDevicesToExcel *)
(* ===================================================================== *)

Module DevicesActions.

Notation "x <- c ;; k" := (bind c (fun x => k))
  (at level 61, c at next level, right associativity).

(** The properties of a fetched device (DbDevice, snake_case) that the export
    reads. *)
Record Device : Type := mkDevice {
  id : string;
  status : string;
  purchase_date : nullable string;
  sale_date : nullable string;
  purchase_price : nullable Q;
  repair_cost : nullable Q;
  shipping_buy : nullable Q;
  shipping_sell : nullable Q;
  sale_price : nullable Q;
  sales_fees : nullable Q;
  is_diff_tax : nullable bool
}.

(** The same object as [calculateDeviceFinancials] sees it: it has no
    camelCase properties. *)
Definition as_any (device : Device) : Calculations.device :=
  Calculations.mkDevice (status device)
    Undefined (purchase_price device)
    Undefined (repair_cost device)
    Undefined (shipping_buy device)
    Undefined (shipping_sell device)
    Undefined (sales_fees device)
    Undefined (sale_price device)
    Undefined (is_diff_tax device).

(** A spreadsheet cell that holds a number or a string. *)
Inductive cell : Type :=
| Num (q : Q)
| Str (s : string).

Record row : Type := mkRow {
  Geraete_ID : string;
  Einkaufsdatum : string;
  Verkaufsdatum : string;
  Besteuerungsart : string;
  Differenzbesteuerung : string;
  Regelbesteuerung : string;
  Einkaufspreis : Q;
  Reparaturkosten : Q;
  Versandkosten : Q;
  Sonstige_Kosten : Q;
  Gesamtkosten : Q;
  Verkaufspreis : cell;
  Steuerbetrag : cell;
  Gewinn_vor_Steuern : cell;
  Gewinn_nach_Steuern : cell
}.

(** The accumulators declared before the loop. *)
Record totals : Type := mkTotals {
  totalPurchasePrice : Q;
  totalRepairCost : Q;
  totalShippingCost : Q;
  totalOtherCosts : Q;
  totalSalePrice : Q;
  totalTax : Q
}.

Definition zero_totals : totals := mkTotals 0 0 0 0 0 0.

(** [device.is_diff_tax ? a : b] *)
Definition truthy_bool (v : nullable bool) : bool :=
  match v with
  | Def b => b
  | _ => false
  end.

(** [v ? format(new Date(v), 'dd.MM.yyyy') : ''], where date-fns' [format]
    throws on a date it cannot parse. *)
Definition date_cell (format : string -> outcome string) (v : nullable string)
  : outcome string :=
  match v with
  | Def s => if String.eqb s "" then Returns "" else format s
  | _ => Returns ""
  end.

(** The callback of [devices.map]: it updates the accumulators and returns
    the row of the device. *)
Definition device_row (format : string -> outcome string) (t : totals) (device : Device)
  : outcome (totals * row) :=
  let financials := Calculations.calculateDeviceFinancials (as_any device) in
  let purchasePrice := or_num (purchase_price device) 0 in
  let repairCost := or_num (repair_cost device) 0 in
  let shippingCost := or_num (shipping_buy device) 0 + or_num (shipping_sell device) 0 in
  let otherCosts := or_num (sales_fees device) 0 in
  let totalCosts := purchasePrice + repairCost + shippingCost + otherCosts in
  let salePrice := or_num (sale_price device) 0 in
  let tax := Calculations.vat financials in
  let profitBeforeTax := Calculations.actualProfit financials in
  let profitAfterTax := Calculations.netProfit financials in
  let t :=
    if String.eqb (status device) "SOLD" && gt salePrice 0 then
      {| totalPurchasePrice := totalPurchasePrice t + purchasePrice;
         totalRepairCost := totalRepairCost t + repairCost;
         totalShippingCost := totalShippingCost t + shippingCost;
         totalOtherCosts := totalOtherCosts t + otherCosts;
         totalSalePrice := totalSalePrice t + salePrice;
         totalTax := totalTax t + tax |}
    else t in
  einkaufsdatum <- date_cell format (purchase_date device) ;;
  verkaufsdatum <- date_cell format (sale_date device) ;;
  Returns
    (t,
     {| Geraete_ID := id device;
        Einkaufsdatum := einkaufsdatum;
        Verkaufsdatum := verkaufsdatum;
        Besteuerungsart := if truthy_bool (is_diff_tax device)
                           then "Differenzbesteuerung" else "Regelbesteuerung";
        Differenzbesteuerung := if truthy_bool (is_diff_tax device) then "✓" else "";
        Regelbesteuerung := if truthy_bool (is_diff_tax device) then "" else "✓";
        Einkaufspreis := purchasePrice;
        Reparaturkosten := repairCost;
        Versandkosten := shippingCost;
        Sonstige_Kosten := otherCosts;
        Gesamtkosten := totalCosts;
        Verkaufspreis := if gt salePrice 0 then Num salePrice else Str "";
        Steuerbetrag := if gt tax 0 then Num tax else Str "";
        Gewinn_vor_Steuern := if String.eqb (status device) "SOLD"
                              then Num profitBeforeTax else Str "";
        Gewinn_nach_Steuern := if String.eqb (status device) "SOLD"
                               then Num profitAfterTax else Str "" |}).

(** [devices.map(callback)], threading the accumulators. *)
Fixpoint map_devices (format : string -> outcome string) (devices : list Device)
         (t : totals) : outcome (totals * list row) :=
  match devices with
  | [] => Returns (t, [])
  | device :: rest =>
      tr <- device_row format t device ;;
      trs <- map_devices format rest (fst tr) ;;
      Returns (fst trs, snd tr :: snd trs)
  end.

(** The worksheet: the device rows and, below them, the totals rows (label
    and value). *)
Record worksheet : Type := mkSheet {
  excelData : list row;
  totalsRows : list (string * Q)
}.

Inductive result : Type :=
| Success (sheet : worksheet)
| Failure (error : string).

(** [devices] is what [getDevices(filters)] returned. *)
Definition exportDevicesToExcel (format : string -> outcome string)
           (devices : list Device) : result :=
  match devices with
  | [] => Failure "Keine Geräte zum Exportieren gefunden"
  | _ :: _ =>
      match map_devices format devices zero_totals with
      | Throws => Failure "Export fehlgeschlagen"
      | Returns (t, excelData) =>
          let totalAllCosts := totalPurchasePrice t + totalRepairCost t
                               + totalShippingCost t + totalOtherCosts t in
          let totalProfitBeforeTax := totalSalePrice t - totalAllCosts in
          let totalProfitAfterTax := totalProfitBeforeTax - totalTax t in
          Success
            {| excelData := excelData;
               totalsRows :=
                 [ ("Gesamte Einkaufskosten", totalPurchasePrice t);
                   ("Gesamte Reparaturkosten", totalRepairCost t);
                   ("Gesamte Versandkosten", totalShippingCost t);
                   ("Gesamte sonstige Kosten", totalOtherCosts t);
                   ("Gesamtkosten gesamt", totalAllCosts);
                   ("Gesamtumsatz", totalSalePrice t);
                   ("Gesamtsteuer", totalTax t);
                   ("Gesamtgewinn vor Steuern", totalProfitBeforeTax);
                   ("Gesamtgewinn nach Steuern", totalProfitAfterTax) ] |}
      end
  end.

(** *** What the claim speaks of *)

(** The device is SOLD and its sale price is strictly positive. *)
Definition counted (device : Device) : bool :=
  String.eqb (status device) "SOLD" && gt (or_num (sale_price device) 0) 0.

(** What a counted device adds to the accumulators. *)
Definition add_device (t : totals) (device : Device) : totals :=
  {| totalPurchasePrice := totalPurchasePrice t + or_num (purchase_price device) 0;
     totalRepairCost := totalRepairCost t + or_num (repair_cost device) 0;
     totalShippingCost := totalShippingCost t
                          + (or_num (shipping_buy device) 0 + or_num (shipping_sell device) 0);
     totalOtherCosts := totalOtherCosts t + or_num (sales_fees device) 0;
     totalSalePrice := totalSalePrice t + or_num (sale_price device) 0;
     totalTax := totalTax t
                 + Calculations.vat (Calculations.calculateDeviceFinancials (as_any device)) |}.

Definition totals_rows_of (t : totals) : list (string * Q) :=
  [ ("Gesamte Einkaufskosten", totalPurchasePrice t);
    ("Gesamte Reparaturkosten", totalRepairCost t);
    ("Gesamte Versandkosten", totalShippingCost t);
    ("Gesamte sonstige Kosten", totalOtherCosts t);
    ("Gesamtkosten gesamt",
     totalPurchasePrice t + totalRepairCost t + totalShippingCost t + totalOtherCosts t);
    ("Gesamtumsatz", totalSalePrice t);
    ("Gesamtsteuer", totalTax t);
    ("Gesamtgewinn vor Steuern",
     totalSalePrice t
     - (totalPurchasePrice t + totalRepairCost t + totalShippingCost t + totalOtherCosts t));
    ("Gesamtgewinn nach Steuern",
     totalSalePrice t
     - (totalPurchasePrice t + totalRepairCost t + totalShippingCost t + totalOtherCosts t)
     - totalTax t) ].

(** Both dates of the device, where present, are dates [format] accepts. *)
Definition dates_ok (format : string -> outcome string) (device : Device) : Prop :=
  (exists s, date_cell format (purchase_date device) = Returns s) /\
  (exists s, date_cell format (sale_date device) = Returns s).

(** *** Sample data *)

Definition iso_date (s : string) : outcome string :=
  if Nat.eqb (String.length s) 10 then Returns s else Throws.

Definition sample_devices : list Device :=
  [ mkDevice "A-1" "SOLD" (Def "2024-03-01") (Def "2024-04-02")
             (Def 1000) (Def 20) (Def 5) (Def 5) (Def 1190) (Def 10) (Def true);
    mkDevice "A-2" "STOCK" (Def "2024-03-05") Null
             (Def 300) Null Null Null (Def 450) Null (Def true);
    mkDevice "A-3" "SOLD" (Def "2024-03-07") (Def "2024-03-20")
             (Def 200) Null Null Null Null Null (Def false) ].

End DevicesActions.

(* ===================================================================== *)
(** ** lib/pdf/eigenbeleg.ts: what the layout guarantees *)
(* ===================================================================== *)

Module Layout.
Import Eigenbeleg.

(** A command stays out of the footer zone: it draws at or above the bottom
    margin, or it is the footer itself. *)
Definition in_body (ft : string) (e : nat * op) : Prop :=
  match snd e with
  | Text s x yy sz b c => yy <= PAGE_BOTTOM \/ is_footer ft (Text s x yy sz b c) = true
  | Line _ y1 _ y2 _ => y1 <= PAGE_BOTTOM /\ y2 <= PAGE_BOTTOM
  | Image _ _ yy _ h => yy + h <= PAGE_BOTTOM
  end.

Definition tidy (ft : string) (w : PdfWriter) : Prop :=
  footerText w = ft /\ Forall (in_body ft) (content (doc w)).

(** The strings drawn in the value column, in drawing order. *)
Fixpoint value_texts (l : list (nat * op)) : list string :=
  match l with
  | [] => []
  | (_, Text s x _ _ _ _) :: rest =>
      if Qeq_bool x VALUE_X then s :: value_texts rest else value_texts rest
  | _ :: rest => value_texts rest
  end.

(** Going from [w] to [w'] draws the strings [ts] in the value column (and
    whatever else in other places); [mw] is the usable width of both. *)
Definition adds (mw : Q) (ts : list string) (w w' : PdfWriter) : Prop :=
  maxValueWidth w = mw ->
  maxValueWidth w' = mw /\
  exists l, content (doc w') = (content (doc w) ++ l)%list /\ value_texts l = ts.

(** The writer is on page [pc] with its cursor at or above [b]. *)
Definition below (pc : nat) (b : Q) (w : PdfWriter) : Prop :=
  pageCount (doc w) = pc /\ y w <= b.

(** Every value wraps to a single line. *)
Definition one_line `{Runtime} : Prop :=
  forall fs b s mw, exists l, splitTextToSize fs b s mw = [l].

(** [maybe s v]: the lines of an optional field, none when it is skipped. *)
Definition lines_if `{Runtime} (v : nullable string) (mw : Q) : list string :=
  match v with
  | Def s => if String.eqb s "" then [] else splitTextToSize 10 false s mw
  | _ => []
  end.

(** The value column of the receipt, field by field. *)
Definition expected_values `{Runtime} (device : Device) (companyProfile : CompanyProfile)
           (options : EigenbelegOptions) : list string :=
  let mw := getWidth - VALUE_X - MARGIN_RIGHT in
  let dateStr := toLocaleDateString (purchase_date device) in
  (splitTextToSize 10 true dateStr mw
   ++ splitTextToSize 10 true (recipientName options) mw
   ++ splitTextToSize 10 false
        ("Ankauf " ++ model device ++ " " ++ storage device ++ " " ++ color device)%string mw
   ++ [("Geräte-ID: " ++ id device)%string]
   ++ splitTextToSize 14 true (amountStr device) mw
   ++ splitTextToSize 10 true (reasonText options) mw
   ++ [ owner_name companyProfile;
        company_name companyProfile;
        (street companyProfile ++ " " ++ house_number companyProfile)%string;
        (postal_code companyProfile ++ " " ++ city companyProfile)%string ]
   ++ splitTextToSize 10 false dateStr mw
   ++ lines_if (tax_id companyProfile) mw
   ++ lines_if (vat_id companyProfile) mw
   ++ splitTextToSize 9 false randomUUID mw)%list.

(** [w] with one more command at the very beginning of its document. *)
Definition prepend (e : nat * op) (w : PdfWriter) : PdfWriter :=
  on_doc (fun d => mkDoc (pageCount d) (e :: content d) (fontSize d) (fontBold d)
                         (textColor d) (drawColor d)) w.

(** The logo is fetched, read and decoded without a failure. *)
Definition logo_loaded `{Runtime} (c : CompanyProfile) (data : string) : Prop :=
  exists url r buffer,
    logo_url c = Def url /\ url <> "" /\
    fetch url = Returns r /\ ok r = true /\ arrayBuffer r = Returns buffer /\
    data = data_url r buffer /\ decodable data = true.

(** A writer at the top of a page. *)
Definition top_writer : PdfWriter := mkWriter new_jsPDF 25 210 100 "info@example.org".

(** A runtime that never wraps. *)
Definition unwrapped : Runtime :=
  {| splitTextToSize := fun _ _ s _ => [s];
     getWidth := 210;
     decodable := fun _ => true;
     output := fun d => "";
     fetch := fun _ => Returns (mkResponse true (Returns "png") Null);
     base64 := fun s => s;
     toLocaleDateString := fun s => s;
     randomUUID := "00000000-0000-4000-8000-000000000000";
     trim := fun s => s |}.

End Layout.

(* ===================================================================== *)
(** ** monthly-report/actions: getMonthlyReport *)
(* ===================================================================== *)

Module MonthlyReport.
Import DevicesActions.

Record aggregations : Type := mkAgg {
  totalRevenue : Q;
  totalPurchaseCost : Q;
  totalRepairCost : Q;
  totalShippingCost : Q;
  totalSalesFees : Q;
  totalTaxableMargin : Q;
  totalActualProfit : Q;
  totalGrossProfit : Q;
  totalVat : Q;
  totalNetProfit : Q
}.

Definition no_aggregations : aggregations := mkAgg 0 0 0 0 0 0 0 0 0 0.

(** [Number(v) || 0] for [v : number | null | undefined]: [Number(null)] is 0
    and [Number(undefined)] is NaN, both falsy. *)
Definition number_or_0 (v : nullable Q) : Q := or_num v 0.

(** One round of the [for ... of] loop. *)
Definition aggregate (a : aggregations) (device : Device) : aggregations :=
  let financials := Calculations.calculateDeviceFinancials (as_any device) in
  {| totalRevenue := totalRevenue a + number_or_0 (sale_price device);
     totalPurchaseCost := totalPurchaseCost a + number_or_0 (purchase_price device);
     totalRepairCost := totalRepairCost a + number_or_0 (repair_cost device);
     totalShippingCost := totalShippingCost a
                          + (number_or_0 (shipping_buy device)
                             + number_or_0 (shipping_sell device));
     totalSalesFees := totalSalesFees a + number_or_0 (sales_fees device);
     totalTaxableMargin := totalTaxableMargin a
                           + number_or_0 (Def (Calculations.taxableMargin financials));
     totalActualProfit := totalActualProfit a
                          + number_or_0 (Def (Calculations.actualProfit financials));
     totalGrossProfit := totalGrossProfit a
                         + number_or_0 (Def (Calculations.grossProfit financials));
     totalVat := totalVat a + number_or_0 (Def (Calculations.vat financials));
     totalNetProfit := totalNetProfit a
                       + number_or_0 (Def (Calculations.netProfit financials)) |}.

Record report : Type := mkReport {
  devices : list Device;
  soldCount : nat;
  stockCount : nat;
  repairCount : nat;
  kpis : aggregations
}.

(** [count || 0] *)
Definition count_or_0 (c : nullable nat) : nat :=
  match c with
  | Def n => n
  | _ => O
  end.

(** [user] is what [auth.getUser] gave; [range] the start and end of the
    month as ISO strings, whose computation throws for a month string that
    is no date; the other arguments are the results of the three queries.
    The result is [Null] for [return null]. *)
Definition getMonthlyReport (user : nullable string) (range : outcome (string * string))
           (soldDevices : nullable (list Device))
           (stock repair : nullable nat) : nullable report :=
  match user with
  | Def _ =>
      match range with
      | Throws => Null
      | Returns _ =>
          let safeDevices := match soldDevices with
                             | Def l => l
                             | _ => []
                             end in
          let aggregations := fold_left aggregate safeDevices no_aggregations in
          Def {| devices := safeDevices;
                 soldCount := length safeDevices;
                 stockCount := count_or_0 stock;
                 repairCount := count_or_0 repair;
                 kpis := aggregations |}
      end
  | _ => Null
  end.

(** The first five accumulators of the report and the accumulators of the
    export hold the same sums; the tax sums are equal as numbers. *)
Definition agree (a : aggregations) (t : totals) : Prop :=
  totalPurchaseCost a = totalPurchasePrice t /\
  MonthlyReport.totalRepairCost a = DevicesActions.totalRepairCost t /\
  MonthlyReport.totalShippingCost a = DevicesActions.totalShippingCost t /\
  totalSalesFees a = totalOtherCosts t /\
  totalRevenue a = totalSalePrice t /\
  totalVat a == totalTax t.

End MonthlyReport.

(* ===================================================================== *)
(** ** lib/device-transforms and the rows that createDevice and updateDevice
       build *)
(* ===================================================================== *)

Module DeviceTransforms.

(** What a property of an object typed [any] can hold.  [VUndefined] also
    stands for a property the object does not have. *)
Inductive number : Type :=
| Finite (q : Q)
| NaN
| Infinity (negative : bool).

Inductive value : Type :=
| VUndefined
| VNull
| VBool (b : bool)
| VNumber (n : number)
| VString (s : string).

Definition truthy (v : value) : bool :=
  match v with
  | VUndefined | VNull => false
  | VBool b => b
  | VNumber (Finite q) => negb (Qeq_bool q 0)
  | VNumber NaN => false
  | VNumber (Infinity _) => true
  | VString s => negb (String.eqb s "")
  end.

(** [a || b] *)
Definition or_value (a b : value) : value := if truthy a then a else b.

Definition isNaN (n : number) : bool :=
  match n with
  | NaN => true
  | _ => false
  end.

(** [Number(val)] for a value that is no string. *)
Definition Number (val : value) : number :=
  match val with
  | VUndefined => NaN
  | VNull => Finite 0
  | VBool b => if b then Finite 1 else Finite 0
  | VNumber n => n
  | VString _ => NaN
  end.

(** The database row (snake_case). *)
Module Db.
Record t : Type := mk {
  id : value;
  owner_user_id : value;
  model : value;
  storage : value;
  color : value;
  condition : value;
  status : value;
  imei : value;
  purchase_date : value;
  repair_date : value;
  sale_date : value;
  shipping_buy_date : value;
  shipping_sell_date : value;
  purchase_price : value;
  repair_cost : value;
  shipping_buy : value;
  shipping_sell : value;
  sale_price : value;
  buyer_name : value;
  sales_fees : value;
  platform_order_number : value;
  sale_invoice_number : value;
  seller_name : value;
  is_diff_tax : value;
  defects : value;
  created_at : value;
  updated_at : value
}.
End Db.

(** The application object (camelCase); the form data of [createDevice] and
    [updateDevice] has the same property names. *)
Module App.
Record t : Type := mk {
  id : value;
  ownerUserId : value;
  model : value;
  storage : value;
  color : value;
  condition : value;
  status : value;
  imei : value;
  purchaseDate : value;
  repairDate : value;
  saleDate : value;
  shippingBuyDate : value;
  shippingSellDate : value;
  purchasePrice : value;
  repairCost : value;
  shippingBuy : value;
  shippingSell : value;
  salePrice : value;
  buyerName : value;
  salesFees : value;
  platformOrderNumber : value;
  saleInvoiceNumber : value;
  sellerName : value;
  isDiffTax : value;
  defects : value;
  createdAt : value;
  updatedAt : value
}.
End App.

Definition dbToApp (db : Db.t) : App.t :=
  {| App.id := Db.id db;
     App.ownerUserId := Db.owner_user_id db;
     App.model := Db.model db;
     App.storage := Db.storage db;
     App.color := Db.color db;
     App.condition := Db.condition db;
     App.status := Db.status db;
     App.imei := Db.imei db;
     App.purchaseDate := Db.purchase_date db;
     App.repairDate := Db.repair_date db;
     App.saleDate := Db.sale_date db;
     App.shippingBuyDate := Db.shipping_buy_date db;
     App.shippingSellDate := Db.shipping_sell_date db;
     App.purchasePrice := Db.purchase_price db;
     App.repairCost := Db.repair_cost db;
     App.shippingBuy := Db.shipping_buy db;
     App.shippingSell := Db.shipping_sell db;
     App.salePrice := Db.sale_price db;
     App.buyerName := Db.buyer_name db;
     App.salesFees := Db.sales_fees db;
     App.platformOrderNumber := Db.platform_order_number db;
     App.saleInvoiceNumber := Db.sale_invoice_number db;
     App.sellerName := Db.seller_name db;
     App.isDiffTax := Db.is_diff_tax db;
     App.defects := Db.defects db;
     App.createdAt := Db.created_at db;
     App.updatedAt := Db.updated_at db |}.

(** [if (v !== undefined) db.x = v], on a property that holds [current]. *)
Definition assign (v current : value) : value :=
  match v with
  | VUndefined => current
  | _ => v
  end.

Definition appToDb (app : App.t) : Db.t :=
  {| Db.id := assign (App.id app) VUndefined;
     Db.owner_user_id := assign (App.ownerUserId app) VUndefined;
     Db.model := assign (App.model app) VUndefined;
     Db.storage := assign (App.storage app) VUndefined;
     Db.color := assign (App.color app) VUndefined;
     Db.condition := assign (App.condition app) VUndefined;
     Db.status := assign (App.status app) VUndefined;
     Db.imei := assign (App.imei app) VUndefined;
     Db.purchase_date := assign (App.purchaseDate app) VUndefined;
     Db.repair_date := assign (App.repairDate app) VUndefined;
     Db.sale_date := assign (App.saleDate app) VUndefined;
     Db.shipping_buy_date := assign (App.shippingBuyDate app) VUndefined;
     Db.shipping_sell_date := assign (App.shippingSellDate app) VUndefined;
     Db.purchase_price := assign (App.purchasePrice app) VUndefined;
     Db.repair_cost := assign (App.repairCost app) VUndefined;
     Db.shipping_buy := assign (App.shippingBuy app) VUndefined;
     Db.shipping_sell := assign (App.shippingSell app) VUndefined;
     Db.sale_price := assign (App.salePrice app) VUndefined;
     Db.buyer_name := assign (App.buyerName app) VUndefined;
     Db.sales_fees := assign (App.salesFees app) VUndefined;
     Db.platform_order_number := assign (App.platformOrderNumber app) VUndefined;
     Db.sale_invoice_number := assign (App.saleInvoiceNumber app) VUndefined;
     Db.seller_name := assign (App.sellerName app) VUndefined;
     Db.is_diff_tax := assign (App.isDiffTax app) VUndefined;
     Db.defects := assign (App.defects app) VUndefined;
     Db.created_at := assign (App.createdAt app) VUndefined;
     Db.updated_at := assign (App.updatedAt app) VUndefined |}.

(** The platform: [parseFloat], the time value of [new Date(val)] (NaN for
    an invalid date), [new Date(val).toISOString()] and
    [new Date().toISOString()]. *)
Class Platform : Type := {
  parseFloat : string -> number;
  getTime : value -> number;
  toISOString : value -> string;
  now_iso : string
}.

Definition parseNumber `{Platform} (val : value) : number :=
  match val with
  | VNull | VUndefined => Finite 0
  | VString EmptyString => Finite 0
  | _ =>
      let num := match val with
                 | VString s => parseFloat s
                 | _ => Number val
                 end in
      if isNaN num then Finite 0 else num
  end.

(** The result is a string or null. *)
Definition parseDate `{Platform} (val : value) : value :=
  if negb (truthy val) then VNull
  else if isNaN (getTime val) then VNull else VString (toISOString val).

(** [v === true || v === 'on' || v === 'true'] *)
Definition checked (v : value) : bool :=
  match v with
  | VBool true => true
  | VString s => String.eqb s "on" || String.eqb s "true"
  | _ => false
  end.

(** The row [createDevice] inserts. *)
Definition createDevice_data `{Platform} (user_id : string) (formData : App.t) : Db.t :=
  {| Db.id := App.id formData;
     Db.owner_user_id := VString user_id;
     Db.model := App.model formData;
     Db.storage := App.storage formData;
     Db.color := App.color formData;
     Db.condition := App.condition formData;
     Db.status := App.status formData;
     Db.imei := or_value (App.imei formData) VNull;
     Db.purchase_date := or_value (parseDate (App.purchaseDate formData)) (VString now_iso);
     Db.repair_date := parseDate (App.repairDate formData);
     Db.sale_date := parseDate (App.saleDate formData);
     Db.shipping_buy_date := VUndefined;
     Db.shipping_sell_date := VUndefined;
     Db.purchase_price := VNumber (parseNumber (App.purchasePrice formData));
     Db.repair_cost := VNumber (parseNumber (App.repairCost formData));
     Db.shipping_buy := VNumber (parseNumber (App.shippingBuy formData));
     Db.shipping_sell := VNumber (parseNumber (App.shippingSell formData));
     Db.sale_price := if truthy (App.salePrice formData)
                   then VNumber (parseNumber (App.salePrice formData)) else VNull;
     Db.buyer_name := or_value (App.buyerName formData) VNull;
     Db.sales_fees := VNumber (parseNumber (App.salesFees formData));
     Db.platform_order_number := or_value (App.platformOrderNumber formData) VNull;
     Db.sale_invoice_number := or_value (App.saleInvoiceNumber formData) VNull;
     Db.seller_name := or_value (App.sellerName formData) VNull;
     Db.is_diff_tax := VBool (checked (App.isDiffTax formData));
     Db.defects := or_value (App.defects formData) VNull;
     Db.created_at := VUndefined;
     Db.updated_at := VUndefined |}.

(** [if (formData.x !== undefined) updateData.y = r] on the empty object. *)
Definition when_defined (v r : value) : value :=
  match v with
  | VUndefined => VUndefined
  | _ => r
  end.

(** The change [updateDevice] sends. *)
Definition updateDevice_data `{Platform} (formData : App.t) : Db.t :=
  {| Db.id := VUndefined;
     Db.owner_user_id := VUndefined;
     Db.model :=
       when_defined (App.model formData)
         (App.model formData);
     Db.storage :=
       when_defined (App.storage formData)
         (App.storage formData);
     Db.color :=
       when_defined (App.color formData)
         (App.color formData);
     Db.condition :=
       when_defined (App.condition formData)
         (App.condition formData);
     Db.status :=
       when_defined (App.status formData)
         (App.status formData);
     Db.imei :=
       when_defined (App.imei formData)
         (or_value (App.imei formData) VNull);
     Db.purchase_date :=
       when_defined (App.purchaseDate formData)
         (parseDate (App.purchaseDate formData));
     Db.repair_date :=
       when_defined (App.repairDate formData)
         (parseDate (App.repairDate formData));
     Db.sale_date :=
       when_defined (App.saleDate formData)
         (parseDate (App.saleDate formData));
     Db.shipping_buy_date := VUndefined;
     Db.shipping_sell_date := VUndefined;
     Db.purchase_price :=
       when_defined (App.purchasePrice formData)
         (VNumber (parseNumber (App.purchasePrice formData)));
     Db.repair_cost :=
       when_defined (App.repairCost formData)
         (VNumber (parseNumber (App.repairCost formData)));
     Db.shipping_buy :=
       when_defined (App.shippingBuy formData)
         (VNumber (parseNumber (App.shippingBuy formData)));
     Db.shipping_sell :=
       when_defined (App.shippingSell formData)
         (VNumber (parseNumber (App.shippingSell formData)));
     Db.sale_price :=
       when_defined (App.salePrice formData)
         (if truthy (App.salePrice formData)
          then VNumber (parseNumber (App.salePrice formData)) else VNull);
     Db.buyer_name :=
       when_defined (App.buyerName formData)
         (or_value (App.buyerName formData) VNull);
     Db.sales_fees :=
       when_defined (App.salesFees formData)
         (VNumber (parseNumber (App.salesFees formData)));
     Db.platform_order_number :=
       when_defined (App.platformOrderNumber formData)
         (or_value (App.platformOrderNumber formData) VNull);
     Db.sale_invoice_number :=
       when_defined (App.saleInvoiceNumber formData)
         (or_value (App.saleInvoiceNumber formData) VNull);
     Db.seller_name :=
       when_defined (App.sellerName formData)
         (or_value (App.sellerName formData) VNull);
     Db.is_diff_tax :=
       when_defined (App.isDiffTax formData)
         (VBool (checked (App.isDiffTax formData)));
     Db.defects :=
       when_defined (App.defects formData)
         (or_value (App.defects formData) VNull);
     Db.created_at := VUndefined;
     Db.updated_at := VUndefined |}.

Definition empty_form : App.t :=
  App.mk VUndefined VUndefined VUndefined VUndefined VUndefined VUndefined VUndefined
         VUndefined VUndefined VUndefined VUndefined VUndefined VUndefined VUndefined
         VUndefined VUndefined VUndefined VUndefined VUndefined VUndefined VUndefined
         VUndefined VUndefined VUndefined VUndefined VUndefined VUndefined.

Definition empty_row : Db.t :=
  Db.mk VUndefined VUndefined VUndefined VUndefined VUndefined VUndefined VUndefined
        VUndefined VUndefined VUndefined VUndefined VUndefined VUndefined VUndefined
        VUndefined VUndefined VUndefined VUndefined VUndefined VUndefined VUndefined
        VUndefined VUndefined VUndefined VUndefined VUndefined VUndefined.

(** A column that holds a number other than NaN. *)
Definition is_amount (v : value) : Prop :=
  exists n, v = VNumber n /\ n <> NaN.

(** A platform to run the model on: only "12.5" parses, only "2024-03-01"
    is a date. *)
Definition sample_platform : Platform :=
  {| parseFloat := fun s => if String.eqb s "12.5" then Finite 12.5 else NaN;
     getTime := fun v => match v with
                         | VString s => if String.eqb s "2024-03-01"
                                        then Finite 1709251200000 else NaN
                         | _ => NaN
                         end;
     toISOString := fun _ => "2024-03-01T00:00:00.000Z";
     now_iso := "2024-06-01T12:00:00.000Z" |}.

Definition sample_form : App.t :=
  App.mk (VString "RS-1") VUndefined (VString "iPhone 12") (VString "128GB")
         (VString "Schwarz") (VString "USED") (VString "STOCK") (VString "")
         (VString "kein Datum") VUndefined VUndefined VUndefined VUndefined
         (VString "12.5") (VString "abc") VUndefined VUndefined (VNumber (Finite 0))
         VUndefined VUndefined VUndefined VUndefined VUndefined VUndefined
         VUndefined VUndefined VUndefined.

End DeviceTransforms.

(* ===================================================================== *)
(** ** devices/[id]/upload-actions *)
(* ===================================================================== *)

Module UploadActions.

Definition MAX_FILE_SIZE : Z := 10 * 1024 * 1024.

Definition ALLOWED_MIME_TYPES : list string :=
  [ "application/pdf"; "image/png"; "image/jpeg"; "image/jpg"; "image/webp";
    "text/plain" ].

(** What a call of the Supabase client answers: nothing wrong, [{ error }]
    with the error's message, or an exception with its message, if it has
    one. *)
Inductive reply : Type :=
| Fine
| Failed (message : string)
| Thrown (message : nullable string).

Record File : Type := mkFile {
  name : string;
  size : Z;
  type : string
}.

(** The row inserted into [device_files]. *)
Record file_row : Type := mkRow {
  device_id : string;
  owner_user_id : string;
  file_name : string;
  file_path : string;
  file_size : Z;
  file_type : string;
  category : string
}.

(** The answer of [storage.list(dir)]: [{ data, error }], or an exception. *)
Inductive listing : Type :=
| Listed (data : nullable (list string))
| ListError
| ListThrows.

Class Backend : Type := {
  (** [storage.from('device-files').list(dir)] *)
  list_dir : string -> listing;
  (** [Date.now()] in the n-th round of the loop *)
  now : nat -> Z;
  (** [new Date().toISOString().slice(0, 10)] *)
  today : string;
  (** year and month of the purchase date, as [YYYY-MM] *)
  yearMonth : string -> string;
  (** [storage.from('device-files').upload(path, file)] *)
  upload : string -> File -> reply;
  (** [from('device_files').insert(row)] *)
  insert : file_row -> reply;
  (** [storage.from('device-files').remove([path])] *)
  remove : string -> reply;
  (** the members every object literal inherits (toString, constructor,
      __proto__, ...), as a template literal prints them *)
  Object_prototype : string -> nullable string
}.

(** What a lookup [object[key]] in an object literal of strings finds. *)
Inductive member : Type :=
| Own (s : string)
| Inherited (text : string)
| Missing.

(** [m || d] inside a template literal: an own string unless it is empty,
    an inherited member (an object, hence truthy) as printed. *)
Definition or_member (m : member) (d : string) : string :=
  match m with
  | Own s => or_str (Def s) d
  | Inherited text => text
  | Missing => d
  end.

Definition CATEGORY_FILENAME_MAP `{Backend} (category : string) : member :=
  if String.eqb category "INVOICE" then Own "Rechnung"
  else if String.eqb category "PAYPAL" then Own "Zahlungsbeleg"
  else if String.eqb category "CHAT" then Own "KleinanzeigenChat"
  else if String.eqb category "EIGENBELEG" then Own "Eigenbeleg"
  else if String.eqb category "OTHER" then Own "Dokument"
  else match Object_prototype category with
       | Def text => Inherited text
       | _ => Missing
       end.

(** *** The regular expression [/\.[^/.]+$/] *)

(** [s] consists of characters other than "/" and ".". *)
Fixpoint plain (s : string) : bool :=
  match s with
  | EmptyString => true
  | String c r => negb (Ascii.eqb c "/") && negb (Ascii.eqb c ".") && plain r
  end.

(** The expression matches [s] from its first character on. *)
Definition matches_here (s : string) : bool :=
  match s with
  | EmptyString => false
  | String c r => Ascii.eqb c "." && negb (String.eqb r "") && plain r
  end.

(** [s.match(/\.[^/.]+$/)?.[0]]: the leftmost match, if there is one. *)
Fixpoint match_extension (s : string) : nullable string :=
  match s with
  | EmptyString => Undefined
  | String c r => if matches_here s then Def s else match_extension r
  end.

(** [s.replace(/\.[^/.]+$/, '')] *)
Fixpoint strip_extension (s : string) : string :=
  match s with
  | EmptyString => EmptyString
  | String c r => if matches_here s then EmptyString else String c (strip_extension r)
  end.

(** [s.match(/\.[^/.]+$/)?.[0] || ''] *)
Definition extension_of (s : string) : string := or_str (match_extension s) "".

(** *** generateStructuredFilename *)

Definition generateStructuredFilename `{Backend}
           (category deviceId originalFilename : string) : string :=
  let prefix := or_member (CATEGORY_FILENAME_MAP category) "Dokument" in
  let extension := extension_of originalFilename in
  prefix ++ "_" ++ deviceId ++ "_" ++ today ++ extension.

(** *** Paths *)

Definition has_slash (s : string) : bool :=
  existsb (Ascii.eqb "/") (list_ascii_of_string s).

(** [s.substring(s.lastIndexOf('/') + 1)] *)
Fixpoint after_last_slash (s : string) : string :=
  match s with
  | EmptyString => EmptyString
  | String c r =>
      if has_slash r then after_last_slash r
      else if Ascii.eqb c "/" then r else s
  end.

(** [s.substring(0, s.lastIndexOf('/'))]; the empty string when there is no
    slash. *)
Fixpoint before_last_slash (s : string) : string :=
  match s with
  | EmptyString => EmptyString
  | String c r =>
      if has_slash r then String c (before_last_slash r) else EmptyString
  end.

(** *** fileExists and getUniqueFilename *)

(** [String(n)] for an integer. *)
Definition show (n : Z) : string :=
  (if Z.ltb n 0 then "-" else "")
  ++ string_of_list_ascii (Eigenbeleg.digits (Z.abs n)).

Definition fileExists `{Backend} (filePath : string) : bool :=
  match list_dir (before_last_slash filePath) with
  | Listed data =>
      let filename := after_last_slash filePath in
      existsb (fun file => String.eqb file filename)
              (match data with Def l => l | _ => [] end)
  | ListError => false
  | ListThrows => false
  end.

(** The [while] loop of [getUniqueFilename], run for at most [fuel] rounds. *)
Fixpoint unique_loop `{Backend} (fuel : nat) (basePath baseFilename extension : string)
         (result : string) (counter : nat) : option string :=
  match fuel with
  | O => None
  | S fuel' =>
      if fileExists (basePath ++ "/" ++ result) then
        let timestamp := (now counter + Z.of_nat counter)%Z in
        unique_loop fuel' basePath baseFilename extension
                    (baseFilename ++ "_" ++ show timestamp ++ extension) (S counter)
      else Some result
  end.

Definition getUniqueFilename `{Backend} (fuel : nat)
           (userId yearMonth deviceId filename : string) : option string :=
  let basePath := userId ++ "/" ++ yearMonth ++ "/" ++ deviceId in
  let baseFilename := strip_extension filename in
  let extension := extension_of filename in
  unique_loop fuel basePath baseFilename extension filename 0.

(** The n-th name the loop tries after the given one. *)
Definition candidate `{Backend} (filename : string) (n : nat) : string :=
  strip_extension filename ++ "_" ++ show (now n + Z.of_nat n) ++ extension_of filename.

(** The path of the n-th candidate is [stem_of ... ++ tail_of filename n]. *)
Definition stem_of (userId yearMonth deviceId filename : string) : string :=
  (userId ++ "/" ++ yearMonth ++ "/" ++ deviceId) ++ "/" ++ strip_extension filename.

Definition tail_of `{Backend} (filename : string) (n : nat) : string :=
  "_" ++ show (now n + Z.of_nat n) ++ extension_of filename.

(** The entries a directory lists, none if it cannot be listed. *)
Definition entries `{Backend} (dir : string) : list string :=
  match list_dir dir with
  | Listed (Def l) => l
  | _ => []
  end.

(** The clock does not go backwards. *)
Definition steady `{Backend} : Prop := forall n, (now n <= now (S n))%Z.

(** *** uploadDeviceFile *)

(** The calls it makes on storage, database and cache. *)
Inductive call : Type :=
| StorageUpload (path : string) (file : File)
| StorageRemove (path : string)
| Insert (row : file_row)
| Revalidate (path : string).

Inductive result : Type :=
| Success (filePath filename : string)
| Failure (error : string).

(** The [catch] of [uploadDeviceFile]. *)
Definition caught (message : nullable string) : result :=
  Failure (or_str message "Upload failed").

(** [user] is the id of the signed-in user, [device] the purchase date of
    the device if the device was found and is the user's, [file] and
    [category] what the form data holds.  The three calls that write answer
    with a [reply]; the result comes with the calls made, in order.  [None]
    when the loop of [getUniqueFilename] is not done after [fuel] rounds. *)
Definition uploadDeviceFile `{Backend} (fuel : nat) (user : nullable string)
           (device : nullable string) (deviceId : string)
           (file : nullable File) (category : nullable string)
  : option (result * list call) :=
  match user with
  | Def user_id =>
      match device with
      | Def purchase_date =>
          let category := or_str category "OTHER" in
          match file with
          | Def file =>
              if Z.gtb (size file) MAX_FILE_SIZE then
                Some (Failure "File too large. Maximum size is 10MB", [])
              else if negb (existsb (String.eqb (type file)) ALLOWED_MIME_TYPES) then
                Some (Failure "File type not allowed. Allowed: PDF, PNG, JPG, WEBP, TXT", [])
              else
                let yearMonth := yearMonth purchase_date in
                let structuredName :=
                  generateStructuredFilename category deviceId (name file) in
                match getUniqueFilename fuel user_id yearMonth deviceId structuredName with
                | None => None
                | Some uniqueFilename =>
                    let filePath := user_id ++ "/" ++ yearMonth ++ "/" ++ deviceId
                                    ++ "/" ++ uniqueFilename in
                    match upload filePath file with
                    | Thrown message =>
                        Some (caught message, [StorageUpload filePath file])
                    | Failed message =>
                        Some (Failure (or_str (Def message) "File upload failed"),
                              [StorageUpload filePath file])
                    | Fine =>
                        let row := {| device_id := deviceId;
                                      owner_user_id := user_id;
                                      file_name := uniqueFilename;
                                      file_path := filePath;
                                      file_size := size file;
                                      file_type := type file;
                                      category := category |} in
                        match insert row with
                        | Thrown message =>
                            Some (caught message,
                                  [StorageUpload filePath file; Insert row])
                        | Failed _ =>
                            match remove filePath with
                            | Thrown message =>
                                Some (caught message,
                                      [StorageUpload filePath file; Insert row;
                                       StorageRemove filePath])
                            | _ =>
                                Some (Failure "Failed to save file metadata",
                                      [StorageUpload filePath file; Insert row;
                                       StorageRemove filePath])
                            end
                        | Fine =>
                            Some (Success filePath uniqueFilename,
                                  [StorageUpload filePath file; Insert row;
                                   Revalidate ("/devices/" ++ deviceId)])
                        end
                    end
                end
          | _ => Some (Failure "No file provided", [])
          end
      | _ => Some (Failure "Device not found or access denied", [])
      end
  | _ => Some (Failure "Not authenticated", [])
  end.

(** *** Sample data *)

Definition sample_backend : Backend :=
  {| list_dir := fun dir =>
       if String.eqb dir "u-1/2024-03/RS-1"
       then Listed (Def ["Rechnung_RS-1_2024-06-01.pdf"])
       else Listed (Def []);
     now := fun n => (1717243200000 + Z.of_nat n)%Z;
     today := "2024-06-01";
     yearMonth := fun _ => "2024-03";
     upload := fun _ _ => Fine;
     insert := fun _ => Fine;
     remove := fun _ => Fine;
     Object_prototype := fun key =>
       if String.eqb key "__proto__" then Def "[object Object]"
       else if String.eqb key "constructor"
            then Def "function Object() { [native code] }"
       else if existsb (String.eqb key)
                 [ "toString"; "toLocaleString"; "valueOf"; "hasOwnProperty";
                   "isPrototypeOf"; "propertyIsEnumerable"; "__defineGetter__";
                   "__defineSetter__"; "__lookupGetter__"; "__lookupSetter__" ]
            then Def ("function " ++ key ++ "() { [native code] }")
       else Undefined |}.

(** A database that refuses every row. *)
Definition refusing : Backend :=
  {| list_dir := @list_dir sample_backend;
     now := @now sample_backend;
     today := @today sample_backend;
     yearMonth := @yearMonth sample_backend;
     upload := fun _ _ => Fine;
     insert := fun _ => Failed "duplicate key";
     remove := fun _ => Fine;
     Object_prototype := @Object_prototype sample_backend |}.

Definition sample_file : File := mkFile "scan.v2.PDF" 2048 "application/pdf".

End UploadActions.

(* ===================================================================== *)
(** ** Facts about the JavaScript operators *)
(* ===================================================================== *)

Lemma gt_true (a b : Q) : gt a b = true <-> b < a.
Proof.
unfold gt. rewrite negb_true_iff. split; intro H.
- apply Qnot_le_lt. intro L. apply Qle_bool_iff in L. congruence.
- destruct (Qle_bool a b) eqn:E; [|reflexivity].
  apply Qle_bool_iff in E. exfalso. apply (Qlt_not_le _ _ H E).
Qed.

Lemma gt_false (a b : Q) : gt a b = false <-> a <= b.
Proof.
unfold gt. rewrite negb_false_iff. apply Qle_bool_iff.
Qed.

Lemma or_num_nonneg (a : nullable Q) :
(forall q, a = Def q -> 0 <= q) -> 0 <= or_num a 0.
Proof.
intros H. destruct a as [| |q]; simpl; try apply Qle_refl.
destruct (Qeq_bool q 0); [apply Qle_refl | apply H; reflexivity].
Qed.

Lemma or_else_nonneg (a b : nullable Q) :
(forall q, a = Def q -> 0 <= q) -> (forall q, b = Def q -> 0 <= q) ->
forall q, or_else a b = Def q -> 0 <= q.
Proof.
intros Ha Hb q. unfold or_else. destruct (truthy_num a); auto.
Qed.

(* ===================================================================== *)
(** ** The financial calculator *)
(* ===================================================================== *)

Section CalculatorFacts.
Import Calculations.

Lemma money_nonneg (camel snake : nullable Q) :
  nonneg camel -> nonneg snake -> 0 <= money camel snake.
Proof.
  intros Hc Hs. apply or_num_nonneg. apply or_else_nonneg; assumption.
Qed.

Lemma nineteen_pos : 0 < 19 / 119.
Proof. reflexivity. Qed.

Lemma money_absent (camel snake : nullable Q) :
  absent camel -> absent snake -> money camel snake = 0.
Proof. intros [-> | ->] [-> | ->]; reflexivity. Qed.

Lemma flag_absent (camel snake : nullable bool) :
  absent camel -> absent snake -> flag camel snake = true.
Proof. intros [-> | ->] [-> | ->]; reflexivity. Qed.

Lemma money_fill (camel snake : nullable Q) :
  money (fill_money camel snake) snake = money camel snake.
Proof. destruct camel, snake; reflexivity. Qed.

Lemma flag_fill (camel snake : nullable bool) :
  flag (fill_flag camel snake) snake = flag camel snake.
Proof. destruct camel, snake; reflexivity. Qed.

Lemma fill_money_present (camel snake : nullable Q) :
  present_somewhere (fill_money camel snake) snake.
Proof.
  destruct camel as [| |c], snake as [| |s]; simpl;
    solve [left; eexists; reflexivity | right; eexists; reflexivity].
Qed.

Lemma fill_flag_present (camel snake : nullable bool) :
  present_somewhere (fill_flag camel snake) snake.
Proof.
  destruct camel as [| |c], snake as [| |s]; simpl;
    solve [left; eexists; reflexivity | right; eexists; reflexivity].
Qed.

Lemma money_zero_overridden (q : Q) : ~ q == 0 -> money (Def 0) (Def q) = q.
Proof.
  intros Hq. unfold money, or_else. simpl.
  destruct (Qeq_bool q 0) eqn:E; [|reflexivity].
  apply Qeq_bool_iff in E. contradiction.
Qed.

(** C1, as the claim states it, fails: the last sentence ("vat is never
    negative") does not hold for a sold device under standard taxation whose
    sale price is negative; there vat = -119 * 19/119 = -19. *)
Lemma C1_vat_negative_counterexample :
  status refund_device = "SOLD" /\
  isDiffTax_of refund_device = false /\
  vat (calculateDeviceFinancials refund_device) == -19 /\
  ~ 0 <= vat (calculateDeviceFinancials refund_device).
Proof.
  repeat split; try reflexivity.
  vm_compute. intro H. apply H. reflexivity.
Qed.

(** C1 (amended): vat is 0 when the status is not SOLD; for a SOLD device
    under differential taxation it is taxableMargin * (19/119) when the
    margin is positive and 0 otherwise; for a SOLD device under standard
    taxation it is salePrice * (19/119) whatever the margin.  vat is
    non-negative when the device is not sold, when it is taxed
    differentially, or when its sale price is non-negative. *)
Theorem C1_vat_cases (d : device) :
  (status d <> "SOLD" -> vat (calculateDeviceFinancials d) = 0) /\
  (status d = "SOLD" -> isDiffTax_of d = true ->
     (0 < taxableMargin (calculateDeviceFinancials d) ->
        vat (calculateDeviceFinancials d)
        = taxableMargin (calculateDeviceFinancials d) * (19 / 119)) /\
     (taxableMargin (calculateDeviceFinancials d) <= 0 ->
        vat (calculateDeviceFinancials d) = 0)) /\
  (status d = "SOLD" -> isDiffTax_of d = false ->
     vat (calculateDeviceFinancials d) = salePrice_of d * (19 / 119)) /\
  (status d <> "SOLD" \/ isDiffTax_of d = true \/ 0 <= salePrice_of d ->
     0 <= vat (calculateDeviceFinancials d)).
Proof.
  unfold calculateDeviceFinancials, isDiffTax_of, salePrice_of, flag, money. simpl.
  set (sp := or_num (or_else (salePrice d) (sale_price d)) 0).
  set (pp := or_num (or_else (purchasePrice d) (purchase_price d)) 0).
  set (dt := coalesce_lit (coalesce (isDiffTax d) (is_diff_tax d)) true).
  repeat split.
  - intro Hs. apply String.eqb_neq in Hs. rewrite Hs. reflexivity.
  - intro Hm. apply String.eqb_eq in H. rewrite H, H0.
    apply gt_true in Hm. rewrite Hm. reflexivity.
  - intro Hm. apply String.eqb_eq in H. rewrite H, H0.
    apply gt_false in Hm. rewrite Hm. reflexivity.
  - intros Hs Hd. apply String.eqb_eq in Hs. rewrite Hs, Hd. reflexivity.
  - intros Hcase.
    destruct (String.eqb (status d) "SOLD") eqn:Es; [|apply Qle_refl].
    destruct dt eqn:Ed.
    + destruct (gt (sp - pp) 0) eqn:Eg; [|apply Qle_refl].
      apply gt_true in Eg. apply Qmult_le_0_compat;
        [apply Qlt_le_weak; exact Eg | apply Qlt_le_weak; exact nineteen_pos].
    + destruct Hcase as [Hn | [Ht | Hp]].
      * apply String.eqb_neq in Hn. congruence.
      * discriminate.
      * apply Qmult_le_0_compat; [exact Hp | apply Qlt_le_weak; exact nineteen_pos].
Qed.

Lemma C1_vat_cases_witness :
  vat (calculateDeviceFinancials sample_sold)
  = taxableMargin (calculateDeviceFinancials sample_sold) * (19 / 119) /\
  0 <= vat (calculateDeviceFinancials sample_sold).
Proof.
  split.
  - apply (proj1 (proj2 (C1_vat_cases sample_sold))); reflexivity.
  - apply (proj2 (proj2 (proj2 (C1_vat_cases sample_sold)))).
    right. left. reflexivity.
Defined.

(** C4: totalCosts is the sum of purchase price, repair cost, both shipping
    legs and sales fees, each absent value counting as 0; with non-negative
    monetary inputs it is at least the purchase price and at least the
    repair cost. *)
Theorem C4_totalCosts (d : device) :
  totalCosts (calculateDeviceFinancials d)
  = purchasePrice_of d + repairCost_of d + shippingBuy_of d
    + shippingSell_of d + salesFees_of d /\
  (nonneg_inputs d ->
     purchasePrice_of d <= totalCosts (calculateDeviceFinancials d) /\
     repairCost_of d <= totalCosts (calculateDeviceFinancials d)).
Proof.
  split; [reflexivity|].
  intros (H1 & H2 & H3 & H4 & H5 & H6 & H7 & H8 & H9 & H10 & _).
  assert (Hp := money_nonneg _ _ H1 H2).
  assert (Hr := money_nonneg _ _ H3 H4).
  assert (Hb := money_nonneg _ _ H5 H6).
  assert (Hl := money_nonneg _ _ H7 H8).
  assert (Hf := money_nonneg _ _ H9 H10).
  unfold calculateDeviceFinancials, purchasePrice_of, repairCost_of. simpl.
  fold (money (purchasePrice d) (purchase_price d)).
  fold (money (repairCost d) (repair_cost d)).
  fold (money (shippingBuy d) (shipping_buy d)).
  fold (money (shippingSell d) (shipping_sell d)).
  fold (money (salesFees d) (sales_fees d)).
  split; lra.
Qed.

Lemma sample_sold_nonneg : nonneg_inputs sample_sold.
Proof.
  unfold nonneg_inputs, nonneg, sample_sold; simpl.
  repeat split; intros q Hq; try discriminate;
    injection Hq as <-; discriminate.
Defined.

Lemma C4_totalCosts_witness :
  purchasePrice_of sample_sold <= totalCosts (calculateDeviceFinancials sample_sold) /\
  repairCost_of sample_sold <= totalCosts (calculateDeviceFinancials sample_sold).
Proof.
  apply (proj2 (C4_totalCosts sample_sold)). exact sample_sold_nonneg.
Defined.

(** C5: actualProfit = salePrice - totalCosts, netProfit = actualProfit - vat,
    grossProfit is the same value as actualProfit, and isFinal is true
    exactly when the status is SOLD. *)
Theorem C5_profit_fields (d : device) :
  actualProfit (calculateDeviceFinancials d)
  = salePrice_of d - totalCosts (calculateDeviceFinancials d) /\
  netProfit (calculateDeviceFinancials d)
  = actualProfit (calculateDeviceFinancials d) - vat (calculateDeviceFinancials d) /\
  grossProfit (calculateDeviceFinancials d) = actualProfit (calculateDeviceFinancials d) /\
  (isFinal (calculateDeviceFinancials d) = true <-> status d = "SOLD").
Proof.
  repeat split; try reflexivity.
  - intro H. apply String.eqb_eq. exact H.
  - intro H. apply String.eqb_eq in H. exact H.
Qed.

Lemma C5_profit_fields_witness :
  isFinal (calculateDeviceFinancials sample_sold) = true.
Proof.
  apply (proj2 (proj2 (proj2 (C5_profit_fields sample_sold)))). reflexivity.
Defined.





End CalculatorFacts.

(* ===================================================================== *)
(** ** The document model: footers and pages *)
(* ===================================================================== *)

Section DocumentFacts.
Import Eigenbeleg.

Lemma footers_app (ft : string) (p : nat) (l l' : list (nat * op)) :
  footers ft p (l ++ l') = (footers ft p l + footers ft p l')%nat.
Proof.
  unfold footers. rewrite filter_app, length_app. reflexivity.
Qed.

Lemma footers_beyond (ft : string) (p n : nat) (l : list (nat * op)) :
  (forall e, In e l -> (fst e <= n)%nat) -> (n < p)%nat -> footers ft p l = 0%nat.
Proof.
  intros Hin Hp. unfold footers. induction l as [|e l IH]; [reflexivity|].
  simpl. assert (He : (fst e <= n)%nat) by (apply Hin; left; reflexivity).
  destruct (Nat.eqb_spec (fst e) p) as [E|E]; [lia|]. simpl.
  apply IH. intros e' He'. apply Hin. right. exact He'.
Qed.

Lemma footers_one (ft : string) (p q : nat) (o : op) :
  footers ft p [(q, o)] = if Nat.eqb q p && is_footer ft o then 1%nat else 0%nat.
Proof.
  unfold footers. simpl. destruct (Nat.eqb q p && is_footer ft o); reflexivity.
Qed.

Lemma footers_on_log (ft : string) (p : nat) (d : jsPDF) :
  footers_on ft p d = footers ft p (content d).
Proof.
  unfold footers_on, footers, page. induction (content d) as [|e l IH]; [reflexivity|].
  simpl. destruct (Nat.eqb (fst e) p); simpl; [|exact IH].
  destruct (is_footer ft (snd e)); simpl; rewrite IH; reflexivity.
Qed.

Lemma is_footer_value_x (ft s : string) (yy sz : Q) (b : bool) (c : rgb) :
  is_footer ft (Text s VALUE_X yy sz b c) = false.
Proof.
  simpl. replace (Qeq_bool VALUE_X LABEL_X) with false by reflexivity.
  rewrite andb_false_r. reflexivity.
Qed.

Lemma is_footer_above (ft s : string) (x yy sz : Q) (b : bool) (c : rgb) :
  yy < FOOTER_Y -> is_footer ft (Text s x yy sz b c) = false.
Proof.
  intro H. simpl. destruct (Qeq_bool yy FOOTER_Y) eqn:E.
  - apply Qeq_bool_iff in E. rewrite E in H. exfalso. exact (Qlt_irrefl _ H).
  - apply andb_false_r.
Qed.

Lemma is_footer_at (ft : string) (sz : Q) (b : bool) (c : rgb) :
  is_footer ft (Text ft LABEL_X FOOTER_Y sz b c) = true.
Proof.
  simpl. rewrite String.eqb_refl. reflexivity.
Qed.

(** Changing the graphics state leaves the pages as they are. *)
Lemma paged_same (ft : string) (d d' : jsPDF) :
  content d' = content d -> pageCount d' = pageCount d -> paged ft d -> paged ft d'.
Proof.
  intros Hc Hp [H1 H2 H3 H4]. constructor; rewrite ?Hc, ?Hp; assumption.
Qed.

(** Drawing anything but a footer keeps the pages in order. *)
Lemma paged_draw (ft : string) (o : op) (d : jsPDF) :
  is_footer ft o = false -> paged ft d -> paged ft (draw o d).
Proof.
  intros Ho [H1 H2 H3 H4]. constructor; simpl.
  - exact H1.
  - intros e He. apply in_app_or in He. destruct He as [He | [<- | []]].
    + apply H2. exact He.
    + simpl. lia.
  - intros p Hp. rewrite footers_app, footers_one, Ho, andb_false_r.
    rewrite H3 by exact Hp. reflexivity.
  - rewrite footers_app, footers_one, Ho, andb_false_r, H4. reflexivity.
Qed.

(** A footer followed by a page break closes the current page. *)
Lemma paged_break (ft : string) (o : op) (d : jsPDF) :
  is_footer ft o = true -> paged ft d -> paged ft (addPage (draw o d)).
Proof.
  intros Ho [H1 H2 H3 H4]. constructor; simpl.
  - lia.
  - intros e He. apply in_app_or in He. destruct He as [He | [<- | []]].
    + specialize (H2 e He). lia.
    + simpl. lia.
  - intros p Hp. rewrite footers_app, footers_one, Ho, andb_true_r.
    destruct (Nat.eqb_spec (pageCount d) p) as [E|E].
    + subst p. rewrite H4. reflexivity.
    + rewrite H3 by lia. reflexivity.
  - rewrite footers_app, footers_one.
    replace (Nat.eqb (pageCount d) (S (pageCount d))) with false
      by (symmetry; apply Nat.eqb_neq; lia).
    simpl. rewrite (footers_beyond ft (S (pageCount d)) (pageCount d)); auto.
Qed.

(** The footer drawn last gives every page exactly one. *)
Lemma paged_closed (ft : string) (o : op) (d : jsPDF) :
  is_footer ft o = true -> paged ft d ->
  forall p, (1 <= p <= pageCount d)%nat -> footers ft p (content (draw o d)) = 1%nat.
Proof.
  intros Ho [H1 H2 H3 H4] p Hp. simpl.
  rewrite footers_app, footers_one, Ho, andb_true_r.
  destruct (Nat.eqb_spec (pageCount d) p) as [E|E].
  - subst p. rewrite H4. reflexivity.
  - rewrite H3 by lia. reflexivity.
Qed.

Lemma paged_new (ft : string) : paged ft new_jsPDF.
Proof.
  constructor; simpl; try lia; try reflexivity.
Qed.

End DocumentFacts.

(* ===================================================================== *)
(** ** PdfWriter *)
(* ===================================================================== *)

Section WriterFacts.
Import Eigenbeleg.
Context {RT : Runtime}.

Ltac wp_intro := split; [assumption | split; [assumption|]].

(** *** The cursor *)

Lemma ensureSpace_break (needed : Q) (w : PdfWriter) :
  PAGE_BOTTOM < y w + needed ->
  ensureSpace needed w = set_y 25 (on_doc addPage (addFooter w)).
Proof.
  intro H. unfold ensureSpace. apply gt_true in H. rewrite H. reflexivity.
Qed.

Lemma ensureSpace_stay (needed : Q) (w : PdfWriter) :
  y w + needed <= PAGE_BOTTOM -> ensureSpace needed w = w.
Proof.
  intro H. unfold ensureSpace. apply gt_false in H. rewrite H. reflexivity.
Qed.

Lemma ensureSpace_cases (needed : Q) (w : PdfWriter) :
  (PAGE_BOTTOM < y w + needed /\ ensureSpace needed w = set_y 25 (on_doc addPage (addFooter w)))
  \/ (y w + needed <= PAGE_BOTTOM /\ ensureSpace needed w = w).
Proof.
  destruct (Qlt_le_dec PAGE_BOTTOM (y w + needed)) as [H|H].
  - left. split; [exact H | apply ensureSpace_break; exact H].
  - right. split; [exact H | apply ensureSpace_stay; exact H].
Qed.

Lemma ensureSpace_y_le (needed : Q) (w : PdfWriter) :
  0 <= needed -> y (ensureSpace needed w) <= PAGE_BOTTOM.
Proof.
  intro Hn. destruct (ensureSpace_cases needed w) as [[_ ->] | [H ->]].
  - simpl. discriminate.
  - unfold PAGE_BOTTOM in *. lra.
Qed.

Lemma ensureSpace_fits (needed : Q) (w : PdfWriter) :
  25 + needed <= PAGE_BOTTOM -> y (ensureSpace needed w) + needed <= PAGE_BOTTOM.
Proof.
  intro Hn. destruct (ensureSpace_cases needed w) as [[_ ->] | [H ->]].
  - simpl. exact Hn.
  - exact H.
Qed.

Lemma below_bottom_above_footer (v : Q) : v <= PAGE_BOTTOM -> v < FOOTER_Y.
Proof. unfold PAGE_BOTTOM, FOOTER_Y. intro H. lra. Qed.

(** *** The pages stay in order *)

Lemma wp_setFontSize ft n w : well_paged ft w -> well_paged ft (on_doc (setFontSize n) w).
Proof.
  intros (Hf & Hne & Hp). wp_intro.
  apply (paged_same ft (doc w)); auto.
Qed.

Lemma wp_setFont ft b w : well_paged ft w -> well_paged ft (on_doc (setFont b) w).
Proof.
  intros (Hf & Hne & Hp). wp_intro.
  apply (paged_same ft (doc w)); auto.
Qed.

Lemma wp_setTextColor ft c w : well_paged ft w -> well_paged ft (on_doc (setTextColor c) w).
Proof.
  intros (Hf & Hne & Hp). wp_intro.
  apply (paged_same ft (doc w)); auto.
Qed.

Lemma wp_setDrawColor ft c w : well_paged ft w -> well_paged ft (on_doc (setDrawColor c) w).
Proof.
  intros (Hf & Hne & Hp). wp_intro.
  apply (paged_same ft (doc w)); auto.
Qed.

Lemma wp_advance ft a w : well_paged ft w -> well_paged ft (advance a w).
Proof. intros (Hf & Hne & Hp). wp_intro. assumption. Qed.

Lemma wp_draw ft o w :
  is_footer ft o = false -> well_paged ft w -> well_paged ft (on_doc (draw o) w).
Proof.
  intros Ho (Hf & Hne & Hp). wp_intro.
  apply paged_draw; assumption.
Qed.

Lemma wp_text_value ft s w : well_paged ft w -> well_paged ft (text_at_y s VALUE_X w).
Proof.
  intros (Hf & Hne & Hp). wp_intro.
  apply paged_draw; [apply is_footer_value_x | assumption].
Qed.

Lemma wp_text_above ft s x w :
  y w < FOOTER_Y -> well_paged ft w -> well_paged ft (text_at_y s x w).
Proof.
  intros Hy (Hf & Hne & Hp). wp_intro.
  apply paged_draw; [apply is_footer_above; exact Hy | assumption].
Qed.

Lemma wp_line ft x1 x2 w : well_paged ft w -> well_paged ft (line_at_y x1 x2 w).
Proof.
  intros (Hf & Hne & Hp). wp_intro.
  apply paged_draw; [reflexivity | assumption].
Qed.

Lemma addFooter_draws ft w :
  footerText w = ft -> ft <> "" ->
  addFooter w
  = on_doc (draw (Text ft LABEL_X FOOTER_Y 8 (fontBold (doc w)) (150, 150, 150)%Z))
      (on_doc (setTextColor (150, 150, 150)%Z) (on_doc (setFontSize 8) w)).
Proof.
  intros Hf Hne. unfold addFooter. rewrite Hf.
  destruct (String.eqb_spec ft "") as [E|E]; [contradiction|].
  simpl. rewrite Hf. reflexivity.
Qed.

Lemma wp_ensureSpace ft n w : well_paged ft w -> well_paged ft (ensureSpace n w).
Proof.
  intros (Hf & Hne & Hp).
  destruct (ensureSpace_cases n w) as [[_ ->] | [_ ->]]; [|wp_intro; assumption].
  rewrite (addFooter_draws ft) by assumption.
  wp_intro. simpl.
  apply (paged_break ft _ (setTextColor (150, 150, 150)%Z (setFontSize 8 (doc w)))).
  - apply is_footer_at.
  - apply (paged_same ft (doc w)); auto.
Qed.

Lemma wp_separator ft w : well_paged ft w -> well_paged ft (separator w).
Proof.
  intro H. unfold separator.
  apply wp_advance, wp_line, wp_setDrawColor, wp_ensureSpace, H.
Qed.

Lemma wp_value_lines ft lineH lines : forall first w,
  well_paged ft w -> well_paged ft (value_lines lineH first lines w).
Proof.
  induction lines as [|l rest IH]; intros first w H; simpl; [exact H|].
  apply IH.
  assert (H1 : well_paged ft (if first then w else ensureSpace lineH w))
    by (destruct first; [exact H | apply wp_ensureSpace, H]).
  destruct rest; [|apply wp_advance]; apply wp_text_value, H1.
Qed.

Lemma wp_block_lines ft lineH values : forall w,
  well_paged ft w -> well_paged ft (block_lines lineH values w).
Proof.
  induction values as [|v rest IH]; intros w H; simpl; [exact H|].
  apply IH, wp_advance, wp_text_value, wp_ensureSpace, H.
Qed.

Lemma len_nonneg {A} (l : list A) : 0 <= len l.
Proof.
  unfold len, Qle. simpl. lia.
Qed.

Lemma min_nonneg (a b : Q) : 0 <= a -> 0 <= b -> 0 <= Js.min a b.
Proof.
  intros Ha Hb. unfold Js.min. destruct (Qle_bool a b); assumption.
Qed.

Lemma needed_nonneg {A} (lines : list A) (fs : Q) :
  0 <= fs -> 0 <= Js.min (len lines * (fs * 0.4)) (fs * 0.4 + 2).
Proof.
  intro H. assert (H4 : 0 <= fs * 0.4).
  { apply Qmult_le_0_compat; [exact H | discriminate]. }
  apply min_nonneg.
  - apply Qmult_le_0_compat; [apply len_nonneg | exact H4].
  - lra.
Qed.

Lemma wp_labelValue ft label value opts w :
  0 <= or_num (opt_field valueFontSize opts) 10 ->
  well_paged ft w -> well_paged ft (labelValue label value opts w).
Proof.
  intros Hfs H. unfold labelValue.
  apply wp_advance, wp_value_lines, wp_setTextColor, wp_setFont, wp_setFontSize.
  apply wp_text_above.
  - simpl. apply below_bottom_above_footer, ensureSpace_y_le, needed_nonneg, Hfs.
  - apply wp_setTextColor, wp_setFont, wp_setFontSize, wp_ensureSpace,
      wp_setFont, wp_setFontSize, H.
Qed.

Lemma wp_labelBlock ft label values w :
  well_paged ft w -> well_paged ft (labelBlock label values w).
Proof.
  intro H. unfold labelBlock.
  apply wp_advance, wp_block_lines, wp_setTextColor.
  apply wp_text_above.
  - simpl. apply below_bottom_above_footer, ensureSpace_y_le. discriminate.
  - apply wp_setTextColor, wp_setFont, wp_setFontSize, wp_ensureSpace, H.
Qed.

Lemma wp_labelValue_if ft label v w :
  well_paged ft w -> well_paged ft (labelValue_if label v w).
Proof.
  intro H. unfold labelValue_if. destruct v as [| |s]; try exact H.
  destruct (String.eqb s ""); [exact H|].
  apply wp_labelValue; [discriminate | exact H].
Qed.

(** *** What a call adds to the document *)

Ltac ext_prim :=
  split;
  [ eexists; split; [reflexivity | repeat constructor]
  | split; [|split]; reflexivity ].

Lemma ext_refl w : extends w w.
Proof.
  split; [|split; [|split]; reflexivity].
  exists []. split; [symmetry; apply app_nil_r | constructor].
Qed.

Lemma ext_trans w1 w2 w3 : extends w1 w2 -> extends w2 w3 -> extends w1 w3.
Proof.
  intros [(l1 & H1 & N1) (A1 & B1 & C1)] [(l2 & H2 & N2) (A2 & B2 & C2)]. split.
  - exists (l1 ++ l2)%list. split.
    + rewrite H2, H1, app_assoc. reflexivity.
    + apply Forall_app. split; assumption.
  - split; [|split]; congruence.
Qed.

Lemma ext_same w w' :
  content (doc w') = content (doc w) -> pageWidth w' = pageWidth w ->
  maxValueWidth w' = maxValueWidth w -> footerText w' = footerText w ->
  extends w w'.
Proof.
  intros H A B C. split; [|split; [|split]; assumption].
  exists []. split; [|constructor]. rewrite H. symmetry. apply app_nil_r.
Qed.

Lemma ext_setFontSize n w : extends w (on_doc (setFontSize n) w).
Proof. apply ext_same; reflexivity. Qed.

Lemma ext_setFont b w : extends w (on_doc (setFont b) w).
Proof. apply ext_same; reflexivity. Qed.

Lemma ext_setTextColor c w : extends w (on_doc (setTextColor c) w).
Proof. apply ext_same; reflexivity. Qed.

Lemma ext_setDrawColor c w : extends w (on_doc (setDrawColor c) w).
Proof. apply ext_same; reflexivity. Qed.

Lemma ext_advance a w : extends w (advance a w).
Proof. apply ext_same; reflexivity. Qed.

Lemma ext_text_at_y s x w : extends w (text_at_y s x w).
Proof. ext_prim. Qed.

Lemma ext_line_at_y x1 x2 w : extends w (line_at_y x1 x2 w).
Proof. ext_prim. Qed.

Lemma ext_addFooter w : extends w (addFooter w).
Proof.
  unfold addFooter. destruct (String.eqb (footerText w) "");
    [apply ext_refl | ext_prim].
Qed.

Lemma ext_ensureSpace n w : extends w (ensureSpace n w).
Proof.
  destruct (ensureSpace_cases n w) as [[_ ->] | [_ ->]]; [|apply ext_refl].
  apply (ext_trans _ (addFooter w)); [apply ext_addFooter | apply ext_same; reflexivity].
Qed.

Lemma ext_separator w : extends w (separator w).
Proof.
  unfold separator.
  apply (ext_trans _ (ensureSpace 10 w)); [apply ext_ensureSpace|].
  ext_prim.
Qed.

Lemma ext_value_lines lineH lines : forall first w,
  extends w (value_lines lineH first lines w).
Proof.
  induction lines as [|l rest IH]; intros first w; simpl; [apply ext_refl|].
  eapply ext_trans; [|apply IH].
  apply (ext_trans _ (if first then w else ensureSpace lineH w)).
  - destruct first; [apply ext_refl | apply ext_ensureSpace].
  - destruct rest; ext_prim.
Qed.

Lemma ext_block_lines lineH values : forall w,
  extends w (block_lines lineH values w).
Proof.
  induction values as [|v rest IH]; intros w; simpl; [apply ext_refl|].
  eapply ext_trans; [|apply IH].
  apply (ext_trans _ (ensureSpace lineH w)); [apply ext_ensureSpace|].
  ext_prim.
Qed.

(** The first wrapped line is drawn where the cursor stands, on the current
    page, whatever follows. *)
Lemma value_lines_first lineH l0 rest w :
  exists post,
    content (doc (value_lines lineH true (l0 :: rest) w))
    = (content (doc w)
       ++ [(pageCount (doc w),
            Text l0 VALUE_X (y w) (fontSize (doc w)) (fontBold (doc w)) (textColor (doc w)))]
       ++ post)%list.
Proof.
  simpl value_lines.
  set (w1 := match rest with [] => text_at_y l0 VALUE_X w
                        | _ :: _ => advance lineH (text_at_y l0 VALUE_X w) end).
  destruct (ext_value_lines lineH rest false w1) as [(post & Hpost & _) _].
  exists post. rewrite Hpost. unfold w1. rewrite app_assoc.
  destruct rest; reflexivity.
Qed.

Lemma labelValue_first_line label value opts w l0 rest :
  splitTextToSize (or_num (opt_field valueFontSize opts) 10) (is_bold opts)
                  value (maxValueWidth w) = l0 :: rest ->
  exists pre post k yy,
    content (doc (labelValue label value opts w))
    = (content (doc w) ++ pre
       ++ [ (k, Text label LABEL_X yy (or_num (opt_field labelFontSize opts) 10)
                     false labelColor);
            (k, Text l0 VALUE_X yy (or_num (opt_field valueFontSize opts) 10)
                     (is_bold opts) valueColor) ]
       ++ post)%list.
Proof.
  intro Hsplit. unfold labelValue. cbv zeta.
  change (maxValueWidth
            (on_doc (setFont (is_bold opts))
               (on_doc (setFontSize (or_num (opt_field valueFontSize opts) 10)) w)))
    with (maxValueWidth w).
  rewrite Hsplit.
  set (fs := or_num (opt_field valueFontSize opts) 10).
  set (w0 := on_doc (setFont (is_bold opts)) (on_doc (setFontSize fs) w)).
  destruct (ext_ensureSpace (Js.min (len (l0 :: rest) * (fs * 0.4)) (fs * 0.4 + 2)) w0)
    as [(pre & Hpre & _) _].
  change (content (doc w0)) with (content (doc w)) in Hpre.
  remember (ensureSpace (Js.min (len (l0 :: rest) * (fs * 0.4)) (fs * 0.4 + 2)) w0)
    as w1 eqn:Ew1.
  match goal with
  | |- context [value_lines ?h true (l0 :: rest) ?W] =>
      destruct (value_lines_first h l0 rest W) as [post Hpost]
  end.
  exists pre, post, (pageCount (doc w1)), (y w1).
  match goal with
  | |- content (doc (advance _ ?W)) = ?R => change (content (doc W) = R)
  end.
  rewrite Hpost. simpl. rewrite Hpre.
  rewrite <- !app_assoc. reflexivity.
Qed.

Lemma labelBlock_first_line label v0 rest w :
  exists pre post k yy,
    content (doc (labelBlock label (v0 :: rest) w))
    = (content (doc w) ++ pre
       ++ [ (k, Text label LABEL_X yy 10 false labelColor);
            (k, Text v0 VALUE_X yy 10 false valueColor) ]
       ++ post)%list.
Proof.
  unfold labelBlock. cbv zeta.
  destruct (ext_ensureSpace (LINE_HEIGHT + 2) w) as [(pre & Hpre & _) _].
  assert (Hfit : y (ensureSpace (LINE_HEIGHT + 2) w) + (LINE_HEIGHT + 2) <= PAGE_BOTTOM)
    by (apply ensureSpace_fits; discriminate).
  remember (ensureSpace (LINE_HEIGHT + 2) w) as w1 eqn:Ew1.
  set (w2 := on_doc (setTextColor valueColor)
               (text_at_y label LABEL_X
                  (on_doc (setTextColor labelColor)
                     (on_doc (setFont false) (on_doc (setFontSize 10) w1))))).
  simpl block_lines.
  assert (Hstay : ensureSpace LINE_HEIGHT w2 = w2).
  { apply ensureSpace_stay. change (y w2) with (y w1).
    unfold LINE_HEIGHT, PAGE_BOTTOM in *. lra. }
  rewrite Hstay.
  destruct (ext_block_lines LINE_HEIGHT rest
              (advance LINE_HEIGHT (text_at_y v0 VALUE_X w2))) as [(post & Hpost & _) _].
  exists pre, post, (pageCount (doc w1)), (y w1).
  match goal with
  | |- content (doc (advance _ ?W)) = ?R => change (content (doc W) = R)
  end.
  rewrite Hpost. simpl. rewrite Hpre.
  rewrite <- !app_assoc. reflexivity.
Qed.

Lemma ext_labelValue label value opts w : extends w (labelValue label value opts w).
Proof.
  unfold labelValue. cbv zeta.
  set (fs := or_num (opt_field valueFontSize opts) 10).
  set (w0 := on_doc (setFont (is_bold opts)) (on_doc (setFontSize fs) w)).
  match goal with
  | |- context [ensureSpace ?n w0] => set (w1 := ensureSpace n w0)
  end.
  apply (ext_trans _ w1).
  - apply (ext_trans _ w0); [apply ext_same; reflexivity | apply ext_ensureSpace].
  - match goal with
    | |- extends _ (advance _ (value_lines ?h ?f ?ls ?W)) =>
        apply (ext_trans _ W); [ext_prim|];
        apply (ext_trans _ (value_lines h f ls W));
          [apply ext_value_lines | apply ext_advance]
    end.
Qed.

Lemma ext_labelBlock label values w : extends w (labelBlock label values w).
Proof.
  unfold labelBlock. cbv zeta.
  set (w1 := ensureSpace (LINE_HEIGHT + 2) w).
  apply (ext_trans _ w1); [apply ext_ensureSpace|].
  match goal with
  | |- extends _ (advance _ (block_lines ?h ?ls ?W)) =>
      apply (ext_trans _ W); [ext_prim|];
      apply (ext_trans _ (block_lines h ls W));
        [apply ext_block_lines | apply ext_advance]
  end.
Qed.

Lemma ext_labelValue_if label v w : extends w (labelValue_if label v w).
Proof.
  unfold labelValue_if. destruct v as [| |s]; try apply ext_refl.
  destruct (String.eqb s ""); [apply ext_refl | apply ext_labelValue].
Qed.

End WriterFacts.

(* ===================================================================== *)
(** ** generateEigenbeleg *)
(* ===================================================================== *)

Section GenerateFacts.
Import Eigenbeleg.
Context {RT : Runtime}.

(** Proves [extends a (f1 (f2 (... a)))] by peeling the calls off. *)
Ltac ext_step a b :=
  lazymatch b with
  | on_doc (setFontSize _) ?w => apply (ext_trans a w b); [|exact (ext_setFontSize _ _)]
  | on_doc (setFont _) ?w => apply (ext_trans a w b); [|exact (ext_setFont _ _)]
  | on_doc (setTextColor _) ?w => apply (ext_trans a w b); [|exact (ext_setTextColor _ _)]
  | on_doc (setDrawColor _) ?w => apply (ext_trans a w b); [|exact (ext_setDrawColor _ _)]
  | advance _ ?w => apply (ext_trans a w b); [|exact (ext_advance _ _)]
  | text_at_y _ _ ?w => apply (ext_trans a w b); [|exact (ext_text_at_y _ _ _)]
  | line_at_y _ _ ?w => apply (ext_trans a w b); [|exact (ext_line_at_y _ _ _)]
  | addFooter ?w => apply (ext_trans a w b); [|exact (ext_addFooter _)]
  | ensureSpace _ ?w => apply (ext_trans a w b); [|exact (ext_ensureSpace _ _)]
  | separator ?w => apply (ext_trans a w b); [|exact (ext_separator _)]
  | labelValue _ _ _ ?w => apply (ext_trans a w b); [|exact (ext_labelValue _ _ _ _)]
  | labelBlock _ _ ?w => apply (ext_trans a w b); [|exact (ext_labelBlock _ _ _)]
  | labelValue_if _ _ ?w => apply (ext_trans a w b); [|exact (ext_labelValue_if _ _ _)]
  end.

Ltac ext_chain :=
  lazymatch goal with
  | |- extends ?a ?b =>
      first [ constr_eq a b; exact (ext_refl a) | ext_step a b; ext_chain ]
  end.

(** *** The logo block never fails *)

Lemma logo_cases (c : CompanyProfile) (w : PdfWriter) :
  logo c w = Returns w \/
  exists data, logo c w = Returns (on_doc (draw (Image data (pageWidth w - 65) 15 40 20)) w).
Proof.
  unfold logo. destruct (logo_url c) as [| |url]; auto.
  destruct (String.eqb url ""); auto.
  unfold loadLogoAsBase64. destruct (fetch url) as [r|]; simpl; auto.
  destruct (ok r); simpl; auto.
  destruct (arrayBuffer r) as [buffer|]; simpl; auto.
  unfold addImage. destruct (decodable _); simpl; auto.
  right. eexists. reflexivity.
Qed.

Lemma logo_skipped (c : CompanyProfile) (w : PdfWriter) :
  logo_unavailable c -> logo c w = Returns w.
Proof.
  intro H. unfold logo. destruct (logo_url c) as [| |url] eqn:E; auto.
  destruct (String.eqb url ""); auto.
  destruct (H url E) as [Hf | (r & Hf & [Hok | [Hb | (buffer & Hb & Hd)]])];
    unfold loadLogoAsBase64; rewrite Hf; simpl; auto.
  - rewrite Hok. reflexivity.
  - destruct (ok r); simpl; auto. rewrite Hb. reflexivity.
  - destruct (ok r); simpl; auto. rewrite Hb. simpl.
    unfold addImage. unfold data_url in Hd. simpl in Hd. rewrite Hd. reflexivity.
Qed.

Lemma wp_logo ft (c : CompanyProfile) (w : PdfWriter) :
  well_paged ft w ->
  exists w', logo c w = Returns w' /\ well_paged ft w' /\ y w' = y w /\
             maxValueWidth w' = maxValueWidth w.
Proof.
  intro H. destruct (logo_cases c w) as [-> | [data ->]]; eexists; split; try reflexivity.
  - auto.
  - split; [|split; reflexivity]. apply wp_draw; [reflexivity | exact H].
Qed.

(** *** The body keeps the pages in order *)

Lemma wp_title ft s1 s2 b1 b2 n1 n2 c1 c2 w :
  y w = 25 -> well_paged ft w ->
  well_paged ft
    (advance 18
       (text_at_y s2 LABEL_X
          (on_doc (setTextColor c2) (on_doc (setFontSize n2) (on_doc (setFont b2)
             (advance 8
                (text_at_y s1 LABEL_X
                   (on_doc (setTextColor c1) (on_doc (setFontSize n1)
                      (on_doc (setFont b1) w)))))))))).
Proof.
  intros Hy H.
  apply wp_advance, wp_text_above; [simpl; rewrite Hy; reflexivity|].
  apply wp_setTextColor, wp_setFontSize, wp_setFont, wp_advance.
  apply wp_text_above; [simpl; rewrite Hy; reflexivity|].
  apply wp_setTextColor, wp_setFontSize, wp_setFont, H.
Qed.

Lemma wp_signature ft s n c1 c2 w :
  well_paged ft w ->
  well_paged ft
    (text_at_y s LABEL_X
       (on_doc (setFontSize n) (on_doc (setTextColor c2)
          (advance 5
             (line_at_y LABEL_X (LABEL_X + 70)
                (on_doc (setDrawColor c1) (ensureSpace 20 w))))))).
Proof.
  intro H. apply wp_text_above.
  - assert (Hle : y (ensureSpace 20 w) <= PAGE_BOTTOM)
      by (apply ensureSpace_y_le; discriminate).
    change (y (ensureSpace 20 w) + 5 < FOOTER_Y).
    unfold PAGE_BOTTOM, FOOTER_Y in *. lra.
  - apply wp_setFontSize, wp_setTextColor, wp_advance, wp_line, wp_setDrawColor,
      wp_ensureSpace, H.
Qed.

Lemma wp_body ft device c options w :
  y w = 25 -> well_paged ft w -> well_paged ft (body device c options w).
Proof.
  intros Hy H. unfold body. cbv zeta.
  apply wp_signature, wp_advance.
  apply wp_labelValue; [discriminate|].
  apply wp_labelValue_if, wp_labelValue_if.
  apply wp_labelValue; [discriminate|].
  apply wp_labelBlock, wp_separator.
  apply wp_labelValue; [discriminate|].
  apply wp_separator.
  apply wp_labelValue; [discriminate|].
  apply wp_advance, wp_setFontSize, wp_text_value, wp_setTextColor, wp_setFontSize,
    wp_ensureSpace.
  apply wp_labelValue; [discriminate|].
  apply wp_labelValue; [discriminate|].
  apply wp_labelValue; [discriminate|].
  apply wp_title; assumption.
Qed.

(** *** Where the amount and the reason are drawn *)

Lemma body_amount device c options w :
  exists wB,
    extends w wB /\
    extends (labelValue "Betrag" (amountStr device)
               (Def (mkOpts (Def true) (Def 14) Undefined)) wB)
            (body device c options w).
Proof.
  unfold body. cbv zeta.
  match goal with
  | |- context [labelValue "Betrag" _ _ ?W] => exists W
  end.
  split; ext_chain.
Qed.

Lemma body_reason device c options w :
  exists wB,
    extends w wB /\
    extends (labelValue "Grund für Eigenbeleg" (reasonText options) bold_opts wB)
            (body device c options w).
Proof.
  unfold body. cbv zeta.
  match goal with
  | |- context [labelValue "Grund für Eigenbeleg" _ _ ?W] => exists W
  end.
  split; ext_chain.
Qed.

Lemma ext_body device c options w : extends w (body device c options w).
Proof.
  unfold body. cbv zeta. ext_chain.
Qed.

(** A field drawn somewhere on the way from [w] to [wf] shows in [wf] as
    its label followed by its first wrapped line, on one page. *)
Lemma field_rendered label value opts w wB wf l0 rest :
  extends w wB ->
  extends (labelValue label value opts wB) wf ->
  splitTextToSize (or_num (opt_field valueFontSize opts) 10) (is_bold opts)
                  value (maxValueWidth w) = l0 :: rest ->
  exists pre post k yy,
    content (doc wf)
    = (pre
       ++ [ (k, Text label LABEL_X yy (or_num (opt_field labelFontSize opts) 10)
                     false labelColor);
            (k, Text l0 VALUE_X yy (or_num (opt_field valueFontSize opts) 10)
                     (is_bold opts) valueColor) ]
       ++ post)%list.
Proof.
  intros [_ (_ & Hm & _)] [(l & Hl & _) _] Hs. rewrite <- Hm in Hs.
  destruct (labelValue_first_line label value opts wB l0 rest Hs)
    as (pre & post & k & yy & Hc).
  exists (content (doc wB) ++ pre)%list, (post ++ l)%list, k, yy.
  rewrite Hl, Hc. rewrite <- !app_assoc. reflexivity.
Qed.

Lemma addFooter_closes ft w :
  well_paged ft w ->
  forall p, (1 <= p <= pageCount (doc (addFooter w)))%nat ->
            footers_on ft p (doc (addFooter w)) = 1%nat.
Proof.
  intros (Hf & Hne & Hp) p. rewrite footers_on_log.
  rewrite (addFooter_draws ft) by assumption.
  intro Hr.
  apply (paged_closed ft _ (setTextColor (150, 150, 150)%Z (setFontSize 8 (doc w)))).
  - apply is_footer_at.
  - apply (paged_same ft (doc w)); auto.
  - exact Hr.
Qed.

Lemma finished_returns device c options :
  exists w0 w,
    logo c (setFooter (footer_of c) (constructor new_jsPDF)) = Returns w0 /\
    (w0 = setFooter (footer_of c) (constructor new_jsPDF) \/
     exists data, w0 = on_doc (draw (Image data (getWidth - 65) 15 40 20))
                         (setFooter (footer_of c) (constructor new_jsPDF))) /\
    w = addFooter (body device c options w0) /\
    finished device c options = Returns w.
Proof.
  unfold finished. cbv zeta.
  destruct (logo_cases c (setFooter (footer_of c) (constructor new_jsPDF)))
    as [E | [data E]]; rewrite E; simpl bind.
  - eexists. eexists. split; [reflexivity|]. split; [left; reflexivity|].
    split; reflexivity.
  - eexists. eexists. split; [reflexivity|]. split; [right; exists data; reflexivity|].
    split; reflexivity.
Qed.

Lemma wp_start ft : ft <> "" -> well_paged ft (setFooter ft (constructor new_jsPDF)).
Proof.
  intro H. split; [reflexivity | split; [exact H | apply paged_new]].
Qed.

(** *** The formatted amount *)

Lemma list_ascii_app (s1 s2 : string) :
  list_ascii_of_string (s1 ++ s2)
  = (list_ascii_of_string s1 ++ list_ascii_of_string s2)%list.
Proof.
  induction s1 as [|c s1 IH]; simpl; [reflexivity | rewrite IH; reflexivity].
Qed.

Lemma string_app_assoc (s1 s2 s3 : string) : (s1 ++ s2) ++ s3 = s1 ++ (s2 ++ s3).
Proof.
  induction s1 as [|c s1 IH]; simpl; [reflexivity | rewrite IH; reflexivity].
Qed.

Lemma uint_digits_no_comma (u : Decimal.uint) : ~ In ","%char (uint_digits u).
Proof.
  induction u; simpl; [intros [] | ..]; intros [H | H]; try discriminate; auto.
Qed.

Lemma group_rev_no_comma (l : list ascii) : forall n,
  ~ In ","%char l -> ~ In ","%char (group_rev l n).
Proof.
  induction l as [|c l IH]; intros n Hl; simpl; [auto|].
  assert (Hc : c <> ","%char) by (intro E; apply Hl; left; exact E).
  assert (Hr : ~ In ","%char l) by (intro E; apply Hl; right; exact E).
  destruct (Nat.eqb n 3); simpl.
  - intros [H | [H | H]]; [discriminate | contradiction | exact (IH _ Hr H)].
  - intros [H | H]; [contradiction | exact (IH _ Hr H)].
Qed.

Lemma grouped_no_comma (l : list ascii) :
  ~ In ","%char l -> ~ In ","%char (grouped l).
Proof.
  intros Hl H. unfold grouped in H. apply in_rev in H.
  revert H. apply group_rev_no_comma. intro H. apply in_rev in H. exact (Hl H).
Qed.

Lemma digit_is_digit (n : Z) : (0 <= n <= 9)%Z -> is_digit (digit n) = true.
Proof.
  intro H.
  assert (E : n = 0%Z \/ n = 1%Z \/ n = 2%Z \/ n = 3%Z \/ n = 4%Z \/ n = 5%Z \/
              n = 6%Z \/ n = 7%Z \/ n = 8%Z \/ n = 9%Z) by lia.
  repeat (destruct E as [-> | E]; [reflexivity|]). subst n. reflexivity.
Qed.

Lemma hundredths_nonneg (q : Q) : (0 <= hundredths q)%Z.
Proof.
  unfold hundredths. apply Z.div_pos; lia.
Qed.

Lemma amountStr_shape device :
  exists ip d1 d2,
    amountStr device = ip ++ "," ++ String d1 (String d2 " €") /\
    comma_free ip /\ is_digit d1 = true /\ is_digit d2 = true.
Proof.
  unfold amountStr, toLocaleString_de2. cbv zeta.
  set (h := hundredths (purchase_price device)).
  assert (Hh : (0 <= h)%Z) by apply hundredths_nonneg.
  set (sign := if Qle_bool 0 (purchase_price device) then "" else "-").
  exists (sign ++ string_of_list_ascii (grouped (digits (h / 100)))),
         (digit ((h mod 100) / 10)), (digit (h mod 10)).
  split; [|split; [|split]].
  - rewrite !string_app_assoc. reflexivity.
  - unfold comma_free. rewrite list_ascii_app, list_ascii_of_string_of_list_ascii.
    intro H. apply in_app_or in H. destruct H as [H | H].
    + unfold sign in H. destruct (Qle_bool 0 (purchase_price device)); simpl in H.
      * exact H.
      * destruct H as [H | H]; [discriminate | exact H].
    + revert H. apply grouped_no_comma, uint_digits_no_comma.
  - apply digit_is_digit.
    assert (0 <= h mod 100 < 100)%Z by (apply Z.mod_pos_bound; lia).
    split; [apply Z.div_pos; lia | apply Z.lt_succ_r, Z.div_lt_upper_bound; lia].
  - apply digit_is_digit.
    assert (0 <= h mod 10 < 10)%Z by (apply Z.mod_pos_bound; lia). lia.
Qed.

Lemma wp_perform_all ft cs : forall w,
  Forall sensible cs -> well_paged ft w -> well_paged ft (perform_all cs w).
Proof.
  induction cs as [|c cs IH]; intros w Hs H; simpl; [exact H|].
  inversion Hs as [|? ? Hc Hcs]; subst.
  apply IH; [exact Hcs|].
  destruct c; simpl.
  - apply wp_ensureSpace, H.
  - apply wp_advance, H.
  - apply wp_separator, H.
  - apply wp_labelValue; [exact Hc | exact H].
  - apply wp_labelBlock, H.
Qed.

(** *** The claims about the layout engine *)

(** C2: with a non-empty footer text, [ensureSpace needed] starts a new page
    exactly when cursor + needed exceeds 270; on a break the footer is drawn
    on the page being left and the cursor returns to 25.  The other writer
    primitives leave the page count alone, and in the document that
    [generateEigenbeleg] serialises, as after any sequence of writer calls
    closed by the final [addFooter], every page carries the footer exactly
    once. *)
Theorem C2_pagination (w : PdfWriter) (needed : Q)
        (device : Device) (c : CompanyProfile) (options : EigenbelegOptions) :
  (footerText w <> "" ->
     (PAGE_BOTTOM < y w + needed ->
        pageCount (doc (ensureSpace needed w)) = S (pageCount (doc w)) /\
        y (ensureSpace needed w) = 25 /\
        content (doc (ensureSpace needed w))
        = (content (doc w)
           ++ [(pageCount (doc w),
                Text (footerText w) LABEL_X FOOTER_Y 8 (fontBold (doc w))
                     (150, 150, 150)%Z)])%list) /\
     (y w + needed <= PAGE_BOTTOM -> ensureSpace needed w = w)) /\
  ((forall a, pageCount (doc (advance a w)) = pageCount (doc w)) /\
   (forall t, pageCount (doc (setFooter t w)) = pageCount (doc w)) /\
   pageCount (doc (addFooter w)) = pageCount (doc w) /\
   (forall s x, pageCount (doc (text_at_y s x w)) = pageCount (doc w)) /\
   (forall x1 x2, pageCount (doc (line_at_y x1 x2 w)) = pageCount (doc w)) /\
   pageCount (doc (separator w)) = pageCount (doc (ensureSpace 10 w))) /\
  (forall ft calls,
      ft <> "" -> Forall sensible calls ->
      forall p,
        (1 <= p <= pageCount
                     (doc (addFooter (perform_all calls
                                        (setFooter ft (constructor new_jsPDF))))))%nat ->
        footers_on ft p
                   (doc (addFooter (perform_all calls
                                      (setFooter ft (constructor new_jsPDF)))))
        = 1%nat) /\
  (footer_of c <> "" ->
     exists wf,
       finished device c options = Returns wf /\
       forall p, (1 <= p <= pageCount (doc wf))%nat ->
                 footers_on (footer_of c) p (doc wf) = 1%nat).
Proof.
  split; [|split; [|split]].
  - intro Hne. split.
    + intro H. rewrite (ensureSpace_break _ _ H).
      rewrite (addFooter_draws (footerText w)) by auto.
      repeat split.
    + apply ensureSpace_stay.
  - repeat split.
    unfold addFooter. destruct (String.eqb (footerText w) ""); reflexivity.
  - intros ft calls Hne Hs. apply addFooter_closes, wp_perform_all; [exact Hs|].
    apply wp_start, Hne.
  - intro Hne.
    destruct (finished_returns device c options) as (w0 & wf & Hl & _ & -> & Hfin).
    eexists. split; [exact Hfin|].
    destruct (wp_logo (footer_of c) c _ (wp_start _ Hne)) as (w0' & Hl' & Hwp & Hy & _).
    rewrite Hl in Hl'. injection Hl' as <-.
    apply addFooter_closes, wp_body; assumption.
Qed.

(** C3: whatever the value passed to [labelValue] wraps to and whatever
    lines are passed to [labelBlock], the label and the first value line are
    drawn one after the other on one page, at one height; a page break can
    only come before the label or before a later line. *)
Theorem C3_label_with_first_line (label : string) (w : PdfWriter) :
  (forall value opts l0 rest,
      splitTextToSize (or_num (opt_field valueFontSize opts) 10) (is_bold opts)
                      value (maxValueWidth w) = l0 :: rest ->
      exists pre post k yy,
        content (doc (labelValue label value opts w))
        = (content (doc w) ++ pre
           ++ [ (k, Text label LABEL_X yy (or_num (opt_field labelFontSize opts) 10)
                         false labelColor);
                (k, Text l0 VALUE_X yy (or_num (opt_field valueFontSize opts) 10)
                         (is_bold opts) valueColor) ]
           ++ post)%list) /\
  (forall v0 rest,
      exists pre post k yy,
        content (doc (labelBlock label (v0 :: rest) w))
        = (content (doc w) ++ pre
           ++ [ (k, Text label LABEL_X yy 10 false labelColor);
                (k, Text v0 VALUE_X yy 10 false valueColor) ]
           ++ post)%list).
Proof.
  split.
  - intros value opts l0 rest H. apply labelValue_first_line with (rest := rest). exact H.
  - intros v0 rest. apply labelBlock_first_line.
Qed.


(** C8: [generateEigenbeleg] returns a buffer whatever happens to the logo.
    When fetching throws, the response is not OK, reading the body throws or
    jsPDF rejects the image, the document is the one generated for a profile
    without a logo and contains no image. *)
Theorem C8_logo_failure_is_not_fatal (device : Device) (c : CompanyProfile)
        (options : EigenbelegOptions) :
  (exists w, finished device c options = Returns w /\
             generateEigenbeleg device c options = Returns (output (doc w))) /\
  (logo_unavailable c ->
     generateEigenbeleg device c options
     = generateEigenbeleg device (without_logo c) options /\
     exists w, finished device c options = Returns w /\
               no_image (content (doc w))).
Proof.
  split.
  - destruct (finished_returns device c options) as (w0 & wf & _ & _ & _ & Hfin).
    exists wf. split; [exact Hfin|].
    unfold generateEigenbeleg. rewrite Hfin. reflexivity.
  - intro Hu.
    assert (Hfin : finished device c options
                   = Returns (addFooter (body device c options
                                (setFooter (footer_of c) (constructor new_jsPDF))))).
    { unfold finished. cbv zeta. rewrite (logo_skipped c _ Hu). reflexivity. }
    split.
    + unfold generateEigenbeleg. rewrite Hfin. reflexivity.
    + eexists. split; [exact Hfin|].
      destruct (ext_trans _ _ _
                  (ext_body device c options
                     (setFooter (footer_of c) (constructor new_jsPDF)))
                  (ext_addFooter _)) as [(l & Hl & Hn) _].
      rewrite Hl. exact Hn.
Qed.

End GenerateFacts.

(* ===================================================================== *)
(** ** exportDevicesToExcel *)
(* ===================================================================== *)

Section ExportFacts.
Import DevicesActions.
Variable format : string -> outcome string.

Lemma counted_iff (d : Device) :
  counted d = true <-> status d = "SOLD" /\ 0 < or_num (sale_price d) 0.
Proof.
  unfold counted. rewrite andb_true_iff, String.eqb_eq, gt_true. reflexivity.
Qed.

Lemma device_row_inv (t t' : totals) (d : Device) (r : row) :
  device_row format t d = Returns (t', r) ->
  t' = (if counted d then add_device t d else t) /\ Geraete_ID r = id d.
Proof.
  unfold device_row. cbv zeta.
  destruct (date_cell format (purchase_date d)) as [e|]; simpl; [|discriminate].
  destruct (date_cell format (sale_date d)) as [v|]; simpl; [|discriminate].
  intro H. injection H as <- <-. split; reflexivity.
Qed.

Lemma device_row_returns (t : totals) (d : Device) :
  dates_ok format d -> exists t' r, device_row format t d = Returns (t', r).
Proof.
  intros [[e He] [v Hv]]. unfold device_row. cbv zeta. rewrite He, Hv. simpl.
  eexists. eexists. reflexivity.
Qed.

Lemma map_devices_inv (devices : list Device) : forall t t' rows,
  map_devices format devices t = Returns (t', rows) ->
  map Geraete_ID rows = map id devices /\
  t' = fold_left add_device (filter counted devices) t.
Proof.
  induction devices as [|d rest IH]; intros t t' rows H; simpl in H.
  - injection H as <- <-. split; reflexivity.
  - destruct (device_row format t d) as [[t1 r]|] eqn:Er; simpl in H; [|discriminate].
    destruct (map_devices format rest t1) as [[t2 rs]|] eqn:Em; simpl in H; [|discriminate].
    injection H as <- <-.
    destruct (device_row_inv _ _ _ _ Er) as [-> Hid].
    destruct (IH _ _ _ Em) as [Hrows ->].
    simpl. rewrite Hid, Hrows. split; [reflexivity|].
    destruct (counted d); reflexivity.
Qed.

Lemma map_devices_returns (devices : list Device) : forall t,
  (forall d, In d devices -> dates_ok format d) ->
  exists t' rows, map_devices format devices t = Returns (t', rows).
Proof.
  induction devices as [|d rest IH]; intros t H; simpl.
  - eexists. eexists. reflexivity.
  - destruct (device_row_returns t d (H d (or_introl eq_refl))) as (t1 & r & ->). simpl.
    destruct (IH t1 (fun d' Hd => H d' (or_intror Hd))) as (t2 & rs & ->). simpl.
    eexists. eexists. reflexivity.
Qed.

(** C9: the loop adds a device to the accumulators exactly when its status
    is SOLD and its sale price is strictly positive, so the totals rows are
    the sums over those devices; every device of the list has its row, in
    order, counted or not. *)
Theorem C9_export_totals (devices : list Device) :
  (forall d, counted d = true <-> status d = "SOLD" /\ 0 < or_num (sale_price d) 0) /\
  (forall t d t' r,
      device_row format t d = Returns (t', r) ->
      t' = if counted d then add_device t d else t) /\
  (forall sheet,
      exportDevicesToExcel format devices = Success sheet ->
      map Geraete_ID (excelData sheet) = map id devices /\
      totalsRows sheet
      = totals_rows_of (fold_left add_device (filter counted devices) zero_totals)) /\
  (devices <> [] -> (forall d, In d devices -> dates_ok format d) ->
   exists sheet, exportDevicesToExcel format devices = Success sheet).
Proof.
  split; [exact counted_iff|]. split; [|split].
  - intros t d t' r H. exact (proj1 (device_row_inv _ _ _ _ H)).
  - intros sheet H. unfold exportDevicesToExcel in H.
    destruct devices as [|d0 rest]; [discriminate|].
    destruct (map_devices format (d0 :: rest) zero_totals) as [[t rows]|] eqn:Em;
      [|discriminate].
    injection H as <-. destruct (map_devices_inv _ _ _ _ Em) as [Hrows ->].
    split; [exact Hrows | reflexivity].
  - intros Hne Hok. unfold exportDevicesToExcel.
    destruct devices as [|d0 rest]; [contradiction|].
    destruct (map_devices_returns (d0 :: rest) zero_totals Hok) as (t & rows & ->).
    eexists. reflexivity.
Qed.

End ExportFacts.

(** *** The claims, run on the sample runtime *)

Section Witnesses.
Import Eigenbeleg.

Lemma C2_pagination_witness :
  pageCount (doc (ensureSpace 10 bottom_writer)) = 2%nat /\
  y (ensureSpace 10 bottom_writer) = 25 /\
  exists wf,
    @finished offline sample_device sample_company sample_options = Returns wf /\
    footers_on (footer_of sample_company) 1 (doc wf) = 1%nat.
Proof.
  destruct (@C2_pagination offline bottom_writer 10 sample_device sample_company
              sample_options) as (A & _ & _ & C).
  assert (Hne : footerText bottom_writer <> "") by discriminate.
  assert (Hgt : PAGE_BOTTOM < y bottom_writer + 10) by reflexivity.
  destruct (proj1 (A Hne) Hgt) as (P & Y & _).
  split; [exact P | split; [exact Y|]].
  assert (Hf : footer_of sample_company <> "") by discriminate.
  destruct (C Hf) as (wf & Hfin & Hcount).
  exists wf. split; [exact Hfin|].
  apply Hcount.
  unfold finished in Hfin. vm_compute in Hfin. injection Hfin as <-.
  simpl. lia.
Defined.

Lemma C3_label_with_first_line_witness :
  exists pre post k yy,
    content (doc (@labelValue offline "Notiz" "Zeile eins und dann Zeile zwei"
                              Undefined bottom_writer))
    = (content (doc bottom_writer) ++ pre
       ++ [ (k, Text "Notiz" LABEL_X yy 10 false labelColor);
            (k, Text "Zeile eins und dann " VALUE_X yy 10 false valueColor) ]
       ++ post)%list.
Proof.
  apply (proj1 (@C3_label_with_first_line offline "Notiz" bottom_writer)
               "Zeile eins und dann Zeile zwei" Undefined
               "Zeile eins und dann " ["Zeile zwei"]).
  reflexivity.
Defined.

(** The second wrapped line of the same call lands on the next page. *)
Example continuation_line_on_next_page :
  map (fun e => match e with
                | (p, Text s _ _ _ _ _) => (p, s)
                | (p, _) => (p, "")
                end)
      (content (doc (@labelValue offline "Notiz" "Zeile eins und dann Zeile zwei"
                                 Undefined bottom_writer)))
  = [ (1%nat, "Notiz"); (1%nat, "Zeile eins und dann ");
      (1%nat, "info@example.org"); (2%nat, "Zeile zwei") ].
Proof. vm_compute. reflexivity. Qed.


Lemma sample_logo_unavailable : @logo_unavailable offline sample_company.
Proof. intros url _. left. reflexivity. Defined.

Lemma C8_logo_failure_is_not_fatal_witness :
  @generateEigenbeleg offline sample_device sample_company sample_options
  = @generateEigenbeleg offline sample_device (without_logo sample_company) sample_options.
Proof.
  apply (proj2 (@C8_logo_failure_is_not_fatal offline sample_device sample_company
                  sample_options)).
  exact sample_logo_unavailable.
Defined.

Lemma sample_devices_dates_ok :
  forall d, In d DevicesActions.sample_devices ->
            DevicesActions.dates_ok DevicesActions.iso_date d.
Proof.
  intros d [<- | [<- | [<- | []]]]; split; eexists; reflexivity.
Defined.

Lemma C9_export_totals_witness :
  exists sheet,
    DevicesActions.exportDevicesToExcel DevicesActions.iso_date
                                        DevicesActions.sample_devices
    = DevicesActions.Success sheet.
Proof.
  apply (proj2 (proj2 (proj2 (C9_export_totals DevicesActions.iso_date
                                               DevicesActions.sample_devices)))).
  - discriminate.
  - exact sample_devices_dates_ok.
Defined.

(** On the sample list only the first device is counted: the second is not
    sold, the third is sold without a sale price; all three have a row. *)
Example sample_export :
  match DevicesActions.exportDevicesToExcel DevicesActions.iso_date
                                            DevicesActions.sample_devices with
  | DevicesActions.Success sheet =>
      map DevicesActions.Geraete_ID (DevicesActions.excelData sheet) = ["A-1"; "A-2"; "A-3"] /\
      map (fun lv => Qred (snd lv)) (DevicesActions.totalsRows sheet)
      = map Qred [1000; 20; 10; 10; 1040; 1190; 190 * 19 / 119; 150; 150 - 190 * 19 / 119]%Q
  | DevicesActions.Failure _ => False
  end.
Proof. vm_compute. split; reflexivity. Qed.

End Witnesses.

(* ===================================================================== *)
(** ** The layout: footer zone, order of the values, short receipts *)
(* ===================================================================== *)

Section LayoutFacts.
Import Eigenbeleg Layout.
Context {RT : Runtime}.

(** *** Nothing but the footer is drawn below the bottom margin *)

Lemma tidy_same ft w w' :
  content (doc w') = content (doc w) -> footerText w' = footerText w ->
  tidy ft w -> tidy ft w'.
Proof.
  intros Hc Hf [H1 H2]. split; [congruence | rewrite Hc; exact H2].
Qed.

Lemma tidy_draw ft o w :
  in_body ft (pageCount (doc w), o) -> tidy ft w -> tidy ft (on_doc (draw o) w).
Proof.
  intros Ho [H1 H2]. split; [exact H1|]. simpl.
  apply Forall_app. split; [exact H2 | constructor; [exact Ho | constructor]].
Qed.

Lemma tidy_text ft s x w :
  y w <= PAGE_BOTTOM -> tidy ft w -> tidy ft (text_at_y s x w).
Proof.
  intros Hy H. apply tidy_draw; [|exact H]. left. exact Hy.
Qed.

Lemma tidy_line ft x1 x2 w :
  y w <= PAGE_BOTTOM -> tidy ft w -> tidy ft (line_at_y x1 x2 w).
Proof.
  intros Hy H. apply tidy_draw; [|exact H]. split; exact Hy.
Qed.

Lemma tidy_addFooter ft w : tidy ft w -> tidy ft (addFooter w).
Proof.
  intros [H1 H2]. unfold addFooter.
  destruct (String.eqb (footerText w) ""); [split; assumption|].
  apply tidy_draw.
  - right. simpl footerText. rewrite H1. apply is_footer_at.
  - apply (tidy_same ft w); [reflexivity | reflexivity | split; assumption].
Qed.

Lemma tidy_ensureSpace ft n w : tidy ft w -> tidy ft (ensureSpace n w).
Proof.
  intro H. destruct (ensureSpace_cases n w) as [[_ ->] | [_ ->]]; [|exact H].
  apply (tidy_same ft (addFooter w)); [reflexivity | reflexivity | apply tidy_addFooter, H].
Qed.

Lemma tidy_separator ft w : tidy ft w -> tidy ft (separator w).
Proof.
  intro H. unfold separator. cbv zeta.
  match goal with
  | |- tidy ft (advance _ ?W) => apply (tidy_same ft W); [reflexivity | reflexivity |]
  end.
  apply tidy_line.
  - apply (ensureSpace_y_le 10 w). discriminate.
  - apply (tidy_same ft (ensureSpace 10 w)); [reflexivity | reflexivity |].
    apply tidy_ensureSpace, H.
Qed.

Lemma tidy_value_lines ft lineH lines : forall first w,
  0 <= lineH -> (first = true -> y w <= PAGE_BOTTOM) ->
  tidy ft w -> tidy ft (value_lines lineH first lines w).
Proof.
  induction lines as [|l rest IH]; intros first w Hh Hy H; simpl; [exact H|].
  apply IH; [exact Hh | discriminate |].
  assert (H1 : tidy ft (text_at_y l VALUE_X (if first then w else ensureSpace lineH w))).
  { apply tidy_text.
    - destruct first; [apply Hy; reflexivity | apply ensureSpace_y_le, Hh].
    - destruct first; [exact H | apply tidy_ensureSpace, H]. }
  destruct rest; [exact H1|].
  apply (tidy_same ft _ _ eq_refl eq_refl H1).
Qed.

Lemma tidy_block_lines ft lineH values : forall w,
  0 <= lineH -> tidy ft w -> tidy ft (block_lines lineH values w).
Proof.
  induction values as [|v rest IH]; intros w Hh H; simpl; [exact H|].
  apply IH; [exact Hh|].
  apply (tidy_same ft (text_at_y v VALUE_X (ensureSpace lineH w)));
    [reflexivity | reflexivity |].
  apply tidy_text; [apply ensureSpace_y_le, Hh | apply tidy_ensureSpace, H].
Qed.

Lemma tidy_labelValue ft label value opts w :
  0 <= or_num (opt_field valueFontSize opts) 10 ->
  tidy ft w -> tidy ft (labelValue label value opts w).
Proof.
  intros Hfs H. unfold labelValue. cbv zeta.
  set (fs := or_num (opt_field valueFontSize opts) 10) in *.
  set (w0 := on_doc (setFont (is_bold opts)) (on_doc (setFontSize fs) w)).
  set (lines := splitTextToSize fs (is_bold opts) value (maxValueWidth w0)).
  assert (Hn : 0 <= Js.min (len lines * (fs * 0.4)) (fs * 0.4 + 2))
    by (apply needed_nonneg, Hfs).
  remember (ensureSpace (Js.min (len lines * (fs * 0.4)) (fs * 0.4 + 2)) w0) as w1 eqn:E1.
  assert (Hy1 : y w1 <= PAGE_BOTTOM) by (subst w1; apply ensureSpace_y_le, Hn).
  assert (T1 : tidy ft w1).
  { subst w1. apply tidy_ensureSpace.
    apply (tidy_same ft w); [reflexivity | reflexivity | exact H]. }
  match goal with
  | |- tidy ft (advance _ ?W) => apply (tidy_same ft W); [reflexivity | reflexivity |]
  end.
  apply tidy_value_lines.
  - apply Qmult_le_0_compat; [exact Hfs | discriminate].
  - intros _. exact Hy1.
  - match goal with
    | |- tidy ft (on_doc _ (on_doc _ (on_doc _ ?W))) =>
        apply (tidy_same ft W); [reflexivity | reflexivity |]
    end.
    apply tidy_text; [exact Hy1|].
    apply (tidy_same ft w1); [reflexivity | reflexivity | exact T1].
Qed.

Lemma tidy_labelBlock ft label values w :
  tidy ft w -> tidy ft (labelBlock label values w).
Proof.
  intro H. unfold labelBlock. cbv zeta.
  remember (ensureSpace (LINE_HEIGHT + 2) w) as w1 eqn:E1.
  assert (Hy1 : y w1 <= PAGE_BOTTOM) by (subst w1; apply ensureSpace_y_le; discriminate).
  assert (T1 : tidy ft w1) by (subst w1; apply tidy_ensureSpace, H).
  match goal with
  | |- tidy ft (advance _ ?W) => apply (tidy_same ft W); [reflexivity | reflexivity |]
  end.
  apply tidy_block_lines; [discriminate|].
  match goal with
  | |- tidy ft (on_doc _ ?W) => apply (tidy_same ft W); [reflexivity | reflexivity |]
  end.
  apply tidy_text; [exact Hy1|].
  apply (tidy_same ft w1); [reflexivity | reflexivity | exact T1].
Qed.

Lemma tidy_labelValue_if ft label v w :
  tidy ft w -> tidy ft (labelValue_if label v w).
Proof.
  intro H. unfold labelValue_if. destruct v as [| |s]; try exact H.
  destruct (String.eqb s ""); [exact H|].
  apply tidy_labelValue; [discriminate | exact H].
Qed.

Lemma tidy_setFontSize ft n w : tidy ft w -> tidy ft (on_doc (setFontSize n) w).
Proof. apply tidy_same; reflexivity. Qed.

Lemma tidy_setFont ft b w : tidy ft w -> tidy ft (on_doc (setFont b) w).
Proof. apply tidy_same; reflexivity. Qed.

Lemma tidy_setTextColor ft c w : tidy ft w -> tidy ft (on_doc (setTextColor c) w).
Proof. apply tidy_same; reflexivity. Qed.

Lemma tidy_setDrawColor ft c w : tidy ft w -> tidy ft (on_doc (setDrawColor c) w).
Proof. apply tidy_same; reflexivity. Qed.

Lemma tidy_advance ft a w : tidy ft w -> tidy ft (advance a w).
Proof. apply tidy_same; reflexivity. Qed.

Lemma tidy_title ft s1 s2 b1 b2 n1 n2 c1 c2 w :
  y w = 25 -> tidy ft w ->
  tidy ft
    (advance 18
       (text_at_y s2 LABEL_X
          (on_doc (setTextColor c2) (on_doc (setFontSize n2) (on_doc (setFont b2)
             (advance 8
                (text_at_y s1 LABEL_X
                   (on_doc (setTextColor c1) (on_doc (setFontSize n1)
                      (on_doc (setFont b1) w)))))))))).
Proof.
  intros Hy H.
  apply tidy_advance, tidy_text; [simpl; rewrite Hy; discriminate|].
  apply tidy_setTextColor, tidy_setFontSize, tidy_setFont, tidy_advance.
  apply tidy_text; [simpl; rewrite Hy; discriminate|].
  apply tidy_setTextColor, tidy_setFontSize, tidy_setFont, H.
Qed.

Lemma tidy_device_id ft s n1 n2 c a w :
  tidy ft w ->
  tidy ft
    (advance a
       (on_doc (setFontSize n2)
          (text_at_y s VALUE_X
             (on_doc (setTextColor c) (on_doc (setFontSize n1) (ensureSpace 5 w)))))).
Proof.
  intro H. apply tidy_advance, tidy_setFontSize, tidy_text.
  - apply (ensureSpace_y_le 5 w). discriminate.
  - apply tidy_setTextColor, tidy_setFontSize, tidy_ensureSpace, H.
Qed.

Lemma tidy_signature ft s n c1 c2 w :
  tidy ft w ->
  tidy ft
    (text_at_y s LABEL_X
       (on_doc (setFontSize n) (on_doc (setTextColor c2)
          (advance 5
             (line_at_y LABEL_X (LABEL_X + 70)
                (on_doc (setDrawColor c1) (ensureSpace 20 w))))))).
Proof.
  intro H.
  assert (Hfit : y (ensureSpace 20 w) + 20 <= PAGE_BOTTOM)
    by (apply ensureSpace_fits; discriminate).
  apply tidy_text.
  - change (y (ensureSpace 20 w) + 5 <= PAGE_BOTTOM). unfold PAGE_BOTTOM in *. lra.
  - apply tidy_setFontSize, tidy_setTextColor, tidy_advance, tidy_line.
    + change (y (ensureSpace 20 w) <= PAGE_BOTTOM). unfold PAGE_BOTTOM in *. lra.
    + apply tidy_setDrawColor, tidy_ensureSpace, H.
Qed.

Lemma tidy_body ft device c options w :
  y w = 25 -> tidy ft w -> tidy ft (body device c options w).
Proof.
  intros Hy H. unfold body. cbv zeta.
  apply tidy_signature, tidy_advance.
  apply tidy_labelValue; [discriminate|].
  apply tidy_labelValue_if, tidy_labelValue_if.
  apply tidy_labelValue; [discriminate|].
  apply tidy_labelBlock, tidy_separator.
  apply tidy_labelValue; [discriminate|].
  apply tidy_separator.
  apply tidy_labelValue; [discriminate|].
  apply tidy_device_id.
  apply tidy_labelValue; [discriminate|].
  apply tidy_labelValue; [discriminate|].
  apply tidy_labelValue; [discriminate|].
  apply tidy_title; assumption.
Qed.

(** X1: in the document [generateEigenbeleg] serialises, whatever the texts
    wrap to, every text and line is drawn at or above the bottom margin
    (y <= 270) and the logo ends above it; the only thing drawn lower is the
    footer, at y = 280. *)
Theorem footer_zone_is_reserved (device : Device) (c : CompanyProfile)
        (options : EigenbelegOptions) :
  exists wf,
    finished device c options = Returns wf /\
    Forall (in_body (footer_of c)) (content (doc wf)).
Proof.
  destruct (finished_returns device c options) as (w0 & wf & _ & Hw0 & -> & Hfin).
  eexists. split; [exact Hfin|].
  apply tidy_addFooter, tidy_body.
  - destruct Hw0 as [-> | [data ->]]; reflexivity.
  - destruct Hw0 as [-> | [data ->]].
    + split; [reflexivity | constructor].
    + apply tidy_draw; [|split; [reflexivity | constructor]].
      unfold in_body. simpl. discriminate.
Qed.

(** *** The value column: every line, in order *)

Lemma value_texts_app (l l' : list (nat * op)) :
  value_texts (l ++ l') = (value_texts l ++ value_texts l')%list.
Proof.
  induction l as [|[p o] l IH]; [reflexivity|].
  simpl. destruct o; try exact IH.
  destruct (Qeq_bool x VALUE_X); simpl; rewrite IH; reflexivity.
Qed.

Lemma adds_refl mw w : adds mw [] w w.
Proof.
  intro H. split; [exact H|]. exists []. split; [symmetry; apply app_nil_r | reflexivity].
Qed.

Lemma adds_trans mw t1 t2 w1 w2 w3 :
  adds mw t1 w1 w2 -> adds mw t2 w2 w3 -> adds mw (t1 ++ t2) w1 w3.
Proof.
  intros H1 H2 Hm. destruct (H1 Hm) as (Hm2 & l1 & E1 & V1).
  destruct (H2 Hm2) as (Hm3 & l2 & E2 & V2). split; [exact Hm3|].
  exists (l1 ++ l2)%list. split.
  - rewrite E2, E1, app_assoc. reflexivity.
  - rewrite value_texts_app, V1, V2. reflexivity.
Qed.

Lemma adds_same mw w w' :
  content (doc w') = content (doc w) -> maxValueWidth w' = maxValueWidth w ->
  adds mw [] w w'.
Proof.
  intros Hc Hw Hm. split; [congruence|]. exists [].
  split; [rewrite Hc; symmetry; apply app_nil_r | reflexivity].
Qed.

Lemma adds_setFontSize mw n w : adds mw [] w (on_doc (setFontSize n) w).
Proof. apply adds_same; reflexivity. Qed.

Lemma adds_setFont mw b w : adds mw [] w (on_doc (setFont b) w).
Proof. apply adds_same; reflexivity. Qed.

Lemma adds_setTextColor mw c w : adds mw [] w (on_doc (setTextColor c) w).
Proof. apply adds_same; reflexivity. Qed.

Lemma adds_setDrawColor mw c w : adds mw [] w (on_doc (setDrawColor c) w).
Proof. apply adds_same; reflexivity. Qed.

Lemma adds_advance mw a w : adds mw [] w (advance a w).
Proof. apply adds_same; reflexivity. Qed.

Lemma adds_text_value mw s w : adds mw [s] w (text_at_y s VALUE_X w).
Proof.
  intro H. split; [exact H|]. eexists. split; reflexivity.
Qed.

Lemma adds_text_label mw s w : adds mw [] w (text_at_y s LABEL_X w).
Proof.
  intro H. split; [exact H|]. eexists. split; reflexivity.
Qed.

Lemma adds_line mw x1 x2 w : adds mw [] w (line_at_y x1 x2 w).
Proof.
  intro H. split; [exact H|]. eexists. split; reflexivity.
Qed.

Lemma adds_addFooter mw w : adds mw [] w (addFooter w).
Proof.
  unfold addFooter. destruct (String.eqb (footerText w) ""); [apply adds_refl|].
  intro H. split; [exact H|]. eexists. split; reflexivity.
Qed.

Lemma adds_ensureSpace mw n w : adds mw [] w (ensureSpace n w).
Proof.
  destruct (ensureSpace_cases n w) as [[_ ->] | [_ ->]]; [|apply adds_refl].
  apply (adds_trans mw [] [] w (addFooter w));
    [apply adds_addFooter | apply adds_same; reflexivity].
Qed.

Lemma adds_separator mw w : adds mw [] w (separator w).
Proof.
  unfold separator. cbv zeta.
  apply (adds_trans mw [] [] w (ensureSpace 10 w)); [apply adds_ensureSpace|].
  intro H. split; [exact H|]. eexists. split; reflexivity.
Qed.

Lemma adds_value_lines mw lineH lines : forall first w,
  adds mw lines w (value_lines lineH first lines w).
Proof.
  induction lines as [|l rest IH]; intros first w; simpl; [apply adds_refl|].
  change (l :: rest) with ([l] ++ rest)%list.
  eapply adds_trans; [|apply IH].
  apply (adds_trans mw [] [l] w (if first then w else ensureSpace lineH w)).
  - destruct first; [apply adds_refl | apply adds_ensureSpace].
  - destruct rest; intro H; (split; [exact H|]); eexists; split; reflexivity.
Qed.

Lemma adds_block_lines mw lineH values : forall w,
  adds mw values w (block_lines lineH values w).
Proof.
  induction values as [|v rest IH]; intros w; simpl; [apply adds_refl|].
  change (v :: rest) with ([v] ++ rest)%list.
  eapply adds_trans; [|apply IH].
  apply (adds_trans mw [] [v] w (ensureSpace lineH w)); [apply adds_ensureSpace|].
  intro H. split; [exact H|]. eexists. split; reflexivity.
Qed.

Lemma adds_nil_then mw ts w1 w2 w3 :
  adds mw [] w1 w2 -> adds mw ts w2 w3 -> adds mw ts w1 w3.
Proof. intros H1 H2. exact (adds_trans mw [] ts w1 w2 w3 H1 H2). Qed.

Lemma adds_then_nil mw ts w1 w2 w3 :
  adds mw ts w1 w2 -> adds mw [] w2 w3 -> adds mw ts w1 w3.
Proof.
  intros H1 H2. rewrite <- (app_nil_r ts). exact (adds_trans mw ts [] w1 w2 w3 H1 H2).
Qed.

Lemma adds_labelValue_here mw label value opts w :
  adds mw (splitTextToSize (or_num (opt_field valueFontSize opts) 10) (is_bold opts)
                           value (maxValueWidth w))
       w (labelValue label value opts w).
Proof.
  unfold labelValue. cbv zeta.
  set (fs := or_num (opt_field valueFontSize opts) 10).
  set (w0 := on_doc (setFont (is_bold opts)) (on_doc (setFontSize fs) w)).
  change (maxValueWidth w0) with (maxValueWidth w).
  set (lines := splitTextToSize fs (is_bold opts) value (maxValueWidth w)).
  remember (ensureSpace (Js.min (len lines * (fs * 0.4)) (fs * 0.4 + 2)) w0) as w1 eqn:E1.
  assert (A1 : adds mw [] w w1).
  { subst w1. apply (adds_nil_then mw [] w w0);
      [apply adds_same; reflexivity | apply adds_ensureSpace]. }
  match goal with
  | |- adds mw lines w (advance ?a (value_lines ?h true lines ?W)) =>
      apply (adds_nil_then mw lines w W);
        [ apply (adds_nil_then mw [] w w1); [exact A1|];
          intro H; (split; [exact H|]); eexists; split; reflexivity
        | apply (adds_then_nil mw lines W (value_lines h true lines W));
            [apply adds_value_lines | apply adds_advance] ]
  end.
Qed.

Lemma adds_labelValue mw label value opts w :
  adds mw (splitTextToSize (or_num (opt_field valueFontSize opts) 10) (is_bold opts)
                           value mw)
       w (labelValue label value opts w).
Proof.
  intro Hm. pose proof (adds_labelValue_here mw label value opts w Hm) as G.
  rewrite Hm in G. exact G.
Qed.

Lemma adds_labelBlock mw label values w :
  adds mw values w (labelBlock label values w).
Proof.
  unfold labelBlock. cbv zeta.
  remember (ensureSpace (LINE_HEIGHT + 2) w) as w1 eqn:E1.
  assert (A1 : adds mw [] w w1) by (subst w1; apply adds_ensureSpace).
  match goal with
  | |- adds mw values w (advance ?a (block_lines ?h values ?W)) =>
      apply (adds_nil_then mw values w W);
        [ apply (adds_nil_then mw [] w w1); [exact A1|];
          intro H; (split; [exact H|]); eexists; split; reflexivity
        | apply (adds_then_nil mw values W (block_lines h values W));
            [apply adds_block_lines | apply adds_advance] ]
  end.
Qed.

Lemma adds_labelValue_if mw label v w :
  adds mw (lines_if v mw) w (labelValue_if label v w).
Proof.
  unfold labelValue_if, lines_if. destruct v as [| |s]; try apply adds_refl.
  destruct (String.eqb s ""); [apply adds_refl|].
  apply (adds_labelValue mw label s Undefined w).
Qed.

(** X2: [labelValue] draws every wrapped line of the value, in order, in the
    value column, and [labelBlock] every line it is given: a page break in
    the middle of a field loses and reorders nothing. *)
Theorem every_line_is_drawn_in_order (label : string) (w : PdfWriter) :
  (forall value opts,
      exists l,
        content (doc (labelValue label value opts w)) = (content (doc w) ++ l)%list /\
        value_texts l
        = splitTextToSize (or_num (opt_field valueFontSize opts) 10) (is_bold opts)
                          value (maxValueWidth w)) /\
  (forall values,
      exists l,
        content (doc (labelBlock label values w)) = (content (doc w) ++ l)%list /\
        value_texts l = values).
Proof.
  split.
  - intros value opts.
    destruct (adds_labelValue (maxValueWidth w) label value opts w eq_refl) as [_ H].
    exact H.
  - intros values.
    destruct (adds_labelBlock (maxValueWidth w) label values w eq_refl) as [_ H].
    exact H.
Qed.

(** Solves [adds mw ?ts a (f1 (f2 (... a)))], collecting the lines. *)
Ltac adds_step mw a b :=
  lazymatch b with
  | on_doc (setFontSize _) ?w =>
      eapply (adds_then_nil mw _ a w b); [|exact (adds_setFontSize _ _ _)]
  | on_doc (setFont _) ?w =>
      eapply (adds_then_nil mw _ a w b); [|exact (adds_setFont _ _ _)]
  | on_doc (setTextColor _) ?w =>
      eapply (adds_then_nil mw _ a w b); [|exact (adds_setTextColor _ _ _)]
  | on_doc (setDrawColor _) ?w =>
      eapply (adds_then_nil mw _ a w b); [|exact (adds_setDrawColor _ _ _)]
  | advance _ ?w =>
      eapply (adds_then_nil mw _ a w b); [|exact (adds_advance _ _ _)]
  | text_at_y _ VALUE_X ?w =>
      eapply (adds_trans mw _ _ a w b); [|exact (adds_text_value _ _ _)]
  | text_at_y _ LABEL_X ?w =>
      eapply (adds_then_nil mw _ a w b); [|exact (adds_text_label _ _ _)]
  | line_at_y _ _ ?w =>
      eapply (adds_then_nil mw _ a w b); [|exact (adds_line _ _ _ _)]
  | addFooter ?w =>
      eapply (adds_then_nil mw _ a w b); [|exact (adds_addFooter _ _)]
  | ensureSpace _ ?w =>
      eapply (adds_then_nil mw _ a w b); [|exact (adds_ensureSpace _ _ _)]
  | separator ?w =>
      eapply (adds_then_nil mw _ a w b); [|exact (adds_separator _ _)]
  | labelValue _ _ _ ?w =>
      eapply (adds_trans mw _ _ a w b); [|exact (adds_labelValue _ _ _ _ _)]
  | labelBlock _ _ ?w =>
      eapply (adds_trans mw _ _ a w b); [|exact (adds_labelBlock _ _ _ _)]
  | labelValue_if _ _ ?w =>
      eapply (adds_trans mw _ _ a w b); [|exact (adds_labelValue_if _ _ _ _)]
  end.

Ltac adds_chain :=
  lazymatch goal with
  | |- adds ?mw _ ?a ?b =>
      first [ constr_eq a b; exact (adds_refl mw a) | adds_step mw a b; adds_chain ]
  end.

Lemma adds_body device c options w :
  adds (getWidth - VALUE_X - MARGIN_RIGHT) (expected_values device c options)
       w (addFooter (body device c options w)).
Proof.
  assert (G : exists ts,
             adds (getWidth - VALUE_X - MARGIN_RIGHT) ts w
                  (addFooter (body device c options w)) /\
             ts = expected_values device c options).
  { eexists. split.
    - unfold body. cbv zeta. adds_chain.
    - unfold expected_values. cbv zeta. rewrite <- !app_assoc. reflexivity. }
  destruct G as (ts & G & <-). exact G.
Qed.

(** X3: the value column of the finished receipt is, top to bottom and
    across pages: date, counterparty, description, device id, amount,
    reason, the four lines of the issuer block, creation date, the tax
    number and the VAT id where the profile has them, and the signature
    token, each with all its wrapped lines. *)
Theorem receipt_fields_in_order (device : Device) (c : CompanyProfile)
        (options : EigenbelegOptions) :
  exists wf,
    finished device c options = Returns wf /\
    value_texts (content (doc wf)) = expected_values device c options.
Proof.
  destruct (finished_returns device c options) as (w0 & wf & _ & Hw0 & -> & Hfin).
  eexists. split; [exact Hfin|].
  assert (Hm : maxValueWidth w0 = getWidth - VALUE_X - MARGIN_RIGHT)
    by (destruct Hw0 as [-> | [data ->]]; reflexivity).
  destruct (adds_body device c options w0 Hm) as (_ & l & -> & Hl).
  rewrite value_texts_app, Hl.
  destruct Hw0 as [-> | [data ->]]; reflexivity.
Qed.

(** *** A receipt whose values fit on one line each *)

Lemma min_le_l (a b : Q) : Js.min a b <= a.
Proof.
  unfold Js.min. destruct (Qle_bool a b) eqn:E; [apply Qle_refl|].
  apply Qlt_le_weak, Qnot_le_lt. intro H. apply Qle_bool_iff in H. congruence.
Qed.

Lemma len_cons {A} (x : A) (l : list A) : len (x :: l) == 1 + len l.
Proof.
  unfold len.
  replace (Z.of_nat (length (x :: l))) with (1 + Z.of_nat (length l))%Z
    by (simpl length; lia).
  rewrite inject_Z_plus. reflexivity.
Qed.

Lemma below_same pc b w w' :
  pageCount (doc w') = pageCount (doc w) -> y w' = y w ->
  below pc b w -> below pc b w'.
Proof.
  intros Hp Hy [H1 H2]. split; [congruence | rewrite Hy; exact H2].
Qed.

Lemma below_weaken pc b b' w : b <= b' -> below pc b w -> below pc b' w.
Proof.
  intros Hb [H1 H2]. split; [exact H1 | exact (Qle_trans _ _ _ H2 Hb)].
Qed.

Lemma below_advance pc b a w : below pc b w -> below pc (b + a) (advance a w).
Proof.
  intros [H1 H2]. split; [exact H1|]. simpl. apply Qplus_le_compat; [exact H2 | apply Qle_refl].
Qed.

Lemma below_stay pc b n w :
  below pc b w -> b + n <= PAGE_BOTTOM -> ensureSpace n w = w.
Proof.
  intros [_ H2] Hb. apply ensureSpace_stay.
  apply (Qle_trans _ (b + n)); [|exact Hb].
  apply Qplus_le_compat; [exact H2 | apply Qle_refl].
Qed.

Lemma below_ensureSpace pc b n w :
  below pc b w -> b + n <= PAGE_BOTTOM -> below pc b (ensureSpace n w).
Proof.
  intros H Hb. rewrite (below_stay pc b n w H Hb). exact H.
Qed.

Lemma below_separator pc b w :
  below pc b w -> b + 10 <= PAGE_BOTTOM -> below pc (b + 10) (separator w).
Proof.
  intros H Hb. unfold separator. cbv zeta. rewrite (below_stay pc b 10 w H Hb).
  apply below_advance. apply (below_same pc b w); [reflexivity | reflexivity | exact H].
Qed.

Lemma below_labelValue pc b label value opts w :
  one_line -> 0 <= or_num (opt_field valueFontSize opts) 10 ->
  below pc b w ->
  b + or_num (opt_field valueFontSize opts) 10 * 0.4 <= PAGE_BOTTOM ->
  below pc (b + (or_num (opt_field valueFontSize opts) 10 * 0.4 + 2))
        (labelValue label value opts w).
Proof.
  intros Hone Hfs H Hb. unfold labelValue. cbv zeta.
  set (fs := or_num (opt_field valueFontSize opts) 10) in *.
  set (w0 := on_doc (setFont (is_bold opts)) (on_doc (setFontSize fs) w)).
  destruct (Hone fs (is_bold opts) value (maxValueWidth w0)) as [l ->].
  assert (H0 : below pc b w0)
    by (apply (below_same pc b w); [reflexivity | reflexivity | exact H]).
  assert (Hn : b + Js.min (len [l] * (fs * 0.4)) (fs * 0.4 + 2) <= PAGE_BOTTOM).
  { apply (Qle_trans _ (b + len [l] * (fs * 0.4))).
    - apply Qplus_le_compat; [apply Qle_refl | apply min_le_l].
    - apply (Qle_trans _ (b + fs * 0.4)); [|exact Hb].
      apply Qplus_le_compat; [apply Qle_refl|].
      change (len [l]) with (inject_Z 1). rewrite Qmult_1_l. apply Qle_refl. }
  rewrite (below_stay pc b _ w0 H0 Hn). simpl value_lines.
  apply below_advance. apply (below_same pc b w0); [reflexivity | reflexivity | exact H0].
Qed.

Lemma below_labelValue_if pc b label v w :
  one_line -> below pc b w -> b + 10 * 0.4 <= PAGE_BOTTOM ->
  below pc (b + (10 * 0.4 + 2)) (labelValue_if label v w).
Proof.
  intros Hone H Hb. unfold labelValue_if.
  assert (Hw : below pc (b + (10 * 0.4 + 2)) w).
  { apply (below_weaken pc b); [|exact H].
    rewrite <- (Qplus_0_r b) at 1. apply Qplus_le_compat; [apply Qle_refl | discriminate]. }
  destruct v as [| |s]; try exact Hw.
  destruct (String.eqb s ""); [exact Hw|].
  apply (below_labelValue pc b label s Undefined w Hone); [discriminate | exact H | exact Hb].
Qed.

Lemma below_block_lines pc lineH values : forall b w,
  0 <= lineH -> below pc b w -> b + lineH * len values <= PAGE_BOTTOM ->
  below pc (b + lineH * len values) (block_lines lineH values w).
Proof.
  induction values as [|v rest IH]; intros b w Hh H Hb; simpl block_lines.
  - apply (below_weaken pc b); [|exact H].
    change (len (@nil string)) with (inject_Z 0). rewrite Qmult_0_r, Qplus_0_r. apply Qle_refl.
  - assert (Hl := len_nonneg rest). assert (Hc := len_cons v rest).
    assert (Hp : 0 <= lineH * len rest) by (apply Qmult_le_0_compat; assumption).
    assert (He : lineH * len (v :: rest) == lineH + lineH * len rest)
      by (rewrite Hc; ring).
    rewrite He in Hb.
    assert (Hs : b + lineH <= PAGE_BOTTOM) by lra.
    rewrite (below_stay pc b lineH w H Hs).
    apply (below_weaken pc (b + lineH + lineH * len rest)); [rewrite He; lra|].
    apply IH; [exact Hh | | lra].
    apply below_advance.
    apply (below_same pc b w); [reflexivity | reflexivity | exact H].
Qed.

Lemma below_labelBlock pc b label values w :
  below pc b w -> b + (LINE_HEIGHT + 2) <= PAGE_BOTTOM ->
  b + LINE_HEIGHT * len values <= PAGE_BOTTOM ->
  below pc (b + LINE_HEIGHT * len values + 3) (labelBlock label values w).
Proof.
  intros H Hb1 Hb2. unfold labelBlock. cbv zeta.
  rewrite (below_stay pc b _ w H Hb1).
  apply below_advance, below_block_lines; [discriminate | | exact Hb2].
  apply (below_same pc b w); [reflexivity | reflexivity | exact H].
Qed.

Lemma below_setter pc b f w :
  (forall d, pageCount (f d) = pageCount d) ->
  below pc b w -> below pc b (on_doc f w).
Proof.
  intros Hf H. apply (below_same pc b w); [apply Hf | reflexivity | exact H].
Qed.

Lemma below_text pc b s x w : below pc b w -> below pc b (text_at_y s x w).
Proof. apply below_same; reflexivity. Qed.

Lemma below_line pc b x1 x2 w : below pc b w -> below pc b (line_at_y x1 x2 w).
Proof. apply below_same; reflexivity. Qed.

Lemma pageCount_addFooter w : pageCount (doc (addFooter w)) = pageCount (doc w).
Proof.
  unfold addFooter. destruct (String.eqb (footerText w) ""); reflexivity.
Qed.

(** Solves [below pc ?b (f1 (f2 (... w)))] for a variable [w] known to be
    [below], accumulating the heights in [?b]. *)
Ltac qclosed := vm_compute; discriminate.

Ltac below_chain H Hone :=
  lazymatch goal with
  | |- below _ _ ?b =>
      first
        [ is_var b; exact H
        | lazymatch b with
          | on_doc (setFontSize _) ?w => apply below_setter; [reflexivity|]
          | on_doc (setFont _) ?w => apply below_setter; [reflexivity|]
          | on_doc (setTextColor _) ?w => apply below_setter; [reflexivity|]
          | on_doc (setDrawColor _) ?w => apply below_setter; [reflexivity|]
          | advance _ ?w => eapply below_advance
          | text_at_y _ _ ?w => apply below_text
          | line_at_y _ _ ?w => apply below_line
          | ensureSpace _ ?w => eapply below_ensureSpace; [|shelve]
          | separator ?w => eapply below_separator; [|shelve]
          | labelValue _ _ _ ?w =>
              eapply (below_labelValue _ _ _ _ _ _ Hone); [discriminate | | shelve]
          | labelBlock _ _ ?w => eapply below_labelBlock; [|shelve|shelve]
          | labelValue_if _ _ ?w => eapply (below_labelValue_if _ _ _ _ _ Hone); [|shelve]
          end;
          below_chain H Hone ]
  end.

Lemma below_body device c options w :
  one_line -> below 1 25 w ->
  exists b, below 1 b (body device c options w).
Proof.
  intros Hone H. eexists. unfold body. cbv zeta.
  unshelve (below_chain H Hone); qclosed.
Qed.


(** *** Room on the page *)

(** X5: if the requested height fits on an empty page (25 + needed <= 270),
    the space is there after [ensureSpace]; if it does not, every call from
    a cursor at or below the top margin starts yet another page and the
    space is still missing. *)
Theorem ensureSpace_makes_room (needed : Q) (w : PdfWriter) :
  (25 + needed <= PAGE_BOTTOM ->
     y (ensureSpace needed w) + needed <= PAGE_BOTTOM) /\
  (PAGE_BOTTOM < 25 + needed -> 25 <= y w ->
     pageCount (doc (ensureSpace needed w)) = S (pageCount (doc w)) /\
     y (ensureSpace needed w) = 25 /\
     PAGE_BOTTOM < y (ensureSpace needed w) + needed).
Proof.
  split.
  - apply ensureSpace_fits.
  - intros Hbig Hy.
    assert (Hgt : PAGE_BOTTOM < y w + needed).
    { apply (Qlt_le_trans _ _ _ Hbig). apply Qplus_le_compat; [exact Hy | apply Qle_refl]. }
    rewrite (ensureSpace_break _ _ Hgt).
    split; [|split].
    + simpl. rewrite pageCount_addFooter. reflexivity.
    + reflexivity.
    + exact Hbig.
Qed.

(** *** The logo does not move anything *)

Lemma prepend_setFontSize e n w :
  on_doc (setFontSize n) (prepend e w) = prepend e (on_doc (setFontSize n) w).
Proof. reflexivity. Qed.

Lemma prepend_setFont e b w :
  on_doc (setFont b) (prepend e w) = prepend e (on_doc (setFont b) w).
Proof. reflexivity. Qed.

Lemma prepend_setTextColor e c w :
  on_doc (setTextColor c) (prepend e w) = prepend e (on_doc (setTextColor c) w).
Proof. reflexivity. Qed.

Lemma prepend_setDrawColor e c w :
  on_doc (setDrawColor c) (prepend e w) = prepend e (on_doc (setDrawColor c) w).
Proof. reflexivity. Qed.

Lemma prepend_advance e a w : advance a (prepend e w) = prepend e (advance a w).
Proof. reflexivity. Qed.

Lemma prepend_text_at_y e s x w :
  text_at_y s x (prepend e w) = prepend e (text_at_y s x w).
Proof. reflexivity. Qed.

Lemma prepend_line_at_y e x1 x2 w :
  line_at_y x1 x2 (prepend e w) = prepend e (line_at_y x1 x2 w).
Proof. reflexivity. Qed.

Lemma prepend_addFooter e w : addFooter (prepend e w) = prepend e (addFooter w).
Proof.
  unfold addFooter. simpl footerText.
  destruct (String.eqb (footerText w) ""); reflexivity.
Qed.

Lemma prepend_ensureSpace e n w :
  ensureSpace n (prepend e w) = prepend e (ensureSpace n w).
Proof.
  unfold ensureSpace. simpl y. destruct (gt (y w + n) PAGE_BOTTOM); [|reflexivity].
  cbv zeta. rewrite prepend_addFooter. reflexivity.
Qed.

Lemma prepend_separator e w : separator (prepend e w) = prepend e (separator w).
Proof.
  unfold separator. cbv zeta. rewrite prepend_ensureSpace. reflexivity.
Qed.

Lemma prepend_value_lines e lineH lines : forall first w,
  value_lines lineH first lines (prepend e w)
  = prepend e (value_lines lineH first lines w).
Proof.
  induction lines as [|l rest IH]; intros first w; simpl; [reflexivity|].
  destruct first; destruct rest;
    rewrite ?prepend_ensureSpace, ?prepend_text_at_y, ?prepend_advance; apply IH.
Qed.

Lemma prepend_block_lines e lineH values : forall w,
  block_lines lineH values (prepend e w) = prepend e (block_lines lineH values w).
Proof.
  induction values as [|v rest IH]; intros w; simpl; [reflexivity|].
  rewrite prepend_ensureSpace, prepend_text_at_y, prepend_advance. apply IH.
Qed.

Lemma prepend_labelValue e label value opts w :
  labelValue label value opts (prepend e w) = prepend e (labelValue label value opts w).
Proof.
  unfold labelValue. cbv zeta.
  rewrite !prepend_setFontSize, !prepend_setFont.
  change (maxValueWidth (prepend e ?w)) with (maxValueWidth w).
  rewrite prepend_ensureSpace.
  rewrite !prepend_setFontSize, !prepend_setFont, !prepend_setTextColor.
  rewrite prepend_text_at_y.
  rewrite !prepend_setFontSize, !prepend_setFont, !prepend_setTextColor.
  rewrite prepend_value_lines, prepend_advance. reflexivity.
Qed.

Lemma prepend_labelBlock e label values w :
  labelBlock label values (prepend e w) = prepend e (labelBlock label values w).
Proof.
  unfold labelBlock. cbv zeta.
  rewrite prepend_ensureSpace.
  rewrite !prepend_setFontSize, !prepend_setFont, !prepend_setTextColor.
  rewrite prepend_text_at_y, prepend_setTextColor.
  rewrite prepend_block_lines, prepend_advance. reflexivity.
Qed.

Lemma prepend_labelValue_if e label v w :
  labelValue_if label v (prepend e w) = prepend e (labelValue_if label v w).
Proof.
  unfold labelValue_if. destruct v as [| |s]; try reflexivity.
  destruct (String.eqb s ""); [reflexivity | apply prepend_labelValue].
Qed.

Lemma prepend_body e device c options w :
  body device c options (prepend e w) = prepend e (body device c options w).
Proof.
  unfold body. cbv zeta.
  repeat first
    [ rewrite prepend_setFontSize | rewrite prepend_setFont
    | rewrite prepend_setTextColor | rewrite prepend_setDrawColor
    | rewrite prepend_advance | rewrite prepend_text_at_y | rewrite prepend_line_at_y
    | rewrite prepend_ensureSpace | rewrite prepend_separator
    | rewrite prepend_labelValue | rewrite prepend_labelBlock
    | rewrite prepend_labelValue_if ].
  reflexivity.
Qed.

Lemma logo_drawn (c : CompanyProfile) (data : string) (w : PdfWriter) :
  logo_loaded c data ->
  logo c w = Returns (on_doc (draw (Image data (pageWidth w - 65) 15 40 20)) w).
Proof.
  intros (url & r & buffer & Hu & Hne & Hf & Hok & Hb & -> & Hd).
  unfold logo. rewrite Hu.
  destruct (String.eqb_spec url "") as [E|_]; [contradiction|].
  unfold loadLogoAsBase64. rewrite Hf. simpl. rewrite Hok. simpl. rewrite Hb. simpl.
  unfold addImage. unfold data_url in Hd. simpl in Hd. rewrite Hd. reflexivity.
Qed.

Lemma logo_without (c : CompanyProfile) (w : PdfWriter) :
  logo (without_logo c) w = Returns w.
Proof. reflexivity. Qed.

Lemma body_without_logo device (c : CompanyProfile) options w :
  body device (without_logo c) options w = body device c options w.
Proof. unfold body. cbv zeta. reflexivity. Qed.

Lemma content_prepend e w : content (doc (prepend e w)) = e :: content (doc w).
Proof. reflexivity. Qed.

Lemma pageCount_prepend e w : pageCount (doc (prepend e w)) = pageCount (doc w).
Proof. reflexivity. Qed.

(** X6: when the logo loads, the receipt is the receipt of the same profile
    without a logo with one more command, the image at the top right of
    page 1: no text moves and the page count is the same. *)
Theorem logo_changes_nothing_else (device : Device) (c : CompanyProfile)
        (options : EigenbelegOptions) (data : string) :
  logo_loaded c data ->
  exists wf w0,
    finished device c options = Returns wf /\
    finished device (without_logo c) options = Returns w0 /\
    content (doc wf) = (1%nat, Image data (getWidth - 65) 15 40 20) :: content (doc w0) /\
    pageCount (doc wf) = pageCount (doc w0).
Proof.
  intro Hl.
  set (start := setFooter (footer_of c) (constructor new_jsPDF)).
  exists (prepend (1%nat, Image data (getWidth - 65) 15 40 20)
                  (addFooter (body device c options start))),
         (addFooter (body device c options start)).
  split; [|split; [|split]].
  - unfold finished. cbv zeta. fold start.
    rewrite (logo_drawn c data start Hl). simpl bind.
    change (on_doc (draw (Image data (getWidth - 65) 15 40 20)) start)
      with (prepend (1%nat, Image data (getWidth - 65) 15 40 20) start).
    rewrite prepend_body, prepend_addFooter. reflexivity.
  - unfold finished. cbv zeta.
    change (footer_of (without_logo c)) with (footer_of c). fold start.
    rewrite logo_without. simpl bind. rewrite body_without_logo. reflexivity.
  - apply content_prepend.
  - apply pageCount_prepend.
Qed.

End LayoutFacts.

Section LayoutWitnesses.
Import Eigenbeleg Layout.

Lemma unwrapped_one_line : @one_line unwrapped.
Proof. intros fs b s mw. exists s. reflexivity. Defined.


Lemma ensureSpace_makes_room_witness :
  y (ensureSpace 20 bottom_writer) + 20 <= PAGE_BOTTOM /\
  pageCount (doc (ensureSpace 300 top_writer)) = 2%nat.
Proof.
  split.
  - apply (proj1 (ensureSpace_makes_room 20 bottom_writer)). discriminate.
  - apply (proj2 (ensureSpace_makes_room 300 top_writer)); [reflexivity | discriminate].
Defined.

Lemma sample_logo_loaded :
  @logo_loaded unwrapped sample_company "data:image/png;base64,png".
Proof.
  exists "https://example.org/logo.png", (mkResponse true (Returns "png") Null), "png".
  repeat split. discriminate.
Defined.

Lemma logo_changes_nothing_else_witness :
  exists wf w0,
    @finished unwrapped sample_device sample_company sample_options = Returns wf /\
    @finished unwrapped sample_device (without_logo sample_company) sample_options
    = Returns w0 /\
    content (doc wf)
    = (1%nat, Image "data:image/png;base64,png" (@getWidth unwrapped - 65) 15 40 20)
        :: content (doc w0) /\
    pageCount (doc wf) = pageCount (doc w0).
Proof.
  apply (@logo_changes_nothing_else unwrapped sample_device sample_company sample_options).
  exact sample_logo_loaded.
Defined.

End LayoutWitnesses.

(* ===================================================================== *)
(** ** The calculator: how the figures relate *)
(* ===================================================================== *)

Section CalculatorOrder.
Import Calculations.

Lemma resolved_nonneg (d : device) :
  nonneg_inputs d ->
  0 <= purchasePrice_of d /\ 0 <= repairCost_of d /\ 0 <= shippingBuy_of d /\
  0 <= shippingSell_of d /\ 0 <= salesFees_of d /\ 0 <= salePrice_of d.
Proof.
  intros (H1 & H2 & H3 & H4 & H5 & H6 & H7 & H8 & H9 & H10 & H11 & H12).
  repeat split; apply money_nonneg; assumption.
Qed.

Lemma vat_shape (d : device) :
  vat (calculateDeviceFinancials d)
  = if String.eqb (status d) "SOLD" then
      if isDiffTax_of d then
        if gt (salePrice_of d - purchasePrice_of d) 0
        then (salePrice_of d - purchasePrice_of d) * (19 / 119) else 0
      else salePrice_of d * (19 / 119)
    else 0.
Proof. reflexivity. Qed.

Lemma vat_nonneg (d : device) :
  0 <= salePrice_of d -> 0 <= vat (calculateDeviceFinancials d).
Proof.
  intro Hs. rewrite vat_shape. assert (Hc := nineteen_pos).
  destruct (String.eqb (status d) "SOLD"); [|apply Qle_refl].
  destruct (isDiffTax_of d).
  - destruct (gt (salePrice_of d - purchasePrice_of d) 0) eqn:E; [|apply Qle_refl].
    apply gt_true in E.
    apply Qmult_le_0_compat; apply Qlt_le_weak; assumption.
  - apply Qmult_le_0_compat; [exact Hs | apply Qlt_le_weak; exact Hc].
Qed.

Lemma profits_shape (d : device) :
  netProfit (calculateDeviceFinancials d)
  = actualProfit (calculateDeviceFinancials d) - vat (calculateDeviceFinancials d) /\
  actualProfit (calculateDeviceFinancials d)
  = salePrice_of d
    - (purchasePrice_of d + repairCost_of d + shippingBuy_of d
       + shippingSell_of d + salesFees_of d) /\
  taxableMargin (calculateDeviceFinancials d) = salePrice_of d - purchasePrice_of d.
Proof. repeat split. Qed.

(** X7: with non-negative monetary inputs the figures are ordered:
    netProfit <= actualProfit <= taxableMargin.  Tax never raises the profit
    and the costs beyond the purchase price never raise it above the
    margin. *)
Theorem profit_ordering (d : device) :
  nonneg_inputs d ->
  netProfit (calculateDeviceFinancials d) <= actualProfit (calculateDeviceFinancials d) /\
  actualProfit (calculateDeviceFinancials d) <= taxableMargin (calculateDeviceFinancials d).
Proof.
  intro H. destruct (resolved_nonneg d H) as (Hp & Hr & Hb & Hl & Hf & Hs).
  assert (Hv := vat_nonneg d Hs).
  destruct (profits_shape d) as (En & Ea & Em).
  split.
  - rewrite En.
    generalize dependent (vat (calculateDeviceFinancials d)).
    generalize (actualProfit (calculateDeviceFinancials d)).
    intros a v Hv _. lra.
  - rewrite Ea, Em.
    generalize dependent (purchasePrice_of d). generalize dependent (repairCost_of d).
    generalize dependent (shippingBuy_of d). generalize dependent (shippingSell_of d).
    generalize dependent (salesFees_of d). generalize (salePrice_of d).
    intros. lra.
Qed.

(** X8: for one and the same device with non-negative prices, differential
    taxation never yields more VAT than standard taxation. *)
Theorem differential_vat_at_most_standard (d : device) :
  nonneg_inputs d ->
  vat (calculateDeviceFinancials (with_isDiffTax (Def true) d))
  <= vat (calculateDeviceFinancials (with_isDiffTax (Def false) d)).
Proof.
  intro H. destruct (resolved_nonneg d H) as (Hp & _ & _ & _ & _ & Hs).
  rewrite !vat_shape.
  change (status (with_isDiffTax (Def true) d)) with (status d).
  change (status (with_isDiffTax (Def false) d)) with (status d).
  change (isDiffTax_of (with_isDiffTax (Def true) d)) with true.
  change (isDiffTax_of (with_isDiffTax (Def false) d)) with false.
  change (salePrice_of (with_isDiffTax (Def true) d)) with (salePrice_of d).
  change (salePrice_of (with_isDiffTax (Def false) d)) with (salePrice_of d).
  change (purchasePrice_of (with_isDiffTax (Def true) d)) with (purchasePrice_of d).
  destruct (String.eqb (status d) "SOLD"); [|apply Qle_refl].
  assert (Hc := nineteen_pos).
  generalize dependent (purchasePrice_of d). generalize dependent (salePrice_of d).
  intros s Hs p Hp.
  destruct (gt (s - p) 0) eqn:E.
  - apply Qmult_le_compat_r; [lra | apply Qlt_le_weak; exact Hc].
  - apply Qmult_le_0_compat; [exact Hs | apply Qlt_le_weak; exact Hc].
Qed.

End CalculatorOrder.

Section CalculatorOrderWitnesses.
Import Calculations.

Lemma profit_ordering_witness :
  netProfit (calculateDeviceFinancials sample_sold)
  <= actualProfit (calculateDeviceFinancials sample_sold) /\
  actualProfit (calculateDeviceFinancials sample_sold)
  <= taxableMargin (calculateDeviceFinancials sample_sold).
Proof. apply (profit_ordering sample_sold). exact sample_sold_nonneg. Defined.

Lemma differential_vat_at_most_standard_witness :
  vat (calculateDeviceFinancials (with_isDiffTax (Def true) sample_sold))
  <= vat (calculateDeviceFinancials (with_isDiffTax (Def false) sample_sold)).
Proof. apply (differential_vat_at_most_standard sample_sold). exact sample_sold_nonneg. Defined.

End CalculatorOrderWitnesses.

(* ===================================================================== *)
(** ** The export and the monthly report *)
(* ===================================================================== *)

Section ReportFacts.
Import DevicesActions MonthlyReport.
Variable format : string -> outcome string.

Lemma device_row_throws (t : totals) (d : Device) :
  device_row format t d = Throws <-> ~ dates_ok format d.
Proof.
  unfold device_row, dates_ok. cbv zeta.
  destruct (date_cell format (purchase_date d)) as [e|]; simpl.
  - destruct (date_cell format (sale_date d)) as [v|]; simpl.
    + split; [discriminate|]. intro H. exfalso. apply H.
      split; eexists; reflexivity.
    + split; [|reflexivity]. intros _ [_ [s Hs]]. discriminate.
  - split; [|reflexivity]. intros _ [[s Hs] _]. discriminate.
Qed.

Lemma dates_ok_dec_aux (d : Device) : dates_ok format d \/ ~ dates_ok format d.
Proof.
  unfold dates_ok.
  destruct (date_cell format (purchase_date d)) as [e|];
    [|right; intros [[s Hs] _]; discriminate].
  destruct (date_cell format (sale_date d)) as [v|];
    [|right; intros [_ [s Hs]]; discriminate].
  left. split; eexists; reflexivity.
Qed.

Lemma map_devices_throws (devices : list Device) : forall t,
  map_devices format devices t = Throws <->
  exists d, In d devices /\ ~ dates_ok format d.
Proof.
  induction devices as [|d rest IH]; intros t; simpl.
  - split; [discriminate | intros (d & [] & _)].
  - destruct (device_row format t d) as [[t1 r]|] eqn:Er; simpl.
    + assert (Hok : dates_ok format d).
      { destruct (dates_ok_dec_aux d) as [H|H]; [exact H|].
        apply (device_row_throws t d) in H. congruence. }
      destruct (map_devices format rest t1) as [[t2 rs]|] eqn:Em; simpl.
      * split; [discriminate|]. intros (d' & [<- | Hin] & Hbad); [contradiction|].
        assert (Ht : map_devices format rest t1 = Throws)
          by (apply IH; exists d'; split; assumption).
        congruence.
      * split; [|reflexivity]. intros _.
        destruct (proj1 (IH t1) Em) as (d' & Hin & Hbad).
        exists d'. split; [right; exact Hin | exact Hbad].
    + split; [|reflexivity]. intros _. exists d. split; [left; reflexivity|].
      apply (device_row_throws t d). exact Er.
Qed.

(** X9: the export fails in exactly two ways: with "Keine Geräte zum
    Exportieren gefunden" when the list is empty, and with "Export
    fehlgeschlagen" when the list is not empty and some device has a date
    that date-fns cannot format; one such device loses the whole export. *)
Theorem export_failures (devices : list Device) (error : string) :
  exportDevicesToExcel format devices = Failure error <->
  (devices = [] /\ error = "Keine Geräte zum Exportieren gefunden") \/
  (devices <> [] /\ (exists d, In d devices /\ ~ dates_ok format d) /\
   error = "Export fehlgeschlagen").
Proof.
  unfold exportDevicesToExcel. destruct devices as [|d0 rest].
  - split.
    + intro H. injection H as <-. left. split; reflexivity.
    + intros [[_ ->] | [H _]]; [reflexivity | contradiction].
  - destruct (map_devices format (d0 :: rest) zero_totals) as [[t rows]|] eqn:Em.
    + split; [discriminate|]. intros [[H _] | (_ & Hbad & _)]; [discriminate|].
      apply (map_devices_throws (d0 :: rest) zero_totals) in Hbad. congruence.
    + split.
      * intro H. injection H as <-. right. split; [discriminate|].
        split; [|reflexivity]. apply (map_devices_throws (d0 :: rest) zero_totals). exact Em.
      * intros [[H _] | (_ & _ & ->)]; [discriminate | reflexivity].
Qed.

(** *** The monthly report *)

Lemma fold_aggregate_gross (l : list Device) : forall a,
  totalGrossProfit a = totalActualProfit a ->
  totalGrossProfit (fold_left aggregate l a) = totalActualProfit (fold_left aggregate l a).
Proof.
  induction l as [|d l IH]; intros a H; simpl; [exact H|].
  apply IH. simpl. rewrite H. reflexivity.
Qed.

Lemma number_or_0_value (v : Q) : number_or_0 (Def v) == v.
Proof.
  unfold number_or_0. simpl. destruct (Qeq_bool v 0) eqn:E; [|reflexivity].
  apply Qeq_bool_iff in E. symmetry. exact E.
Qed.

Lemma fold_agree (l : list Device) : forall a t,
  agree a t -> agree (fold_left aggregate l a) (fold_left add_device l t).
Proof.
  induction l as [|d l IH]; intros a t H; simpl; [exact H|].
  apply IH. destruct H as (H1 & H2 & H3 & H4 & H5 & H6).
  unfold agree. simpl. rewrite H1, H2, H3, H4, H5.
  repeat split. apply Qplus_comp; [exact H6 | exact (number_or_0_value _)].
Qed.

(** X10: [getMonthlyReport] returns null exactly when nobody is signed in or
    the month string is no date.  Otherwise the report lists the sold
    devices (none when that query failed), counts them, takes a missing
    stock or repair count as 0, and its gross-profit total is the same
    number as its actual-profit total. *)
Theorem monthly_report_shape (user : nullable string) (range : outcome (string * string))
        (soldDevices : nullable (list Device)) (stock repair : nullable nat) :
  (getMonthlyReport user range soldDevices stock repair = Null <->
   absent user \/ range = Throws) /\
  (forall r,
      getMonthlyReport user range soldDevices stock repair = Def r ->
      devices r = match soldDevices with Def l => l | _ => [] end /\
      soldCount r = length (devices r) /\
      stockCount r = count_or_0 stock /\
      repairCount r = count_or_0 repair /\
      kpis r = fold_left aggregate (devices r) no_aggregations /\
      totalGrossProfit (kpis r) = totalActualProfit (kpis r)).
Proof.
  unfold getMonthlyReport. split.
  - destruct user as [| |u]; try (split; [left; unfold absent; auto | reflexivity]).
    destruct range as [rg|].
    + split; [discriminate|]. intros [[H | H] | H]; discriminate.
    + split; [right; reflexivity | reflexivity].
  - intros r H. destruct user as [| |u]; try discriminate.
    destruct range as [rg|]; [|discriminate].
    injection H as <-. simpl. repeat split.
    apply fold_aggregate_gross. reflexivity.
Qed.

(** X11: the totals rows of a successful export are the sums the monthly
    report computes for the devices the export counts (SOLD with a positive
    sale price): revenue, purchase, repair, shipping and fee totals are the
    same computations, the tax totals the same number. *)
Theorem export_agrees_with_report (devices : list Device) (sheet : worksheet)
        (user : string) (rg : string * string) (stock repair : nullable nat) :
  exportDevicesToExcel format devices = Success sheet ->
  exists r t,
    getMonthlyReport (Def user) (Returns rg) (Def (filter counted devices)) stock repair
    = Def r /\
    totalsRows sheet = totals_rows_of t /\
    agree (kpis r) t.
Proof.
  intro H. unfold exportDevicesToExcel in H.
  destruct devices as [|d0 rest]; [discriminate|].
  destruct (map_devices format (d0 :: rest) zero_totals) as [[t rows]|] eqn:Em;
    [|discriminate].
  injection H as <-. destruct (map_devices_inv format _ _ _ _ Em) as [_ ->].
  eexists. eexists. split; [reflexivity|]. split; [reflexivity|].
  apply fold_agree. repeat split.
Qed.

End ReportFacts.

Section ReportWitnesses.
Import DevicesActions MonthlyReport.

Lemma monthly_report_shape_witness :
  exists r,
    getMonthlyReport (Def "u-1") (Returns ("2024-03-01", "2024-03-31"))
                     (Def sample_devices) Null (Def 2%nat) = Def r /\
    soldCount r = 3%nat /\ stockCount r = 0%nat.
Proof.
  eexists. split; [reflexivity|].
  destruct (proj2 (monthly_report_shape (Def "u-1")
                     (Returns ("2024-03-01", "2024-03-31"))
                     (Def sample_devices) Null (Def 2%nat)) _ eq_refl)
    as (_ & Hc & Hs & _).
  split; [exact Hc | exact Hs].
Defined.

Lemma sample_export_succeeds :
  { sheet | exportDevicesToExcel iso_date sample_devices = Success sheet }.
Proof. eexists. vm_compute. reflexivity. Defined.

Lemma export_agrees_with_report_witness :
  exists r t,
    getMonthlyReport (Def "u-1") (Returns ("2024-03-01", "2024-03-31"))
                     (Def (filter counted sample_devices)) Null Null = Def r /\
    totalsRows (proj1_sig sample_export_succeeds) = totals_rows_of t /\
    agree (kpis r) t.
Proof.
  apply (export_agrees_with_report iso_date sample_devices
           (proj1_sig sample_export_succeeds) "u-1" ("2024-03-01", "2024-03-31")).
  exact (proj2_sig sample_export_succeeds).
Defined.

End ReportWitnesses.

(* ===================================================================== *)
(** ** Device transforms, createDevice and updateDevice *)
(* ===================================================================== *)

Section TransformFacts.
Import DeviceTransforms.
Context {P : Platform}.

Lemma assign_fresh (v : value) : assign v VUndefined = v.
Proof. destruct v; reflexivity. Qed.

(** X12: [dbToApp] and [appToDb] are inverse to each other: converting a row
    to the application format and back gives the row, and the other way
    round, property by property (an undefined property stays absent). *)
Theorem transforms_round_trip (db : Db.t) (app : App.t) :
  appToDb (dbToApp db) = db /\ dbToApp (appToDb app) = app.
Proof.
  split.
  - destruct db. unfold appToDb, dbToApp. simpl. rewrite !assign_fresh. reflexivity.
  - destruct app. unfold appToDb, dbToApp. simpl. rewrite !assign_fresh. reflexivity.
Qed.

Lemma parseNumber_not_NaN (val : value) : parseNumber val <> NaN.
Proof.
  unfold parseNumber. destruct val as [| |b|n|s]; try discriminate.
  - simpl. destruct b; discriminate.
  - simpl. destruct n; discriminate.
  - destruct s as [|c s]; [discriminate|].
    destruct (parseFloat (String c s)); discriminate.
Qed.


Lemma parseNumber_amount (val : value) : is_amount (VNumber (parseNumber val)).
Proof. eexists. split; [reflexivity | apply parseNumber_not_NaN]. Qed.

Lemma parseDate_cases (val : value) :
  parseDate val = VNull \/ parseDate val = VString (toISOString val).
Proof.
  unfold parseDate. destruct (negb (truthy val)); [left; reflexivity|].
  destruct (isNaN (getTime val)); [left | right]; reflexivity.
Qed.



End TransformFacts.

Section TransformWitnesses.
Import DeviceTransforms.




End TransformWitnesses.

(* ===================================================================== *)
(** ** Upload actions: file names *)
(* ===================================================================== *)

Section FilenameFacts.
Import UploadActions.
Context {B : Backend}.

Lemma extension_of_match (c : ascii) (r : string) :
  matches_here (String c r) = true ->
  extension_of (String c r) = String c r /\ strip_extension (String c r) = "".
Proof.
  intro H. unfold extension_of.
  change (match_extension (String c r))
    with (if matches_here (String c r) then Def (String c r) else match_extension r).
  change (strip_extension (String c r))
    with (if matches_here (String c r) then "" else String c (strip_extension r)).
  rewrite H. split; reflexivity.
Qed.

Lemma extension_of_skip (c : ascii) (r : string) :
  matches_here (String c r) = false ->
  extension_of (String c r) = extension_of r /\
  strip_extension (String c r) = String c (strip_extension r).
Proof.
  intro H. unfold extension_of.
  change (match_extension (String c r))
    with (if matches_here (String c r) then Def (String c r) else match_extension r).
  change (strip_extension (String c r))
    with (if matches_here (String c r) then "" else String c (strip_extension r)).
  rewrite H. split; reflexivity.
Qed.

Lemma matches_here_shape (s : string) :
  matches_here s = true ->
  exists r, s = String "." r /\ r <> "" /\ plain r = true.
Proof.
  destruct s as [|c r]; [discriminate|]. simpl.
  intro H. apply andb_true_iff in H. destruct H as [H Hp].
  apply andb_true_iff in H. destruct H as [Hc Hr].
  apply Ascii.eqb_eq in Hc. subst c. exists r. repeat split; [|exact Hp].
  intro E. subst r. discriminate.
Qed.

(** X16: the two uses of the expression [/\.[^/.]+$/] split a file name
    without losing anything: the name without its extension followed by the
    extension is the name.  The extension is empty, or a dot followed by at
    least one character, none of them a dot or a slash. *)
Theorem extension_split (s : string) :
  strip_extension s ++ extension_of s = s /\
  (extension_of s = "" \/
   exists r, extension_of s = String "." r /\ r <> "" /\ plain r = true).
Proof.
  induction s as [|c r [IH1 IH2]].
  - split; [reflexivity | left; reflexivity].
  - destruct (matches_here (String c r)) eqn:E.
    + destruct (extension_of_match c r E) as [-> ->]. split; [reflexivity|].
      right. apply matches_here_shape. exact E.
    + destruct (extension_of_skip c r E) as [-> ->]. split; [|exact IH2].
      simpl. rewrite IH1. reflexivity.
Qed.

Lemma plain_with_dot (p r : string) : plain (p ++ String "." r) = false.
Proof.
  induction p as [|c p IH]; simpl; [reflexivity|].
  rewrite IH. apply andb_false_r.
Qed.

Lemma extension_of_append (p r : string) :
  r <> "" -> plain r = true -> extension_of (p ++ String "." r) = String "." r.
Proof.
  intros Hr Hp.
  assert (Hm : matches_here (String "." r) = true).
  { simpl. rewrite Hp. destruct r; [contradiction | reflexivity]. }
  induction p as [|c p IH].
  - apply (extension_of_match "." r Hm).
  - change (String c p ++ String "." r) with (String c (p ++ String "." r)).
    assert (Hn : matches_here (String c (p ++ String "." r)) = false).
    { simpl. rewrite plain_with_dot. apply andb_false_r. }
    rewrite (proj1 (extension_of_skip c _ Hn)). exact IH.
Qed.

Lemma extension_kept (p s : string) :
  extension_of s <> "" -> extension_of (p ++ extension_of s) = extension_of s.
Proof.
  intro Hne.
  destruct (proj2 (extension_split s)) as [E | (r & E & Hr & Hp)]; [contradiction|].
  rewrite E. apply extension_of_append; assumption.
Qed.


End FilenameFacts.

Section FilenameWitnesses.
Import UploadActions.


End FilenameWitnesses.

(* ===================================================================== *)
(** ** Upload actions: a name that is free *)
(* ===================================================================== *)

Section UniqueFacts.
Import UploadActions.
Context {B : Backend}.

(** *** Paths *)

Lemma has_slash_app (a b : string) :
  has_slash (a ++ b) = has_slash a || has_slash b.
Proof.
  unfold has_slash. rewrite list_ascii_app, existsb_app. reflexivity.
Qed.

Lemma has_slash_cons (c : ascii) (r : string) :
  has_slash (String c r) = Ascii.eqb "/" c || has_slash r.
Proof. reflexivity. Qed.

Lemma before_last_slash_app (x t : string) :
  has_slash x = true -> has_slash t = false ->
  before_last_slash (x ++ t) = before_last_slash x.
Proof.
  intros Hx Ht. induction x as [|c r IH]; [discriminate|].
  change (String c r ++ t) with (String c (r ++ t)).
  change (before_last_slash (String c (r ++ t)))
    with (if has_slash (r ++ t) then String c (before_last_slash (r ++ t)) else "").
  change (before_last_slash (String c r))
    with (if has_slash r then String c (before_last_slash r) else "").
  rewrite has_slash_app, Ht, orb_false_r.
  destruct (has_slash r) eqn:E; [|reflexivity].
  rewrite IH; reflexivity.
Qed.

Lemma after_last_slash_app (x t : string) :
  has_slash x = true -> has_slash t = false ->
  after_last_slash (x ++ t) = after_last_slash x ++ t.
Proof.
  intros Hx Ht. induction x as [|c r IH]; [discriminate|].
  change (String c r ++ t) with (String c (r ++ t)).
  change (after_last_slash (String c (r ++ t)))
    with (if has_slash (r ++ t) then after_last_slash (r ++ t)
          else if Ascii.eqb c "/" then r ++ t else String c (r ++ t)).
  change (after_last_slash (String c r))
    with (if has_slash r then after_last_slash r
          else if Ascii.eqb c "/" then r else String c r).
  rewrite has_slash_app, Ht, orb_false_r.
  destruct (has_slash r) eqn:E; [apply IH; reflexivity|].
  rewrite has_slash_cons, E, orb_false_r in Hx.
  rewrite Ascii.eqb_sym in Hx. rewrite Hx. reflexivity.
Qed.

Lemma plain_no_slash (s : string) : plain s = true -> has_slash s = false.
Proof.
  induction s as [|c r IH]; [reflexivity|]. simpl plain. intro H.
  apply andb_true_iff in H. destruct H as [H Hr].
  apply andb_true_iff in H. destruct H as [Hc _].
  rewrite has_slash_cons, (IH Hr), orb_false_r.
  rewrite Ascii.eqb_sym. apply negb_true_iff. exact Hc.
Qed.

Lemma extension_no_slash (s : string) : has_slash (extension_of s) = false.
Proof.
  destruct (proj2 (extension_split s)) as [-> | (r & -> & _ & Hp)]; [reflexivity|].
  rewrite has_slash_cons, (plain_no_slash r Hp). reflexivity.
Qed.

(** *** Numbers as text *)

Lemma uint_digits_are_digits (u : Decimal.uint) (c : ascii) :
  In c (Eigenbeleg.uint_digits u) -> In c (list_ascii_of_string "0123456789").
Proof.
  induction u; simpl Eigenbeleg.uint_digits; [intros [] | ..];
    (intros [<- | H]; [simpl; tauto | exact (IHu H)]).
Qed.

Lemma uint_digits_inj (u v : Decimal.uint) : Eigenbeleg.uint_digits u = Eigenbeleg.uint_digits v -> u = v.
Proof.
  revert v. induction u; destruct v; simpl; intro H; try discriminate H;
    try reflexivity; injection H as H; f_equal; apply IHu; exact H.
Qed.

Lemma string_of_list_ascii_inj (l l' : list ascii) :
  string_of_list_ascii l = string_of_list_ascii l' -> l = l'.
Proof.
  intro H. rewrite <- (list_ascii_of_string_of_list_ascii l),
             <- (list_ascii_of_string_of_list_ascii l'), H. reflexivity.
Qed.

Lemma digits_inj (n m : Z) : (0 <= n)%Z -> (0 <= m)%Z ->
  Eigenbeleg.digits n = Eigenbeleg.digits m -> n = m.
Proof.
  intros Hn Hm H. unfold Eigenbeleg.digits in H.
  apply uint_digits_inj, DecimalN.Unsigned.to_uint_inj in H.
  apply (f_equal Z.of_N) in H. rewrite !Z2N.id in H; assumption.
Qed.

Lemma digits_no_sign (n : Z) (s : string) :
  string_of_list_ascii (Eigenbeleg.digits n) <> String "-" s.
Proof.
  intro H. apply (f_equal list_ascii_of_string) in H.
  rewrite list_ascii_of_string_of_list_ascii in H.
  assert (Hin : In "-"%char (Eigenbeleg.digits n)) by (rewrite H; left; reflexivity).
  apply uint_digits_are_digits in Hin. simpl in Hin.
  repeat (destruct Hin as [Hin | Hin]; [discriminate Hin|]). exact Hin.
Qed.

Lemma show_inj (n m : Z) : show n = show m -> n = m.
Proof.
  unfold show. intro H.
  destruct (Z.ltb_spec n 0) as [Hn | Hn], (Z.ltb_spec m 0) as [Hm | Hm]; simpl in H.
  - injection H as H. apply string_of_list_ascii_inj, digits_inj in H; lia.
  - symmetry in H. apply digits_no_sign in H. contradiction.
  - apply digits_no_sign in H. contradiction.
  - apply string_of_list_ascii_inj, digits_inj in H; lia.
Qed.

Lemma show_no_slash (n : Z) : has_slash (show n) = false.
Proof.
  unfold show. rewrite has_slash_app.
  assert (H : has_slash (string_of_list_ascii (Eigenbeleg.digits (Z.abs n))) = false).
  { unfold has_slash. rewrite list_ascii_of_string_of_list_ascii.
    destruct (existsb _ _) eqn:E; [|reflexivity].
    apply existsb_exists in E. destruct E as (c & Hin & Hc).
    apply Ascii.eqb_eq in Hc. subst c.
    apply uint_digits_are_digits in Hin. simpl in Hin.
    repeat (destruct Hin as [Hin | Hin]; [discriminate Hin|]). contradiction. }
  rewrite H. destruct (n <? 0)%Z; reflexivity.
Qed.

Lemma append_inv_head (a x y : string) : a ++ x = a ++ y -> x = y.
Proof.
  induction a as [|c a IH]; simpl; intro H; [exact H|].
  injection H as H. exact (IH H).
Qed.

Lemma append_inv_tail (x y e : string) : x ++ e = y ++ e -> x = y.
Proof.
  intro H. apply (f_equal list_ascii_of_string) in H.
  rewrite !list_ascii_app in H. apply app_inv_tail in H.
  rewrite <- (string_of_list_ascii_of_string x),
          <- (string_of_list_ascii_of_string y), H. reflexivity.
Qed.

(** *** The names the loop tries *)

Lemma unique_loop_step (fuel : nat) (basePath baseFilename extension result : string)
      (counter : nat) :
  unique_loop (S fuel) basePath baseFilename extension result counter
  = if fileExists (basePath ++ "/" ++ result)
    then unique_loop fuel basePath baseFilename extension
           (baseFilename ++ "_" ++ show (now counter + Z.of_nat counter) ++ extension)
           (S counter)
    else Some result.
Proof. reflexivity. Qed.

Section Names.
Variables userId yearMonth deviceId filename : string.

Local Notation "'basePath'" :=
  (userId ++ "/" ++ yearMonth ++ "/" ++ deviceId) (only parsing).
Local Notation "'stem'" := (stem_of userId yearMonth deviceId filename) (only parsing).
Local Notation "'tail'" := (tail_of filename) (only parsing).

Lemma stem_has_slash : has_slash stem = true.
Proof.
  unfold stem_of. rewrite has_slash_app.
  change ("/" ++ strip_extension filename) with (String "/" (strip_extension filename)).
  rewrite has_slash_cons. simpl. apply orb_true_r.
Qed.

Lemma tail_no_slash (n : nat) : has_slash (tail n) = false.
Proof.
  unfold tail_of. change ("_" ++ ?x) with (String "_" x).
  rewrite has_slash_cons, has_slash_app, show_no_slash, extension_no_slash.
  reflexivity.
Qed.

Lemma path_of_filename :
  basePath ++ "/" ++ filename = stem ++ extension_of filename.
Proof.
  unfold stem_of. rewrite !string_app_assoc.
  rewrite (proj1 (extension_split filename)). reflexivity.
Qed.

Lemma path_of_candidate (n : nat) :
  basePath ++ "/" ++ candidate filename n = stem ++ tail n.
Proof.
  unfold stem_of, tail_of, candidate. rewrite !string_app_assoc. reflexivity.
Qed.

Lemma dir_of_filename :
  before_last_slash (basePath ++ "/" ++ filename) = before_last_slash stem.
Proof.
  rewrite path_of_filename.
  apply before_last_slash_app; [apply stem_has_slash | apply extension_no_slash].
Qed.

Lemma dir_of_candidate (n : nat) :
  before_last_slash (basePath ++ "/" ++ candidate filename n) = before_last_slash stem.
Proof.
  rewrite path_of_candidate.
  apply before_last_slash_app; [apply stem_has_slash | apply tail_no_slash].
Qed.

Lemma fileExists_entries (p : string) :
  fileExists p
  = existsb (fun file => String.eqb file (after_last_slash p))
            (entries (before_last_slash p)).
Proof.
  unfold entries, fileExists.
  destruct (list_dir (before_last_slash p)) as [[| |l']| |]; reflexivity.
Qed.

Lemma tail_inj (j k : nat) :
  steady -> tail j = tail k -> j = k.
Proof.
  intros Hclock H. unfold tail_of in H.
  apply append_inv_head, append_inv_tail, show_inj in H.
  assert (Hmono : forall a b, (a <= b)%nat -> (now a <= now b)%Z).
  { intros a b Hab. induction Hab; [lia|]. specialize (Hclock m). lia. }
  destruct (Nat.lt_trichotomy j k) as [L | [E | L]]; [|exact E|].
  - specialize (Hmono j k). lia.
  - specialize (Hmono k j). lia.
Qed.

Lemma first_free (P : nat -> bool) (n : nat) :
  (forall k, (k < n)%nat -> P k = true) \/ (exists k, (k < n)%nat /\ P k = false).
Proof.
  induction n as [|n [IH | (k & Hk & Hf)]].
  - left. intros k Hk. lia.
  - destruct (P n) eqn:E.
    + left. intros k Hk. destruct (Nat.eq_dec k n) as [-> | Hne]; [exact E|].
      apply IH. lia.
    + right. exists n. split; [lia | exact E].
  - right. exists k. split; [lia | exact Hf].
Qed.

(** Among the first candidates, one more than the directory has entries,
    one is not in the directory. *)
Lemma a_candidate_is_free :
  steady ->
  exists k, (k <= length (entries (before_last_slash (basePath ++ "/" ++ filename))))%nat /\
            fileExists (basePath ++ "/" ++ candidate filename k) = false.
Proof.
  intros Hclock. rewrite dir_of_filename.
  set (l := entries (before_last_slash stem)).
  destruct (first_free (fun k => fileExists (basePath ++ "/" ++ candidate filename k))
                       (S (length l))) as [Hall | (k & Hk & Hf)].
  - exfalso.
    set (names := map (fun k => after_last_slash stem ++ tail k) (seq 0 (S (length l)))).
    assert (Hnd : NoDup names).
    { unfold names. apply NoDup_map_NoDup_ForallPairs; [|apply seq_NoDup].
      intros j k _ _ H. apply append_inv_head in H.
      apply (tail_inj j k Hclock H). }
    assert (Hincl : incl names l).
    { intros x Hx. unfold names in Hx. apply in_map_iff in Hx.
      destruct Hx as (k & <- & Hk). apply in_seq in Hk.
      specialize (Hall k ltac:(lia)).
      rewrite fileExists_entries, dir_of_candidate in Hall. fold l in Hall.
      apply existsb_exists in Hall. destruct Hall as (file & Hin & He).
      apply String.eqb_eq in He. subst file.
      rewrite path_of_candidate, after_last_slash_app in Hin
        by (apply stem_has_slash || apply tail_no_slash).
      exact Hin. }
    pose proof (NoDup_incl_length Hnd Hincl) as Hlen.
    unfold names in Hlen. rewrite length_map, length_seq in Hlen. lia.
  - exists k. split; [lia | exact Hf].
Qed.

Lemma unique_loop_sound (fuel : nat) : forall (result : string) (counter : nat) (r : string),
  unique_loop fuel basePath (strip_extension filename) (extension_of filename)
              result counter = Some r ->
  fileExists (basePath ++ "/" ++ r) = false /\
  (r = result \/
   exists n, (counter <= n < counter + fuel)%nat /\ r = candidate filename n).
Proof.
  induction fuel as [|fuel IH]; intros result counter r H; [discriminate|].
  rewrite unique_loop_step in H.
  destruct (fileExists (basePath ++ "/" ++ result)) eqn:E.
  - apply IH in H. destruct H as [Hf [-> | (n & Hn & ->)]].
    + split; [exact Hf|]. right. exists counter. split; [lia | reflexivity].
    + split; [exact Hf|]. right. exists n. split; [lia | reflexivity].
  - injection H as <-. split; [exact E | left; reflexivity].
Qed.

Lemma unique_loop_finds (m : nat) : forall (fuel counter : nat) (result : string),
  fileExists (basePath ++ "/" ++ candidate filename (counter + m)) = false ->
  (m + 2 <= fuel)%nat ->
  exists r, unique_loop fuel basePath (strip_extension filename) (extension_of filename)
                        result counter = Some r.
Proof.
  induction m as [|m IH]; intros fuel counter result Hfree Hfuel.
  - destruct fuel as [|[|fuel]]; try lia. rewrite Nat.add_0_r in Hfree.
    rewrite unique_loop_step.
    destruct (fileExists (basePath ++ "/" ++ result)); [|eexists; reflexivity].
    rewrite unique_loop_step.
    unfold candidate in Hfree. rewrite Hfree. eexists; reflexivity.
  - destruct fuel as [|fuel]; [lia|].
    rewrite unique_loop_step.
    destruct (fileExists (basePath ++ "/" ++ result)); [|eexists; reflexivity].
    apply IH; [|lia]. rewrite Nat.add_succ_comm. exact Hfree.
Qed.

End Names.

(** X18: the name [getUniqueFilename] returns is not in the listing of the
    directory; it is the name given, when that one is free, and else the
    name with a time stamp before its extension, which it keeps. *)
Theorem unique_name_is_free (fuel : nat) (userId yearMonth deviceId filename r : string) :
  getUniqueFilename fuel userId yearMonth deviceId filename = Some r ->
  let basePath := userId ++ "/" ++ yearMonth ++ "/" ++ deviceId in
  fileExists (basePath ++ "/" ++ r) = false /\
  (fileExists (basePath ++ "/" ++ filename) = false -> r = filename) /\
  (r = filename \/
   exists n, (n < fuel)%nat /\
     r = strip_extension filename ++ "_" ++ show (now n + Z.of_nat n)
         ++ extension_of filename) /\
  (extension_of filename <> "" -> extension_of r = extension_of filename).
Proof.
  intros H basePath. unfold getUniqueFilename in H. cbv zeta in H.
  pose proof (unique_loop_sound userId yearMonth deviceId filename fuel filename 0 r H)
    as [Hfree Hshape].
  split; [exact Hfree|]. split; [|split].
  - intro Hf. destruct fuel as [|fuel]; [discriminate|].
    rewrite unique_loop_step in H.
    fold basePath in H. rewrite Hf in H. injection H as <-. reflexivity.
  - destruct Hshape as [-> | (n & Hn & ->)]; [left; reflexivity|].
    right. exists n. split; [lia | reflexivity].
  - intro Hne. destruct Hshape as [-> | (n & Hn & ->)]; [reflexivity|].
    unfold candidate. rewrite <- !string_app_assoc. apply extension_kept. exact Hne.
Qed.

(** X19: the loop of [getUniqueFilename] ends: when the clock does not go
    backwards, a directory with n entries (or one that cannot be listed)
    lets it return after at most n + 2 tests. *)
Theorem unique_name_found (fuel : nat) (userId yearMonth deviceId filename : string) :
  steady ->
  (length (entries (before_last_slash
                      ((userId ++ "/" ++ yearMonth ++ "/" ++ deviceId) ++ "/" ++ filename)))
   + 2 <= fuel)%nat ->
  exists r, getUniqueFilename fuel userId yearMonth deviceId filename = Some r.
Proof.
  intros Hclock Hfuel.
  destruct (a_candidate_is_free userId yearMonth deviceId filename Hclock)
    as (k & Hk & Hfree).
  unfold getUniqueFilename. cbv zeta.
  apply (unique_loop_finds userId yearMonth deviceId filename k); [exact Hfree | lia].
Qed.

End UniqueFacts.

Section UniqueWitnesses.
Import UploadActions.

Lemma unique_name_is_free_witness :
  @fileExists sample_backend
    ("u-1/2024-03/RS-1" ++ "/" ++ "Rechnung_RS-1_2024-06-01_1717243200000.pdf") = false.
Proof.
  exact (proj1 (@unique_name_is_free sample_backend 5 "u-1" "2024-03" "RS-1"
                  "Rechnung_RS-1_2024-06-01.pdf"
                  "Rechnung_RS-1_2024-06-01_1717243200000.pdf" eq_refl)).
Defined.

Lemma sample_steady : @steady sample_backend.
Proof. intro n. cbv beta iota delta [now sample_backend]. lia. Qed.

Lemma unique_name_found_witness :
  exists r, @getUniqueFilename sample_backend 3 "u-1" "2024-03" "RS-1"
              "Rechnung_RS-1_2024-06-01.pdf" = Some r.
Proof.
  apply (@unique_name_found sample_backend 3 "u-1" "2024-03" "RS-1"
           "Rechnung_RS-1_2024-06-01.pdf").
  - exact sample_steady.
  - vm_compute. lia.
Defined.

End UniqueWitnesses.

(* ===================================================================== *)
(** ** Upload actions: uploadDeviceFile *)
(* ===================================================================== *)

Section UploadFacts.
Import UploadActions.
Context {B : Backend}.

Lemma allowed_type (t : string) :
  existsb (String.eqb t) ALLOWED_MIME_TYPES = true -> In t ALLOWED_MIME_TYPES.
Proof.
  intro H. apply existsb_exists in H. destruct H as (x & Hin & He).
  apply String.eqb_eq in He. subst x. exact Hin.
Qed.

Lemma path_assoc (u ym d r : string) :
  (u ++ "/" ++ ym ++ "/" ++ d) ++ "/" ++ r = u ++ "/" ++ ym ++ "/" ++ d ++ "/" ++ r.
Proof. rewrite !string_app_assoc. reflexivity. Qed.

(** What [uploadDeviceFile] does once the checks are passed and the name is
    chosen. *)
Lemma upload_steps (fuel : nat) (user device : nullable string) (deviceId : string)
      (file : nullable File) (category : nullable string) (out : result * list call) :
  uploadDeviceFile fuel user device deviceId file category = Some out ->
  snd out = [] /\ (exists e, fst out = Failure e) \/
  exists uid pd f r,
    user = Def uid /\ device = Def pd /\ file = Def f /\
    (size f <= MAX_FILE_SIZE)%Z /\ In (type f) ALLOWED_MIME_TYPES /\
    getUniqueFilename fuel uid (yearMonth pd) deviceId
      (generateStructuredFilename (or_str category "OTHER") deviceId (name f)) = Some r /\
    let p := uid ++ "/" ++ yearMonth pd ++ "/" ++ deviceId ++ "/" ++ r in
    let row := mkRow deviceId uid r p (size f) (type f) (or_str category "OTHER") in
    match upload p f with
    | Thrown m => out = (caught m, [StorageUpload p f])
    | Failed m => out = (Failure (or_str (Def m) "File upload failed"), [StorageUpload p f])
    | Fine =>
        match insert row with
        | Thrown m => out = (caught m, [StorageUpload p f; Insert row])
        | Failed _ =>
            (exists e, fst out = Failure e) /\
            snd out = [StorageUpload p f; Insert row; StorageRemove p]
        | Fine => out = (Success p r,
                         [StorageUpload p f; Insert row;
                          Revalidate ("/devices/" ++ deviceId)])
        end
    end.
Proof.
  unfold uploadDeviceFile.
  destruct user as [| |uid]; try (intro H; injection H as <-; left; split; [reflexivity | eexists; reflexivity]).
  destruct device as [| |pd]; try (intro H; injection H as <-; left; split; [reflexivity | eexists; reflexivity]).
  destruct file as [| |f]; try (intro H; injection H as <-; left; split; [reflexivity | eexists; reflexivity]).
  cbv zeta.
  destruct (Z.gtb_spec (size f) MAX_FILE_SIZE) as [Hs | Hs];
    [intro H; injection H as <-; left; split; [reflexivity | eexists; reflexivity]|].
  destruct (existsb (String.eqb (type f)) ALLOWED_MIME_TYPES) eqn:Ht;
    [|intro H; injection H as <-; left; split; [reflexivity | eexists; reflexivity]].
  cbn [negb].
  destruct (getUniqueFilename fuel uid (yearMonth pd) deviceId _) as [r|] eqn:Hu;
    [|discriminate].
  intro H. right. exists uid, pd, f, r.
  repeat (split; [first [reflexivity | exact Hs | exact (allowed_type _ Ht) | exact Hu]|]).
  cbv zeta.
  destruct (upload _ f) as [|m|m]; [|injection H as <-; reflexivity..].
  destruct (insert _) as [|m|m]; [injection H as <-; reflexivity | | injection H as <-; reflexivity].
  destruct (remove _); injection H as <-; (split; [eexists; reflexivity | reflexivity]).
Qed.

(** X20: [uploadDeviceFile] stores a file only for a signed-in user, a
    device of that user, a file of at most 10 MB of an allowed type; the path
    is in the user's own folder, under the month of purchase and the device,
    and no entry of that name is listed there. *)
Theorem upload_is_guarded (fuel : nat) (user device : nullable string)
        (deviceId : string) (file : nullable File) (category : nullable string)
        (res : result) (calls : list call) (p : string) (f : File) :
  uploadDeviceFile fuel user device deviceId file category = Some (res, calls) ->
  In (StorageUpload p f) calls ->
  exists uid pd r,
    user = Def uid /\ device = Def pd /\ file = Def f /\
    (size f <= MAX_FILE_SIZE)%Z /\ In (type f) ALLOWED_MIME_TYPES /\
    p = uid ++ "/" ++ yearMonth pd ++ "/" ++ deviceId ++ "/" ++ r /\
    fileExists p = false.
Proof.
  intros H Hin. apply upload_steps in H.
  destruct H as [[Hc _] | (uid & pd & f' & r & Hu & Hd & Hf & Hs & Ht & Hr & H)].
  - simpl in Hc. subst calls. contradiction.
  - cbv zeta in H.
    assert (Hp : p = uid ++ "/" ++ yearMonth pd ++ "/" ++ deviceId ++ "/" ++ r /\ f = f').
    { destruct (upload _ f') as [|m|m];
        [destruct (insert _) as [|m|m]; [| destruct H as [_ H]; simpl in H |] |..];
        try injection H as _ H; subst calls; simpl in Hin;
        repeat (destruct Hin as [Hin | Hin]; [try discriminate Hin|]);
        try contradiction; injection Hin as <- <-; split; reflexivity. }
    destruct Hp as [-> ->]. exists uid, pd, r.
    repeat (split; [assumption || reflexivity|]).
    apply unique_name_is_free in Hr. cbv zeta in Hr.
    rewrite <- path_assoc. exact (proj1 Hr).
Qed.

(** X21: what [uploadDeviceFile] leaves behind.  It reports success only
    after storing the file and inserting its row (owned by the user, with the
    path of the stored file), in that order.  When it reports a failure,
    nothing was stored, or the upload itself did not succeed, or the database
    refused the row and the stored file is removed again -- or the insert
    raised an exception: then the file remains in storage without a row, for
    the removal is not in the handler of exceptions. *)
Theorem upload_outcomes (fuel : nat) (user device : nullable string)
        (deviceId : string) (file : nullable File) (category : nullable string)
        (res : result) (calls : list call) :
  uploadDeviceFile fuel user device deviceId file category = Some (res, calls) ->
  (forall p fn, res = Success p fn ->
     exists f row,
       calls = [StorageUpload p f; Insert row; Revalidate ("/devices/" ++ deviceId)] /\
       upload p f = Fine /\ insert row = Fine /\
       file = Def f /\ user = Def (owner_user_id row) /\
       file_path row = p /\ file_name row = fn /\ device_id row = deviceId /\
       file_size row = size f /\ file_type row = type f) /\
  (forall e, res = Failure e ->
     calls = [] \/
     (exists p f, calls = [StorageUpload p f] /\ upload p f <> Fine) \/
     (exists p f row m, calls = [StorageUpload p f; Insert row; StorageRemove p] /\
                        file_path row = p /\ insert row = Failed m) \/
     (exists p f row m, calls = [StorageUpload p f; Insert row] /\
                        file_path row = p /\ insert row = Thrown m)).
Proof.
  intro H. apply upload_steps in H.
  destruct H as [[Hc [e He]] | (uid & pd & f & r & Hu & Hd & Hf & Hs & Ht & Hr & H)].
  - simpl in Hc, He. subst calls res. split; [discriminate|]. intros _ _. left. reflexivity.
  - cbv zeta in H.
    destruct (upload _ f) as [|m|m] eqn:Eu.
    + destruct (insert _) as [|m|m] eqn:Ei.
      * injection H as -> ->. split; [|discriminate].
        intros p fn Hp. injection Hp as <- <-.
        eexists f, _. split; [reflexivity|].
        split; [exact Eu|]. split; [exact Ei|].
        simpl. subst user file. repeat split.
      * destruct H as [[e He] Hc]. simpl in He, Hc. subst res calls.
        split; [discriminate|]. intros _ _. right. right. left.
        eexists _, f, _, m. split; [reflexivity|]. split; [reflexivity | exact Ei].
      * injection H as -> ->. split; [discriminate|]. intros _ _. right. right. right.
        eexists _, f, _, m. split; [reflexivity|]. split; [reflexivity | exact Ei].
    + injection H as -> ->. split; [discriminate|]. intros _ _. right. left.
      exists (uid ++ "/" ++ yearMonth pd ++ "/" ++ deviceId ++ "/" ++ r), f.
      split; [reflexivity|]. rewrite Eu. discriminate.
    + injection H as -> ->. split; [discriminate|]. intros _ _. right. left.
      exists (uid ++ "/" ++ yearMonth pd ++ "/" ++ deviceId ++ "/" ++ r), f.
      split; [reflexivity|]. rewrite Eu. discriminate.
Qed.


End UploadFacts.

Section UploadWitnesses.
Import UploadActions.

Lemma upload_is_guarded_witness :
  exists uid pd r,
    Def "u-1" = Def uid /\ Def "2024-03-05" = Def pd /\ Def sample_file = Def sample_file /\
    (size sample_file <= MAX_FILE_SIZE)%Z /\ In (type sample_file) ALLOWED_MIME_TYPES /\
    "u-1/2024-03/RS-1/Rechnung_RS-1_2024-06-01.PDF"
    = uid ++ "/" ++ @yearMonth sample_backend pd ++ "/" ++ "RS-1" ++ "/" ++ r /\
    @fileExists sample_backend "u-1/2024-03/RS-1/Rechnung_RS-1_2024-06-01.PDF" = false.
Proof.
  eapply (@upload_is_guarded sample_backend 5 (Def "u-1") (Def "2024-03-05") "RS-1"
            (Def sample_file) (Def "INVOICE")).
  - reflexivity.
  - left. reflexivity.
Defined.

Lemma upload_outcomes_witness :
  exists p f row m,
    @uploadDeviceFile refusing 5 (Def "u-1") (Def "2024-03-05") "RS-1"
      (Def sample_file) (Def "")
    = Some (Failure "Failed to save file metadata",
            [StorageUpload p f; Insert row; StorageRemove p]) /\
    file_path row = p /\
    @insert refusing row = Failed m.
Proof.
  destruct (proj2 (@upload_outcomes refusing 5 (Def "u-1") (Def "2024-03-05") "RS-1"
                     (Def sample_file) (Def "") _ _ eq_refl) _ eq_refl)
    as [H | [(p & f & H & _) | [(p & f & row & m & H & Hp & Hm)
                               | (p & f & row & m & H & _)]]];
    try discriminate H.
  injection H as <- <- <-.
  eexists _, _, _, m. split; [reflexivity | split; [reflexivity | exact Hm]].
Defined.


End UploadWitnesses.
